(** * Phishing awareness testing framework: the campaign store

    A shallow embedding of [src/Project/phishing_tester.py] (class
    [PhishingSimulator]) and the properties of its campaign / employee /
    result store.

    Modelling conventions.
    - A Python [str] is a [string] holding its UTF-8 bytes.  The only string
      operation that looks inside a string is [str.replace] with an ASCII
      pattern, which acts the same on code points and on UTF-8 bytes.
    - Python [int] is [Z]; Python [float] is the IEEE binary64 [float] of the
      standard library, with its own division and multiplication.
    - The three SQLite tables are lists of rows in rowid (insertion) order.
      Columns into which the program only ever writes a Python [str] are
      [string]; columns that can hold NULL are [option string].
    - [uuid.uuid4()] and [datetime.now().isoformat()] read two oracles, a
      stream of identifiers and a stream of clock readings; the world counts
      how many values of each were consumed.
    - A [with sqlite3.connect(...)] block commits when its body returns and
      rolls the database back when its body raises.
    - [os.makedirs] and [open(path, 'w')] ask the file system, an oracle that
      answers for each path whether the call succeeds or which exception it
      raises; a file that could be opened is written in full.
    - Opening the database is assumed to succeed. *)

From Stdlib Require Import List String Ascii Bool ZArith Lia PeanoNat.
From Stdlib Require Import Floats DecimalString Permutation.
Import ListNotations.
Local Open Scope string_scope.

(* ===================================================================== *)
(** * Python values *)

(** The exceptions the program raises or catches.  [Sqlite3Error] stands for
    [sqlite3.Error] and its subclasses, [OSError] for the subclasses of
    [OSError] other than [FileNotFoundError]; the payload is [str(e)]. *)
Inductive Exception : Type :=
| ValueError (msg : string)
| RuntimeError (msg : string)
| FileNotFoundError (msg : string)
| OSError (msg : string)
| Sqlite3Error (msg : string).

Definition str_exc (e : Exception) : string :=
  match e with
  | ValueError m | RuntimeError m | FileNotFoundError m | OSError m
  | Sqlite3Error m => m
  end.

Inductive Outcome (A : Type) : Type :=
| Returns (a : A)
| Raises (e : Exception).
Arguments Returns {A} a.
Arguments Raises {A} e.

Definition option_eqb (a b : option string) : bool :=
  match a, b with
  | Some x, Some y => String.eqb x y
  | None, None => true
  | _, _ => false
  end.

(** [x in xs] for a list of strings. *)
Definition mem (x : string) (xs : list string) : bool :=
  existsb (String.eqb x) xs.

(** All elements pairwise different. *)
Fixpoint distinct (xs : list string) : bool :=
  match xs with
  | [] => true
  | x :: r => negb (mem x r) && distinct r
  end.

(* ===================================================================== *)
(** * [str.replace] *)

(** Left-to-right scan for a non-empty pattern: [skip] counts the characters
    of a matched occurrence that are still to be dropped. *)
Fixpoint replace_from (old new s : string) (skip : nat) : string :=
  match s with
  | EmptyString => EmptyString
  | String c s' =>
      match skip with
      | S k => replace_from old new s' k
      | O =>
          if String.prefix old s
          then new ++ replace_from old new s' (String.length old - 1)
          else String c (replace_from old new s' 0)
      end
  end.

(** With an empty pattern Python inserts [new] before every character and at
    the end. *)
Fixpoint intersperse_all (new s : string) : string :=
  match s with
  | EmptyString => new
  | String c s' => new ++ String c (intersperse_all new s')
  end.

(** [s.replace(old, new)]: every non-overlapping occurrence, leftmost
    first. *)
Definition py_replace (old new s : string) : string :=
  match old with
  | EmptyString => intersperse_all new s
  | _ => replace_from old new s 0
  end.

(* ===================================================================== *)
(** * Template catalog ([EmailTemplate], [_load_templates]) *)

Record EmailTemplate : Type := mkTemplate {
  t_name : string;
  t_subject : string;
  t_body : string;
  t_sender : string;
  t_difficulty : string
}.

Definition nl : string := String (ascii_of_nat 10) EmptyString.

Definition password_reset : EmailTemplate :=
  mkTemplate "password_reset" "Срочный сброс пароля"
    ("Уважаемый сотрудник," ++ nl ++ nl ++
     "Наша система безопасности обнаружила подозрительную активность." ++ nl ++
     "Для защиты данных требуется немедленный сброс пароля." ++ nl ++ nl ++
     "Ссылка: {link}" ++ nl ++ nl ++
     "С уважением," ++ nl ++
     "Отдел ИБ")
    "security@company.com" "low".

Definition software_update : EmailTemplate :=
  mkTemplate "software_update" "Критическое обновление ПО"
    ("Здравствуйте," ++ nl ++ nl ++
     "Требуется установить обновление безопасности." ++ nl ++
     "Пожалуйста, перейдите по ссылке для установки:" ++ nl ++ nl ++
     "{link}" ++ nl ++ nl ++
     "С уважением," ++ nl ++
     "IT отдел")
    "it-support@company.com" "medium".

Definition ceo_request : EmailTemplate :=
  mkTemplate "ceo_request" "Срочный запрос от руководства"
    ("Добрый день," ++ nl ++ nl ++
     "Прошу вас ознакомиться с важным документом." ++ nl ++
     "Доступ по ссылке:" ++ nl ++ nl ++
     "{link}" ++ nl ++ nl ++
     "С уважением," ++ nl ++
     "Генеральный директор")
    "ceo@company.com" "high".

(** The dict returned by [_load_templates], as its items. *)
Definition _load_templates : list (string * EmailTemplate) :=
  [ ("password_reset", password_reset);
    ("software_update", software_update);
    ("ceo_request", ceo_request) ].

(** [self.templates.get(key)] *)
Fixpoint templates_get (ts : list (string * EmailTemplate)) (key : string)
  : option EmailTemplate :=
  match ts with
  | [] => None
  | (k, t) :: r => if String.eqb k key then Some t else templates_get r key
  end.

(** [key in self.templates] *)
Definition in_templates (ts : list (string * EmailTemplate)) (key : string)
  : bool :=
  mem key (map fst ts).

(* ===================================================================== *)
(** * The database ([_init_database]) *)

Record Campaign : Type := mkCampaign {
  c_id : string;              (* TEXT PRIMARY KEY *)
  c_name : string;            (* TEXT NOT NULL *)
  c_template : string;        (* TEXT NOT NULL *)
  c_created : string;         (* TEXT NOT NULL *)
  c_status : string           (* TEXT DEFAULT 'active' *)
}.

Record Employee : Type := mkEmployee {
  e_id : string;                  (* TEXT PRIMARY KEY *)
  e_email : string;               (* TEXT UNIQUE NOT NULL *)
  e_name : option string;         (* TEXT *)
  e_department : option string;   (* TEXT *)
  e_campaign_id : string          (* TEXT, declared to reference campaigns(id) *)
}.

Record Result : Type := mkResult {
  r_id : string;                  (* TEXT PRIMARY KEY *)
  r_employee_id : string;         (* TEXT, declared to reference employees(id) *)
  r_campaign_id : string;         (* TEXT, declared to reference campaigns(id) *)
  r_email_sent : Z;               (* INTEGER DEFAULT 0 *)
  r_link_clicked : Z;             (* INTEGER DEFAULT 0 *)
  r_phishing_reported : Z;        (* INTEGER DEFAULT 0 *)
  r_clicked_at : option string;   (* TEXT *)
  r_reported_at : option string;  (* TEXT *)
  r_token : string                (* TEXT UNIQUE *)
}.

Record Database : Type := mkDatabase {
  campaigns : list Campaign;
  employees : list Employee;
  results : list Result
}.

(** The tables right after [CREATE TABLE IF NOT EXISTS] on a new file. *)
Definition empty_database : Database := mkDatabase [] [] [].

(** The outcome of one SQL statement: the new tables, or the text of the
    [sqlite3.IntegrityError] it raised.  The program never switches
    [PRAGMA foreign_keys] on, so SQLite checks the PRIMARY KEY, UNIQUE and
    NOT NULL constraints only. *)
Inductive Executed : Type :=
| Done (d : Database)
| Failed (msg : string).

(** [INSERT INTO campaigns (id, name, template, created) VALUES (?,?,?,?)] *)
Definition insert_campaign (id name template created : string) (d : Database)
  : Executed :=
  if mem id (map c_id (campaigns d))
  then Failed "UNIQUE constraint failed: campaigns.id"
  else Done (mkDatabase
               (campaigns d ++ [mkCampaign id name template created "active"])
               (employees d) (results d)).

(** [INSERT OR IGNORE INTO employees (id, email, name, department,
    campaign_id) VALUES (?,?,?,?,?)]: a row that breaks NOT NULL on email,
    the primary key or UNIQUE on email is skipped without an error. *)
Definition insert_or_ignore_employee
    (id : string) (email name department : option string)
    (campaign_id : string) (d : Database) : Database :=
  match email with
  | None => d
  | Some em =>
      if mem id (map e_id (employees d)) || mem em (map e_email (employees d))
      then d
      else mkDatabase (campaigns d)
             (employees d ++ [mkEmployee id em name department campaign_id])
             (results d)
  end.

(** [INSERT INTO results (id, employee_id, campaign_id, token)
    VALUES (?,?,?,?)].  When both the id and the token are taken SQLite
    names the token. *)
Definition insert_result (id employee_id campaign_id token : string)
    (d : Database) : Executed :=
  if mem token (map r_token (results d))
  then Failed "UNIQUE constraint failed: results.token"
  else if mem id (map r_id (results d))
  then Failed "UNIQUE constraint failed: results.id"
  else Done (mkDatabase (campaigns d) (employees d)
               (results d ++
                [mkResult id employee_id campaign_id 0 0 0 None None token])).

(** [SELECT name, template FROM campaigns WHERE id = ?] then [fetchone()] *)
Definition select_campaign (campaign_id : string) (d : Database)
  : option (string * string) :=
  match filter (fun c => String.eqb (c_id c) campaign_id) (campaigns d) with
  | [] => None
  | c :: _ => Some (c_name c, c_template c)
  end.

(** The employee rows SQLite finds for a result row: those with the id the
    result row references, of the given campaign. *)
Definition employees_of_result (campaign_id : string) (d : Database)
    (r : Result) : list Employee :=
  filter (fun e => String.eqb (e_id e) (r_employee_id r) &&
                   String.eqb (e_campaign_id e) campaign_id)
         (employees d).

(** The rows of [FROM employees e JOIN results r ON e.id = r.employee_id
    WHERE e.campaign_id = ?], in the order SQLite produces them: it scans
    [results] in rowid order and looks the employee up through the index of
    the primary key [employees.id]. *)
Definition join_employees_results (campaign_id : string) (d : Database)
  : list (Employee * Result) :=
  flat_map
    (fun r => map (fun e => (e, r)) (employees_of_result campaign_id d r))
    (results d).

(** [SELECT e.email, e.name, r.token FROM employees e JOIN results r ...]
    then [fetchall()] *)
Definition select_recipients (campaign_id : string) (d : Database)
  : list (string * option string * string) :=
  map (fun er => (e_email (fst er), e_name (fst er), r_token (snd er)))
      (join_employees_results campaign_id d).

Definition set_email_sent (r : Result) : Result :=
  mkResult (r_id r) (r_employee_id r) (r_campaign_id r)
           1 (r_link_clicked r) (r_phishing_reported r)
           (r_clicked_at r) (r_reported_at r) (r_token r).

Definition set_link_clicked (at_ : string) (r : Result) : Result :=
  mkResult (r_id r) (r_employee_id r) (r_campaign_id r)
           (r_email_sent r) 1 (r_phishing_reported r)
           (Some at_) (r_reported_at r) (r_token r).

Definition set_phishing_reported (at_ : string) (r : Result) : Result :=
  mkResult (r_id r) (r_employee_id r) (r_campaign_id r)
           (r_email_sent r) (r_link_clicked r) 1
           (r_clicked_at r) (Some at_) (r_token r).

(** An [UPDATE results SET ... WHERE ...]: the new tables and
    [cursor.rowcount]. *)
Definition update_results (where_ : Result -> bool) (set : Result -> Result)
    (d : Database) : Database * nat :=
  (mkDatabase (campaigns d) (employees d)
     (map (fun r => if where_ r then set r else r) (results d)),
   List.length (filter where_ (results d))).

(** [UPDATE results SET email_sent = 1 WHERE token = ?] *)
Definition update_email_sent (token : string) : Database -> Database * nat :=
  update_results (fun r => String.eqb (r_token r) token) set_email_sent.

(** [UPDATE results SET link_clicked = 1, clicked_at = ? WHERE token = ?] *)
Definition update_link_clicked (at_ token : string)
  : Database -> Database * nat :=
  update_results (fun r => String.eqb (r_token r) token) (set_link_clicked at_).

(** [UPDATE results SET phishing_reported = 1, reported_at = ?
    WHERE employee_id IN (SELECT id FROM employees
                          WHERE email = ? AND campaign_id = ?)] *)
Definition update_phishing_reported (at_ email campaign_id : string)
    (d : Database) : Database * nat :=
  update_results
    (fun r =>
       mem (r_employee_id r)
           (map e_id
                (filter (fun e => String.eqb (e_email e) email &&
                                  String.eqb (e_campaign_id e) campaign_id)
                        (employees d))))
    (set_phishing_reported at_) d.

(** A value of SQLite's 64-bit INTEGER. *)
Definition int64 (z : Z) : bool :=
  ((- 2 ^ 63 <=? z) && (z <? 2 ^ 63))%Z.

(** The running total of SQL [SUM] over an INTEGER column, row by row in
    the order of the scan: [None] as soon as it leaves the 64-bit range. *)
Fixpoint running_total (acc : Z) (xs : list Z) : option Z :=
  match xs with
  | [] => Some acc
  | x :: r =>
      if int64 (acc + x) then running_total (acc + x)%Z r else None
  end.

(** Whether [SUM] over the column fails with "integer overflow". *)
Definition sum_overflows (xs : list Z) : bool :=
  match running_total 0 xs with
  | Some _ => false
  | None => true
  end.

(** The value of SQL [SUM] over a column when it does not overflow: NULL on
    no rows, else the sum. *)
Definition sql_sum (xs : list Z) : option Z :=
  match xs with
  | [] => None
  | _ => Some (fold_right Z.add 0%Z xs)
  end.

(** [SELECT COUNT( * ), SUM(email_sent), SUM(link_clicked),
    SUM(phishing_reported) FROM results WHERE campaign_id = ?] *)
Definition select_totals (campaign_id : string) (d : Database)
  : Z * option Z * option Z * option Z :=
  let rs := filter (fun r => String.eqb (r_campaign_id r) campaign_id)
                   (results d) in
  (Z.of_nat (List.length rs),
   sql_sum (map r_email_sent rs),
   sql_sum (map r_link_clicked rs),
   sql_sum (map r_phishing_reported rs)).

(** Whether that statement fails with "integer overflow". *)
Definition totals_overflow (campaign_id : string) (d : Database) : bool :=
  let rs := filter (fun r => String.eqb (r_campaign_id r) campaign_id)
                   (results d) in
  sum_overflows (map r_email_sent rs) ||
  sum_overflows (map r_link_clicked rs) ||
  sum_overflows (map r_phishing_reported rs).

Definition option_string_dec (a b : option string) : {a = b} + {a <> b}.
Proof. decide equality. apply string_dec. Defined.

(** The order of SQLite on a TEXT column: NULL first, then the strings by
    their bytes (collation BINARY). *)
Definition department_leb (a b : option string) : bool :=
  match a, b with
  | None, _ => true
  | Some _, None => false
  | Some x, Some y => String.leb x y
  end.

Fixpoint insert_department (x : option string) (l : list (option string))
  : list (option string) :=
  match l with
  | [] => [x]
  | y :: r =>
      if department_leb x y then x :: l else y :: insert_department x r
  end.

Definition sort_departments (l : list (option string))
  : list (option string) :=
  fold_right insert_department [] l.

(** The department values of the joined rows, each once. *)
Definition joined_departments (campaign_id : string) (d : Database)
  : list (option string) :=
  nodup option_string_dec
        (map (fun er => e_department (fst er))
             (join_employees_results campaign_id d)).

(** The joined rows of one department. *)
Definition department_group (campaign_id : string) (d : Database)
    (dept : option string) : list (Employee * Result) :=
  filter (fun er => option_eqb (e_department (fst er)) dept)
         (join_employees_results campaign_id d).

(** [SELECT e.department, COUNT( * ), SUM(r.link_clicked),
    SUM(r.phishing_reported) FROM employees e JOIN results r
    ON e.id = r.employee_id WHERE e.campaign_id = ? GROUP BY e.department]:
    one row per department value of the joined rows, NULL being a group of
    its own.  SQLite groups through a sort on the department, so the groups
    come in that order. *)
Definition select_department_totals (campaign_id : string) (d : Database)
  : list (option string * Z * option Z * option Z) :=
  map (fun dept =>
         let g := department_group campaign_id d dept in
         (dept, Z.of_nat (List.length g),
          sql_sum (map (fun er => r_link_clicked (snd er)) g),
          sql_sum (map (fun er => r_phishing_reported (snd er)) g)))
      (sort_departments (joined_departments campaign_id d)).

(** Whether that statement fails with "integer overflow". *)
Definition department_totals_overflow (campaign_id : string) (d : Database)
  : bool :=
  existsb
    (fun dept =>
       let g := department_group campaign_id d dept in
       sum_overflows (map (fun er => r_link_clicked (snd er)) g) ||
       sum_overflows (map (fun er => r_phishing_reported (snd er)) g))
    (joined_departments campaign_id d).

(* ===================================================================== *)
(** * Numbers: [int / int], [round(x, 2)] *)

(** A Python number as the statistics hold it: the [int] literal [0] or a
    [float]. *)
Inductive Number : Type :=
| PyInt (z : Z)
| PyFloat (x : float).

(** [float(z)]; exact for [|z| <= 2^53]. *)
Definition float_of_int (z : Z) : float :=
  if (z <? 0)%Z
  then PrimFloat.opp (PrimFloat.of_uint63 (Uint63.of_Z (- z)))
  else PrimFloat.of_uint63 (Uint63.of_Z z).

(** [a / b] on two ints with [b <> 0]: for operands up to [2^53] in
    magnitude, which covers every row count of a SQLite table, CPython
    divides the two exact floats. *)
Definition int_truediv (a b : Z) : float :=
  PrimFloat.div (float_of_int a) (float_of_int b).

(** The integer nearest to [num / den] for [den > 0], ties to the even
    one. *)
Definition round_half_even (num den : Z) : Z :=
  let q := (num / den)%Z in
  let r := (num mod den)%Z in
  if (2 * r <? den)%Z then q
  else if (den <? 2 * r)%Z then (q + 1)%Z
  else if Z.even q then q else (q + 1)%Z.

(** [round(x, 2)] on a float: the decimal with two fractional digits nearest
    to the exact value of [x] (ties to even), converted to the nearest float.
    For [|x| >= 2^46] the spacing of floats exceeds 0.01 and the result is
    [x]; below, the scaled integer is under [2^53] and dividing it by 100
    is that conversion. *)
Definition py_round2 (x : float) : float :=
  match Prim2SF x with
  | S754_finite s m e =>
      if (-7 <? e)%Z then x
      else
        let n := round_half_even (100 * Z.pos m) (2 ^ (- e)) in
        let y := PrimFloat.div (float_of_int n) (float_of_int 100) in
        if s then PrimFloat.opp y else y
  | _ => x
  end.

(** [round(part / total * 100, 2) if total > 0 else 0] *)
Definition rate (part total : Z) : Number :=
  if (0 <? total)%Z
  then PyFloat (py_round2 (PrimFloat.mul (int_truediv part total)
                                         (float_of_int 100)))
  else PyInt 0.

(** [x or 0] for an int or [None]. *)
Definition or_zero (x : option Z) : Z :=
  match x with
  | Some v => v
  | None => 0%Z
  end.

(** [x or 0] for an int. *)
Definition int_or_zero (x : Z) : Z :=
  if (x =? 0)%Z then 0%Z else x.

(** [str(n)] for a non-negative int. *)
Definition str_nat (n : nat) : string :=
  NilZero.string_of_uint (Nat.to_uint n).

(* ===================================================================== *)
(** * The world and the monad of the methods *)

Record World : Type := mkWorld {
  db : Database;                     (* the committed tables *)
  entropy : nat;                     (* [uuid4()] values drawn so far *)
  ticks : nat;                       (* [datetime.now()] readings so far *)
  stdout : list string;              (* lines printed, oldest first *)
  written : list (string * string)   (* files written: name, content *)
}.

Definition M (A : Type) : Type := World -> Outcome A * World.

Definition ret {A} (a : A) : M A := fun w => (Returns a, w).

Definition bind {A B} (m : M A) (k : A -> M B) : M B :=
  fun w =>
    match m w with
    | (Returns a, w') => k a w'
    | (Raises e, w') => (Raises e, w')
    end.

Definition raise {A} (e : Exception) : M A := fun w => (Raises e, w).

Notation "x <- m ;; k" := (bind m (fun x => k))
  (at level 61, m at next level, right associativity).
Notation "m ;;; k" := (bind m (fun _ => k))
  (at level 61, right associativity).

(** [try: body  except sqlite3.Error as e: handler(str(e))] *)
Definition except_sqlite3 {A} (body : M A) (handler : string -> M A) : M A :=
  fun w =>
    match body w with
    | (Raises (Sqlite3Error msg), w') => handler msg w'
    | other => other
    end.

(** [with sqlite3.connect(self.db_path) as conn: body] *)
Definition with_connection {A} (body : M A) : M A :=
  fun w =>
    match body w with
    | (Returns a, w') => (Returns a, w')
    | (Raises e, w') =>
        (Raises e,
         mkWorld (db w) (entropy w') (ticks w') (stdout w') (written w'))
    end.

Definition set_db (d : Database) (w : World) : World :=
  mkWorld d (entropy w) (ticks w) (stdout w) (written w).

(** [cursor.execute] of a statement that can break a constraint. *)
Definition execute (stmt : Database -> Executed) : M unit :=
  fun w =>
    match stmt (db w) with
    | Done d => (Returns tt, set_db d w)
    | Failed msg => (Raises (Sqlite3Error msg), w)
    end.

(** [cursor.execute] of a statement that cannot. *)
Definition execute_ignore (stmt : Database -> Database) : M unit :=
  fun w => (Returns tt, set_db (stmt (db w)) w).

(** [cursor.execute] of an UPDATE, returning [cursor.rowcount]. *)
Definition execute_update (stmt : Database -> Database * nat) : M nat :=
  fun w => (Returns (snd (stmt (db w))), set_db (fst (stmt (db w))) w).

(** [cursor.execute] of a SELECT followed by a fetch. *)
Definition query {A} (q : Database -> A) : M A :=
  fun w => (Returns (q (db w)), w).

(** [cursor.execute] of a SELECT with [SUM] columns followed by a fetch:
    [sqlite3.OperationalError] when a sum overflows. *)
Definition query_sums {A} (overflows : Database -> bool) (q : Database -> A)
  : M A :=
  fun w =>
    if overflows (db w)
    then (Raises (Sqlite3Error "integer overflow"), w)
    else (Returns (q (db w)), w).

Definition print (line : string) : M unit :=
  fun w =>
    (Returns tt,
     mkWorld (db w) (entropy w) (ticks w) (stdout w ++ [line]) (written w)).

(** What the file system answers during one call of a method: for a path,
    [None] when the operation succeeds, else the exception it raises (for
    [open], [FileNotFoundError] when a directory of the path does not
    exist). *)
Record FileSystem : Type := mkFileSystem {
  fs_makedirs : string -> option Exception;  (* os.makedirs(path, exist_ok=True) *)
  fs_open : string -> option Exception       (* open(path, 'w', ...) *)
}.

(** [os.makedirs(path, exist_ok=True)] *)
Definition makedirs (fs : FileSystem) (path : string) : M unit :=
  fun w =>
    match fs_makedirs fs path with
    | None => (Returns tt, w)
    | Some e => (Raises e, w)
    end.

(** [with open(name, 'w') as f: f.write(...)] *)
Definition write_file (fs : FileSystem) (name content : string) : M unit :=
  fun w =>
    match fs_open fs name with
    | None =>
        (Returns tt,
         mkWorld (db w) (entropy w) (ticks w) (stdout w)
                 (written w ++ [(name, content)]))
    | Some e => (Raises e, w)
    end.

(** [for x in xs: body(x)] *)
Fixpoint for_each {A} (xs : list A) (body : A -> M unit) : M unit :=
  match xs with
  | [] => ret tt
  | x :: r => body x ;;; for_each r body
  end.

(** A row of [csv.DictReader]: the header's field names with the row's
    values, [None] where the row is shorter than the header. *)
Definition Row : Type := list (string * option string).

(** [key in row] *)
Definition row_has (key : string) (row : Row) : bool :=
  mem key (map fst row).

(** [row[key]] for a key the row has. *)
Fixpoint row_get (key : string) (row : Row) : option string :=
  match row with
  | [] => None
  | (k, v) :: r => if String.eqb k key then v else row_get key r
  end.

(** [all(key in row for key in ['email', 'name', 'department'])] *)
Definition has_required_fields (row : Row) : bool :=
  forallb (fun key => row_has key row) ["email"; "name"; "department"].

(** The per-department entry of the statistics. *)
Record DepartmentStats : Type := mkDepartmentStats {
  department : option string;
  total : Z;
  clicked : Z;
  reported : Z
}.

(** The dict returned by [get_stats]. *)
Record StatsReport : Type := mkStatsReport {
  total_employees : Z;
  emails_sent : Z;
  links_clicked : Z;
  phishing_reported : Z;
  click_rate : Number;
  report_rate : Number;
  department_stats : list DepartmentStats
}.

(** Sample oracles for the worked examples. *)
Definition sample_uuid (n : nat) : string := "uuid-" ++ str_nat n.
Definition sample_clock (n : nat) : string := "2024-01-01T00:00:0" ++ str_nat n.

Definition initial_world : World := mkWorld empty_database 0 0 [] [].

(* ===================================================================== *)
(** * The methods of [PhishingSimulator] *)

Section Simulator.

(** The values [uuid.uuid4()] returns, in the order of the calls. *)
Variable uuid_stream : nat -> string.
(** The values [datetime.now().isoformat()] returns, in the order of the
    calls. *)
Variable clock_stream : nat -> string.
(** What [csv.DictReader] reads from a path: [None] when there is no such
    file, else the rows of the file. *)
Variable csv_files : string -> option (list Row).
(** The file system the emails are written to. *)
Variable file_system : FileSystem.

(** [str(uuid.uuid4())] *)
Definition uuid4 : M string :=
  fun w =>
    (Returns (uuid_stream (entropy w)),
     mkWorld (db w) (S (entropy w)) (ticks w) (stdout w) (written w)).

(** [datetime.now().isoformat()] *)
Definition now_isoformat : M string :=
  fun w =>
    (Returns (clock_stream (ticks w)),
     mkWorld (db w) (entropy w) (S (ticks w)) (stdout w) (written w)).

(** [self.templates] *)
Definition templates : list (string * EmailTemplate) := _load_templates.

Definition create_campaign (name template : string) : M string :=
  if negb (in_templates templates template)
  then raise (ValueError ("Неизвестный шаблон: " ++ template))
  else
    campaign_id <- uuid4 ;;
    except_sqlite3
      (with_connection
         (created <- now_isoformat ;;
          execute (insert_campaign campaign_id name template created)) ;;;
       print ("Создана кампания: " ++ name ++ " (ID: " ++ campaign_id ++ ")") ;;;
       ret campaign_id)
      (fun e => raise (RuntimeError ("Ошибка создания кампании: " ++ e))).

(** The first [try] block of [add_employees]: reading and validating the
    file.  Nothing here touches the world. *)
Fixpoint validate_rows (rows : list Row) : Outcome (list Row) :=
  match rows with
  | [] => Returns []
  | row :: rest =>
      if negb (has_required_fields row)
      then Raises (ValueError
                     "CSV должен содержать поля: email, name, department")
      else match validate_rows rest with
           | Returns employees => Returns (row :: employees)
           | Raises e => Raises e
           end
  end.

Definition read_employees (employees_file : string) : Outcome (list Row) :=
  let body :=
    match csv_files employees_file with
    | None => Raises (FileNotFoundError employees_file)
    | Some rows =>
        match validate_rows rows with
        | Returns [] => Raises (ValueError "Файл не содержит данных")
        | other => other
        end
    end in
  match body with
  | Returns employees => Returns employees
  | Raises (FileNotFoundError _) =>
      Raises (FileNotFoundError ("Файл не найден: " ++ employees_file))
  | Raises e => Raises (RuntimeError ("Ошибка чтения CSV: " ++ str_exc e))
  end.

(** The body of the loop [for emp in employees] of [add_employees]. *)
Definition enroll (campaign_id : string) (emp : Row) : M unit :=
  emp_id <- uuid4 ;;
  token <- uuid4 ;;
  execute_ignore
    (insert_or_ignore_employee emp_id (row_get "email" emp)
       (row_get "name" emp) (row_get "department" emp) campaign_id) ;;;
  result_id <- uuid4 ;;
  execute (insert_result result_id emp_id campaign_id token).

Definition add_employees (campaign_id employees_file : string) : M unit :=
  match read_employees employees_file with
  | Raises e => raise e
  | Returns employees =>
      except_sqlite3
        (with_connection
           (for_each employees (enroll campaign_id) ;;;
            print ("Добавлено сотрудников: " ++
                   str_nat (List.length employees))))
        (fun e =>
           raise (RuntimeError ("Ошибка добавления сотрудников: " ++ e)))
  end.

(** The text written for one recipient. *)
Definition email_document (template : EmailTemplate)
    (campaign_name email token : string) : string :=
  let tracking_link := "http://localhost:8080/track/" ++ token in
  let email_content := py_replace "{link}" tracking_link (t_body template) in
  "Кому: " ++ email ++ nl ++
  "Тема: " ++ t_subject template ++ nl ++
  "От: " ++ t_sender template ++ nl ++
  nl ++ email_content ++ nl ++
  nl ++ "---" ++ nl ++
  "Тестовое письмо для кампании: " ++ campaign_name ++ nl ++
  "Токен отслеживания: " ++ token ++ nl.

Definition email_filename (output_dir email : string) : string :=
  output_dir ++ "/" ++ py_replace "@" "_" email ++ ".txt".

(** The body of the loop [for email, name, token in employees] of
    [generate_emails]. *)
Definition send_one (template : EmailTemplate)
    (campaign_name output_dir : string)
    (recipient : string * option string * string) : M unit :=
  let '(email, _, token) := recipient in
  write_file file_system (email_filename output_dir email)
             (email_document template campaign_name email token) ;;;
  except_sqlite3
    (with_connection
       (execute_update (update_email_sent token) ;;; ret tt))
    (fun _ => ret tt).

Definition generate_emails (campaign_id output_dir : string) : M unit :=
  found <-
    except_sqlite3
      (with_connection
         (campaign_data <- query (select_campaign campaign_id) ;;
          match campaign_data with
          | None => raise (ValueError "Кампания не найдена")
          | Some (campaign_name, template_name) =>
              match templates_get templates template_name with
              | None =>
                  raise (ValueError ("Шаблон не найден: " ++ template_name))
              | Some template =>
                  employees <- query (select_recipients campaign_id) ;;
                  ret (campaign_name, template, employees)
              end
          end))
      (fun e => raise (RuntimeError ("Ошибка БД: " ++ e))) ;;
  let '(campaign_name, template, employees) := found in
  makedirs file_system output_dir ;;;
  for_each employees (send_one template campaign_name output_dir) ;;;
  print ("Сгенерировано писем: " ++ str_nat (List.length employees)) ;;;
  print ("Письма сохранены в: " ++ output_dir ++ "/").

Definition simulate_click (token : string) : M unit :=
  except_sqlite3
    (with_connection
       (at_ <- now_isoformat ;;
        rowcount <- execute_update (update_link_clicked at_ token) ;;
        if Nat.eqb rowcount 0
        then print ("Токен не найден: " ++ token)
        else print "Клик зарегистрирован"))
    (fun e => print ("Ошибка БД: " ++ e)).

Definition report_phishing (email campaign_id : string) : M unit :=
  except_sqlite3
    (with_connection
       (at_ <- now_isoformat ;;
        rowcount <-
          execute_update (update_phishing_reported at_ email campaign_id) ;;
        if Nat.eqb rowcount 0
        then print "Сотрудник не найден в кампании"
        else print "Отчет зарегистрирован"))
    (fun e => print ("Ошибка БД: " ++ e)).

(** The dict built by the [return] of [get_stats] from the two fetched
    query results. *)
Definition stats_of
    (totals : Z * option Z * option Z * option Z)
    (dept_stats : list (option string * Z * option Z * option Z))
  : StatsReport :=
  let '(total, sent, clicked, reported) := totals in
  let total := int_or_zero total in
  let sent := or_zero sent in
  let clicked := or_zero clicked in
  let reported := or_zero reported in
  mkStatsReport total sent clicked reported
    (rate clicked total) (rate reported total)
    (map (fun row =>
            let '(dept, dept_total, dept_clicked, dept_reported) := row in
            mkDepartmentStats dept dept_total
              (or_zero dept_clicked) (or_zero dept_reported))
         dept_stats).

Definition get_stats (campaign_id : string) : M StatsReport :=
  fetched <-
    except_sqlite3
      (with_connection
         (totals <- query_sums (totals_overflow campaign_id)
                               (select_totals campaign_id) ;;
          dept_stats <- query_sums (department_totals_overflow campaign_id)
                                   (select_department_totals campaign_id) ;;
          ret (totals, dept_stats)))
      (fun e => raise (RuntimeError ("Ошибка БД: " ++ e))) ;;
  ret (stats_of (fst fetched) (snd fetched)).

End Simulator.

(** The statistics of a campaign as a function of the tables: what
    [get_stats] returns when no sum overflows. *)
Definition stats (campaign_id : string) (d : Database) : StatsReport :=
  stats_of (select_totals campaign_id d)
           (select_department_totals campaign_id d).

(** Whether one of the two statements of [get_stats] fails with "integer
    overflow". *)
Definition stats_overflow (campaign_id : string) (d : Database) : bool :=
  totals_overflow campaign_id d || department_totals_overflow campaign_id d.

(* ===================================================================== *)
(** * Sessions: sequences of method calls on a new database *)

(** One call of a method of the simulator.  [AddEmployees] carries the
    state of the input files at the time of the call, [GenerateEmails] the
    file system it writes to.  [export_report] and [list_campaigns] read the
    tables through [get_stats] and a SELECT and write none of them. *)
Inductive Call : Type :=
| CreateCampaign (name template : string)
| AddEmployees (csv_files : string -> option (list Row))
               (campaign_id employees_file : string)
| GenerateEmails (file_system : FileSystem)
                 (campaign_id output_dir : string)
| SimulateClick (token : string)
| ReportPhishing (email campaign_id : string)
| GetStats (campaign_id : string).

(** The world after a call, whether it returned or raised. *)
Definition call (uuid_stream clock_stream : nat -> string)
    (c : Call) (w : World) : World :=
  match c with
  | CreateCampaign name template =>
      snd (create_campaign uuid_stream clock_stream name template w)
  | AddEmployees csv_files campaign_id employees_file =>
      snd (add_employees uuid_stream csv_files campaign_id employees_file w)
  | GenerateEmails file_system campaign_id output_dir =>
      snd (generate_emails file_system campaign_id output_dir w)
  | SimulateClick token => snd (simulate_click clock_stream token w)
  | ReportPhishing email campaign_id =>
      snd (report_phishing clock_stream email campaign_id w)
  | GetStats campaign_id => snd (get_stats campaign_id w)
  end.

Definition run (uuid_stream clock_stream : nat -> string)
    (calls : list Call) : World :=
  fold_left (fun w c => call uuid_stream clock_stream c w) calls
            initial_world.

(** The first [n] values of [uuid.uuid4()] are pairwise different. *)
Definition fresh_uuids (uuid_stream : nat -> string) (n : nat) : bool :=
  distinct (map uuid_stream (seq 0 n)).

(* ===================================================================== *)
(** * Specification vocabulary *)

(** ** Replacing every occurrence *)

(** [old] occurs in [s]. *)
Definition occurs (old s : string) : Prop := exists a b, s = a ++ old ++ b.

(** In [a ++ old] the only occurrence of [old] is the final one, so that in
    [a ++ old ++ b] the leftmost occurrence starts right after [a]. *)
Definition leftmost (old a : string) : Prop :=
  forall a' c, a ++ old = a' ++ old ++ c -> c = "".

(** [Replaced old new s t]: [t] is [s] with every occurrence of [old],
    taken from the left, replaced by [new]. *)
Inductive Replaced (old new : string) : string -> string -> Prop :=
| Replaced_none s : ~ occurs old s -> Replaced old new s s
| Replaced_next a b b' :
    leftmost old a -> Replaced old new b b' ->
    Replaced old new (a ++ old ++ b) (a ++ new ++ b').

(** ** Rendering *)

Definition recipient_token (x : string * option string * string) : string :=
  snd x.

(** The file [generate_emails] writes for a fetched row. *)
Definition recipient_file (template : EmailTemplate)
    (campaign_name output_dir : string)
    (x : string * option string * string) : string * string :=
  (email_filename output_dir (fst (fst x)),
   email_document template campaign_name (fst (fst x)) (snd x)).

(** The rows of [results] after [email_sent] was set for the given tokens. *)
Definition mark_sent (tokens : list string) (rs : list Result) : list Result :=
  map (fun r => if mem (r_token r) tokens then set_email_sent r else r) rs.

(** The fetched rows the loop of [generate_emails] gets through: those
    before the first one whose file cannot be opened. *)
Fixpoint rendered (fs : FileSystem) (output_dir : string)
    (rs : list (string * option string * string))
  : list (string * option string * string) :=
  match rs with
  | [] => []
  | x :: rest =>
      match fs_open fs (email_filename output_dir (fst (fst x))) with
      | None => x :: rendered fs output_dir rest
      | Some _ => []
      end
  end.

(** The exception that stops the loop, if one does. *)
Fixpoint refusal (fs : FileSystem) (output_dir : string)
    (rs : list (string * option string * string)) : option Exception :=
  match rs with
  | [] => None
  | x :: rest =>
      match fs_open fs (email_filename output_dir (fst (fst x))) with
      | None => refusal fs output_dir rest
      | Some e => Some e
      end
  end.

(** How the loop ends. *)
Definition outcome_of (stop : option Exception) : Outcome unit :=
  match stop with
  | None => Returns tt
  | Some e => Raises e
  end.

(** Every file of the fetched rows can be opened. *)
Definition all_open (fs : FileSystem) (output_dir : string)
    (rs : list (string * option string * string)) : Prop :=
  forall x, In x rs ->
            fs_open fs (email_filename output_dir (fst (fst x))) = None.

(** ** Statistics *)

Definition sum_Z (xs : list Z) : Z := fold_right Z.add 0%Z xs.





(** The result rows that reference an employee row. *)
Definition results_of (e : Employee) (d : Database) : list Result :=
  filter (fun r => String.eqb (e_id e) (r_employee_id r)) (results d).

(** The employee rows of a campaign in a department. *)
Definition employees_in (campaign_id : string) (dept : option string)
    (d : Database) : list Employee :=
  filter (fun e => String.eqb (e_campaign_id e) campaign_id &&
                   option_eqb (e_department e) dept)
         (employees d).

(** ** The invariant of the tables *)

(** [x] is one of the first [n] uuids. *)
Definition drawn (U : nat -> string) (n : nat) (x : string) : Prop :=
  exists i, i < n /\ x = U i.

Definition injective_upto (U : nat -> string) (n : nat) : Prop :=
  forall i j, i < n -> j < n -> U i = U j -> i = j.

(** What holds of the tables after [n] uuids were drawn: the keys SQLite
    enforces are unique, every identifier stored is one of the uuids drawn,
    and every employee row has exactly one result row, created under the
    employee's campaign. *)
Record Inv (U : nat -> string) (n : nat) (d : Database) : Prop := mkInv {
  inv_campaign_ids : NoDup (map c_id (campaigns d));
  inv_employee_ids : NoDup (map e_id (employees d));
  inv_emails : NoDup (map e_email (employees d));
  inv_result_ids : NoDup (map r_id (results d));
  inv_tokens : NoDup (map r_token (results d));
  inv_drawn_c : forall c, In c (campaigns d) -> drawn U n (c_id c);
  inv_drawn_e : forall e, In e (employees d) -> drawn U n (e_id e);
  inv_drawn_r : forall r, In r (results d) ->
    drawn U n (r_id r) /\ drawn U n (r_employee_id r) /\ drawn U n (r_token r);
  inv_one_result : forall e, In e (employees d) ->
    exists r, results_of e d = [r] /\ r_campaign_id r = e_campaign_id e
}.

(** An UPDATE of [results] that leaves the key columns alone. *)
Definition keeps_keys (g : Result -> Result) : Prop :=
  forall r, r_id (g r) = r_id r /\ r_employee_id (g r) = r_employee_id r /\
            r_campaign_id (g r) = r_campaign_id r /\ r_token (g r) = r_token r.

(** The employees table after the INSERT OR IGNORE of one iteration of the
    enrolment loop, when the new id is not taken. *)
Definition enrolled (id : string) (emp : Row) (campaign_id : string)
    (es : list Employee) : list Employee :=
  match row_get "email" emp with
  | None => es
  | Some em =>
      if mem em (map e_email es) then es
      else (es ++ [mkEmployee id em (row_get "name" emp)
                     (row_get "department" emp) campaign_id])%list
  end.

(** The employee rows after the loop, starting with the [k]-th uuid. *)
Fixpoint enrolled_all (U : nat -> string) (k : nat) (campaign_id : string)
    (rows : list Row) (es : list Employee) : list Employee :=
  match rows with
  | [] => es
  | emp :: rest =>
      enrolled_all U (S (S (S k))) campaign_id rest
                   (enrolled (U k) emp campaign_id es)
  end.

(** The result rows the loop inserts, starting with the [k]-th uuid. *)
Fixpoint new_results (U : nat -> string) (k : nat) (campaign_id : string)
    (rows : list Row) : list Result :=
  match rows with
  | [] => []
  | _ :: rest =>
      mkResult (U (S (S k))) (U k) campaign_id 0 0 0 None None (U (S k))
      :: new_results U (S (S (S k))) campaign_id rest
  end.

(** ** Worked examples *)

Definition sample_row (email name dept : string) : Row :=
  [("email", Some email); ("name", Some name); ("department", Some dept)].

Definition sample_files (file : string) : option (list Row) :=
  if String.eqb file "employees.csv"
  then Some [sample_row "alice@x.com" "Alice" "Eng";
             sample_row "bob@x.com" "Bob" "Eng";
             sample_row "carol@x.com" "Carol" "Sales"]
  else if String.eqb file "twice.csv"
  then Some [sample_row "alice@x.com" "Alice" "Eng";
             sample_row "alice@x.com" "Alice" "Eng"]
  else if String.eqb file "nodept.csv"
  then Some [[("email", Some "dan@x.com"); ("name", Some "Dan")]]
  else if String.eqb file "empty.csv"
  then Some []
  else if String.eqb file "slash.csv"
  then Some [sample_row "alice@x.com" "Alice" "Eng";
             sample_row "a/b@x.com" "Ab" "Eng";
             sample_row "carol@x.com" "Carol" "Sales"]
  else if String.eqb file "short.csv"
  then Some [[("name", Some "Dan"); ("department", Some "Ops");
              ("email", None)]]
  else if String.eqb file "depts.csv"
  then Some [sample_row "zoe@x.com" "Zoe" "Sales";
             sample_row "yan@x.com" "Yan" "Eng";
             [("email", Some "xi@x.com"); ("name", Some "Xi");
              ("department", None)]]
  else None.

Fixpoint has_slash (s : string) : bool :=
  match s with
  | EmptyString => false
  | String c r => Ascii.eqb c "/" || has_slash r
  end.

(** The directory part of a path: what precedes its last "/". *)
Fixpoint dirname (s : string) : string :=
  match s with
  | EmptyString => EmptyString
  | String c r => if has_slash r then String c (dirname r) else EmptyString
  end.

(** A working directory in which [emails] is the only directory there is or
    can be made: a file can be opened for writing in the working directory
    and in [emails], and nowhere else. *)
Definition sample_fs : FileSystem :=
  mkFileSystem
    (fun path =>
       if String.eqb path "emails" then None
       else Some (OSError ("cannot create " ++ path)))
    (fun path =>
       if String.eqb (dirname path) "emails" || negb (has_slash path)
       then None
       else Some (FileNotFoundError
                    ("[Errno 2] No such file or directory: '" ++ path ++ "'"))).

(** The scenario of the specification: three employees, one click, one
    report. *)
Definition scenario_session : list Call :=
  [CreateCampaign "Q1" "password_reset";
   AddEmployees sample_files "uuid-0" "employees.csv";
   GenerateEmails sample_fs "uuid-0" "emails";
   SimulateClick "uuid-2";
   ReportPhishing "bob@x.com" "uuid-0"].

(** One address enrolled twice, then the emails rendered. *)
Definition reenrol_session : list Call :=
  [CreateCampaign "Q1" "password_reset";
   AddEmployees sample_files "uuid-0" "twice.csv";
   GenerateEmails sample_fs "uuid-0" "emails"].

(** An address with a "/" between two ordinary ones. *)
Definition slash_session : list Call :=
  [CreateCampaign "Q1" "password_reset";
   AddEmployees sample_files "uuid-0" "slash.csv"].

(** Departments enrolled in the order Sales, Eng, none. *)
Definition depts_session : list Call :=
  [CreateCampaign "Q1" "password_reset";
   AddEmployees sample_files "uuid-0" "depts.csv"].

(* ===================================================================== *)
(** * The remaining methods: [list_campaigns], [export_report] *)

(** Whether a byte continues a UTF-8 sequence (10xxxxxx). *)
Definition is_continuation (c : ascii) : bool :=
  Nat.leb 128 (nat_of_ascii c) && Nat.ltb (nat_of_ascii c) 192.

(** [s[:n]] on well-formed UTF-8: the bytes of the first [n] code points. *)
Fixpoint py_prefix (n : nat) (s : string) : string :=
  match s with
  | EmptyString => EmptyString
  | String c s' =>
      if is_continuation c then String c (py_prefix n s')
      else match n with
           | O => EmptyString
           | S k => String c (py_prefix k s')
           end
  end.

(** [s * n] *)
Fixpoint py_repeat (s : string) (n : nat) : string :=
  match n with
  | O => EmptyString
  | S k => s ++ py_repeat s k
  end.


(** The six [print] calls of [list_campaigns] for one fetched row. *)
Definition campaign_block (c : Campaign) : list string :=
  [ "ID: " ++ py_prefix 8 (c_id c) ++ "...";
    "  Название: " ++ c_name c;
    "  Шаблон: " ++ c_template c;
    "  Создана: " ++ py_prefix 10 (c_created c);
    "  Статус: " ++ c_status c;
    "" ].

Definition list_campaigns : M unit :=
  except_sqlite3
    (with_connection
       (fetched <- query campaigns ;;
        match fetched with
        | [] => print "Нет созданных кампаний"
        | _ =>
            print (nl ++ "Список кампаний:") ;;;
            print (py_repeat "-" 80) ;;;
            for_each fetched
              (fun c =>
                 print ("ID: " ++ py_prefix 8 (c_id c) ++ "...") ;;;
                 print ("  Название: " ++ c_name c) ;;;
                 print ("  Шаблон: " ++ c_template c) ;;;
                 print ("  Создана: " ++ py_prefix 10 (c_created c)) ;;;
                 print ("  Статус: " ++ c_status c) ;;;
                 print "")
        end))
    (fun e => print ("Ошибка БД: " ++ e)).

Section Reports.

(** [str(x)] of a float, as the f-strings of the report use it. *)
Variable repr_float : float -> string.
(** The text [csv.writer(f).writerow(row)] writes for a row whose cells were
    converted with [str], [None] to the empty string; with the default
    dialect numbers are written as their [str]. *)
Variable csv_writerow : list string -> string.
(** The text of [json.dump(stats, f, ensure_ascii=False, indent=2)]. *)
Variable json_dump : StatsReport -> string.
(** The file system the report is written to. *)
Variable file_system : FileSystem.




End Reports.

(* ===================================================================== *)
(** * Vocabulary for whole sessions *)

(** The world after a sequence of calls started in any world. *)
Definition run_from (uuid_stream clock_stream : nat -> string)
    (w : World) (calls : list Call) : World :=
  fold_left (fun w c => call uuid_stream clock_stream c w) calls w.


(** A flag that was set stays set. *)
Definition flag_kept (before after : Z) : Prop :=
  after = before \/ after = 1%Z.

(** [r'] is the row [r] at a later time: the same keys, no flag taken
    back, no timestamp erased. *)
Definition advances (r r' : Result) : Prop :=
  r_id r' = r_id r /\ r_employee_id r' = r_employee_id r /\
  r_campaign_id r' = r_campaign_id r /\ r_token r' = r_token r /\
  flag_kept (r_email_sent r) (r_email_sent r') /\
  flag_kept (r_link_clicked r) (r_link_clicked r') /\
  flag_kept (r_phishing_reported r) (r_phishing_reported r') /\
  (r_clicked_at r <> None -> r_clicked_at r' <> None) /\
  (r_reported_at r <> None -> r_reported_at r' <> None).

(** The tables [d'] hold everything the tables [d] held: the campaign and
    employee rows unchanged and in place, the result rows advanced and in
    place; new rows come after. *)
Definition grows (d d' : Database) : Prop :=
  (exists cs, campaigns d' = (campaigns d ++ cs)%list) /\
  (exists es, employees d' = (employees d ++ es)%list) /\
  (exists rs new,
     results d' = (rs ++ new)%list /\ Forall2 advances (results d) rs).

(** Every flag is 0 or 1. *)
Definition flags_ok (d : Database) : Prop :=
  forall r, In r (results d) ->
    (r_email_sent r = 0%Z \/ r_email_sent r = 1%Z) /\
    (r_link_clicked r = 0%Z \/ r_link_clicked r = 1%Z) /\
    (r_phishing_reported r = 0%Z \/ r_phishing_reported r = 1%Z).

(** Every campaign row names a template of the catalog and is active. *)
Definition catalog_ok (d : Database) : Prop :=
  forall c, In c (campaigns d) ->
    in_templates templates (c_template c) = true /\ c_status c = "active".

(** The employee rows of a campaign. *)
Definition employees_of_campaign (campaign_id : string) (d : Database)
  : list Employee :=
  filter (fun e => String.eqb (e_campaign_id e) campaign_id) (employees d).

(* ===================================================================== *)
(** * Vocabulary for the further properties *)

(** The WHERE clause of the UPDATE of [report_phishing]. *)
Definition reported_row (email campaign_id : string) (d : Database)
    (r : Result) : bool :=
  mem (r_employee_id r)
      (map e_id
           (filter (fun e => String.eqb (e_email e) email &&
                             String.eqb (e_campaign_id e) campaign_id)
                   (employees d))).

(** A result row as the INSERT of [add_employees] leaves it. *)
Definition untouched (r : Result) : Prop :=
  r_email_sent r = 0%Z /\ r_link_clicked r = 0%Z /\
  r_phishing_reported r = 0%Z /\
  r_clicked_at r = None /\ r_reported_at r = None.

(** What one call can do to the tables. *)
Definition moves (d d' : Database) : Prop :=
  exists cs es rs new,
    campaigns d' = (campaigns d ++ cs)%list /\
    Forall (fun c => in_templates templates (c_template c) = true /\
                     c_status c = "active") cs /\
    employees d' = (employees d ++ es)%list /\
    results d' = (rs ++ new)%list /\
    Forall2 advances (results d) rs /\
    Forall untouched new.

(** The columns SQLite keeps unique. *)
Definition keys_ok (d : Database) : Prop :=
  NoDup (map c_id (campaigns d)) /\
  NoDup (map e_id (employees d)) /\
  NoDup (map e_email (employees d)) /\
  NoDup (map r_id (results d)) /\
  NoDup (map r_token (results d)).

(** Sample sessions and rows. *)

(** Three employees enrolled, no email rendered yet. *)
Definition enrolled_session : list Call :=
  [CreateCampaign "Q1" "password_reset";
   AddEmployees sample_files "uuid-0" "employees.csv"].

(** A second campaign next to the first. *)
Definition two_campaign_session : list Call :=
  [CreateCampaign "Q1" "password_reset";
   AddEmployees sample_files "uuid-0" "employees.csv";
   CreateCampaign "Q2" "ceo_request"].

Definition sample_alice : Employee :=
  mkEmployee "uuid-1" "alice@x.com" (Some "Alice") (Some "Eng") "uuid-0".

Definition sample_bob : Employee :=
  mkEmployee "uuid-4" "bob@x.com" (Some "Bob") (Some "Eng") "uuid-0".

Definition sample_alice_result : Result :=
  mkResult "uuid-3" "uuid-1" "uuid-0" 0 0 0 None None "uuid-2".

(* ===================================================================== *)
(** * Lists, keys and records *)

Lemma mem_In (x : string) (xs : list string) : mem x xs = true <-> In x xs.
Proof.
  unfold mem. rewrite existsb_exists. split.
  - intros [y [Hy He]]. apply String.eqb_eq in He. now subst.
  - intros H. exists x. split; [assumption | apply String.eqb_refl].
Qed.

Lemma mem_not_In (x : string) (xs : list string) :
  mem x xs = false <-> ~ In x xs.
Proof.
  rewrite <- mem_In. destruct (mem x xs); split; congruence.
Qed.

Lemma distinct_NoDup (xs : list string) : distinct xs = true <-> NoDup xs.
Proof.
  induction xs as [|x xs IH]; simpl.
  - split; [constructor | reflexivity].
  - rewrite andb_true_iff, negb_true_iff, mem_not_In, IH. split.
    + intros [H1 H2]. now constructor.
    + intros H. inversion H; subst. now split.
Qed.

Lemma option_eqb_eq (a b : option string) : option_eqb a b = true <-> a = b.
Proof.
  destruct a as [x|], b as [y|]; simpl; try (split; congruence).
  rewrite String.eqb_eq. split; congruence.
Qed.

Lemma filter_none {A} (p : A -> bool) (l : list A) :
  (forall a, In a l -> p a = false) -> filter p l = [].
Proof.
  induction l as [|a l IH]; simpl; intros H; [reflexivity|].
  rewrite (H a (or_introl eq_refl)). apply IH. intros b Hb. apply H. now right.
Qed.

Lemma filter_all {A} (p : A -> bool) (l : list A) :
  (forall a, In a l -> p a = true) -> filter p l = l.
Proof.
  induction l as [|a l IH]; simpl; intros H; [reflexivity|].
  rewrite (H a (or_introl eq_refl)). f_equal. apply IH.
  intros b Hb. apply H. now right.
Qed.

Lemma filter_twice {A} (p q : A -> bool) (l : list A) :
  filter q (filter p l) = filter (fun a => p a && q a) l.
Proof.
  induction l as [|a l IH]; simpl; [reflexivity|].
  destruct (p a); simpl; [destruct (q a)|]; now rewrite IH.
Qed.

Lemma filter_key_absent {A} (key : A -> string) (x : string) (l : list A) :
  mem x (map key l) = false ->
  filter (fun a => String.eqb (key a) x) l = [].
Proof.
  intros H. apply filter_none. intros a Ha. apply String.eqb_neq.
  intros Heq. apply mem_not_In in H. apply H. rewrite <- Heq.
  now apply in_map.
Qed.

Lemma filter_key_present {A} (key : A -> string) (x : string) (l : list A) :
  mem x (map key l) = true ->
  filter (fun a => String.eqb (key a) x) l <> [].
Proof.
  induction l as [|a l IH]; simpl; intros H; [discriminate|].
  rewrite (String.eqb_sym (key a) x).
  destruct (String.eqb x (key a)); [discriminate|]. now apply IH.
Qed.

(** A key without duplicates selects one row. *)
Lemma filter_unique {A} (key : A -> string) (x : string) (l : list A) :
  NoDup (map key l) -> In x (map key l) ->
  List.length (filter (fun a => String.eqb (key a) x) l) = 1.
Proof.
  induction l as [|a l IH]; simpl; intros Hn Hin; [destruct Hin|].
  inversion Hn as [|? ? Ha Hl]; subst.
  destruct (String.eqb (key a) x) eqn:E.
  - apply String.eqb_eq in E. subst x. simpl. f_equal.
    rewrite filter_none; [reflexivity|].
    intros b Hb. apply String.eqb_neq. intros Heq. apply Ha.
    rewrite <- Heq. now apply in_map.
  - apply String.eqb_neq in E. destruct Hin as [Hin|Hin]; [contradiction|].
    now apply IH.
Qed.

Lemma NoDup_key_inj {A} (key : A -> string) (l : list A) (a b : A) :
  NoDup (map key l) -> In a l -> In b l -> key a = key b -> a = b.
Proof.
  induction l as [|c l IH]; simpl; intros Hn Ha Hb Hk; [destruct Ha|].
  inversion Hn as [|? ? Hc Hl]; subst.
  destruct Ha as [->|Ha], Hb as [->|Hb].
  - reflexivity.
  - exfalso. apply Hc. rewrite Hk. now apply in_map.
  - exfalso. apply Hc. rewrite <- Hk. now apply in_map.
  - now apply IH.
Qed.

Lemma NoDup_snoc (xs : list string) (x : string) :
  NoDup xs -> ~ In x xs -> NoDup (xs ++ [x]).
Proof.
  intros Hn Hx. apply NoDup_app; [assumption | repeat constructor; intros [] |].
  intros a Ha [<-|[]]. contradiction.
Qed.

Lemma map_if_absent {A} (p : A -> bool) (g : A -> A) (l : list A) :
  filter p l = [] -> map (fun a => if p a then g a else a) l = l.
Proof.
  induction l as [|a l IH]; simpl; [reflexivity|].
  destruct (p a); [discriminate|]. intros H. now rewrite IH.
Qed.

Lemma filter_pairs {A B} (p : A -> bool) (f : A -> list B) (l : list A) :
  filter (fun ab => p (fst ab)) (flat_map (fun a => map (pair a) (f a)) l)
  = flat_map (fun a => map (pair a) (f a)) (filter p l).
Proof.
  induction l as [|a l IH]; simpl; [reflexivity|].
  rewrite filter_app, IH. destruct (p a) eqn:E; simpl.
  - f_equal. apply filter_all. intros [a0 b] Hin.
    apply in_map_iff in Hin. destruct Hin as [b0 [Heq _]].
    injection Heq as <- _. exact E.
  - rewrite filter_none; [reflexivity|]. intros [a0 b] Hin.
    apply in_map_iff in Hin. destruct Hin as [b0 [Heq _]].
    injection Heq as <- _. exact E.
Qed.

Lemma map_snd_pairs {A B X} (h : B -> X) (f : A -> list B) (l : list A) :
  map (fun ab => h (snd ab)) (flat_map (fun a => map (pair a) (f a)) l)
  = map h (flat_map f l).
Proof.
  induction l as [|a l IH]; simpl; [reflexivity|].
  rewrite !map_app, IH, map_map. reflexivity.
Qed.

Lemma length_pairs_one {A B} (f : A -> list B) (l : list A) :
  (forall a, In a l -> List.length (f a) = 1) ->
  List.length (flat_map (fun a => map (pair a) (f a)) l) = List.length l.
Proof.
  induction l as [|a l IH]; simpl; intros H; [reflexivity|].
  rewrite length_app, length_map, (H a (or_introl eq_refl)), IH; [reflexivity|].
  intros b Hb. apply H. now right.
Qed.

Lemma world_eta (w : World) :
  mkWorld (db w) (entropy w) (ticks w) (stdout w) (written w) = w.
Proof. now destruct w. Qed.

Lemma database_eta (d : Database) :
  mkDatabase (campaigns d) (employees d) (results d) = d.
Proof. now destruct d. Qed.

(* ===================================================================== *)
(** * Strings *)

Lemma append_nil_r (s : string) : s ++ "" = s.
Proof. induction s; simpl; congruence. Qed.

Lemma append_assoc (a b c : string) : (a ++ b) ++ c = a ++ b ++ c.
Proof. induction a; simpl; congruence. Qed.

Lemma length_append (a b : string) :
  String.length (a ++ b) = String.length a + String.length b.
Proof. induction a; simpl; congruence. Qed.

Lemma length_zero (s : string) : String.length s = 0 -> s = "".
Proof. destruct s; simpl; [reflexivity | discriminate]. Qed.

Lemma prefix_append (p s : string) :
  String.prefix p s = true <-> exists b, s = p ++ b.
Proof.
  revert s. induction p as [|a p IH]; intros s; simpl.
  - destruct s; split; eauto.
  - destruct s as [|c s].
    + split; [discriminate | intros [b Hb]; discriminate].
    + simpl. destruct (ascii_dec a c) as [->|Hne].
      * split.
        -- intros H. apply IH in H. destruct H as [b ->]. now exists b.
        -- intros [b Hb]. apply IH. exists b. congruence.
      * split; [discriminate | intros [b Hb]; congruence].
Qed.

(** Two ways of cutting one string: the shorter head is a head of the
    longer one. *)
Lemma append_cut (u v p q : string) :
  u ++ v = p ++ q -> String.length p <= String.length u ->
  exists c, u = p ++ c.
Proof.
  revert u. induction p as [|a p IH]; intros u H Hlen; simpl in *.
  - now exists u.
  - destruct u as [|b u]; simpl in *; [lia|].
    injection H as -> H. destruct (IH u H ltac:(lia)) as [c ->].
    now exists c.
Qed.

(* ===================================================================== *)
(** * [str.replace] replaces every occurrence *)

Lemma replace_from_skip (old new x b : string) :
  replace_from old new (x ++ b) (String.length x) = replace_from old new b 0.
Proof.
  induction x as [|c x IH]; simpl; [|exact IH].
  destruct b; reflexivity.
Qed.

Lemma replace_from_match (old new b : string) :
  old <> "" ->
  replace_from old new (old ++ b) 0 = new ++ replace_from old new b 0.
Proof.
  intros Hne. destruct old as [|c old']; [congruence|].
  change (String c old' ++ b) with (String c (old' ++ b)).
  cbn [replace_from].
  assert (Hp : String.prefix (String c old') (String c (old' ++ b)) = true).
  { apply prefix_append. now exists b. }
  rewrite Hp.
  replace (String.length (String c old') - 1) with (String.length old')
    by (simpl; lia).
  now rewrite replace_from_skip.
Qed.

Lemma replace_from_miss (old new : string) (c : ascii) (s : string) :
  String.prefix old (String c s) = false ->
  replace_from old new (String c s) 0 = String c (replace_from old new s 0).
Proof. intros H. cbn [replace_from]. now rewrite H. Qed.

Lemma occurs_cons (old : string) (c : ascii) (s : string) :
  occurs old (String c s) ->
  String.prefix old (String c s) = true \/ occurs old s.
Proof.
  intros [a [b H]]. destruct a as [|c' a]; simpl in H.
  - left. apply prefix_append. now exists b.
  - right. injection H as _ H. now exists a, b.
Qed.

Lemma leftmost_nil (old : string) : leftmost old "".
Proof.
  intros a' c H. simpl in H. apply (f_equal String.length) in H.
  rewrite !length_append in H. apply length_zero. lia.
Qed.

Lemma leftmost_cons (old : string) (c : ascii) (a b : string) :
  String.prefix old (String c (a ++ old ++ b)) = false ->
  leftmost old a -> leftmost old (String c a).
Proof.
  intros Hp Ha a' c0 H. destruct a' as [|c' a''].
  - exfalso. apply not_true_iff_false in Hp. apply Hp.
    apply prefix_append. exists (c0 ++ b).
    change ("" ++ old ++ c0) with (old ++ c0) in H.
    change (String c (a ++ old ++ b)) with (String c a ++ old ++ b).
    now rewrite <- append_assoc, H, append_assoc.
  - simpl in H. injection H as _ H. exact (Ha _ _ H).
Qed.

Lemma leftmost_tail (old : string) (c : ascii) (a : string) :
  leftmost old (String c a) -> leftmost old a.
Proof.
  intros H a' c0 E. apply (H (String c a') c0). simpl. now rewrite E.
Qed.

Lemma leftmost_no_prefix (old : string) (c : ascii) (a b : string) :
  leftmost old (String c a) ->
  String.prefix old (String c (a ++ old ++ b)) = false.
Proof.
  intros H. apply not_true_iff_false. intros Hp.
  apply prefix_append in Hp. destruct Hp as [x Hx].
  change (String c (a ++ old ++ b)) with (String c a ++ old ++ b) in Hx.
  rewrite <- append_assoc in Hx.
  destruct (append_cut (String c a ++ old) b old x Hx) as [c0 Hc0].
  { rewrite length_append. lia. }
  pose proof (H "" c0 Hc0) as ->. rewrite append_nil_r in Hc0.
  apply (f_equal String.length) in Hc0. rewrite length_append in Hc0.
  simpl in Hc0. lia.
Qed.

Lemma Replaced_cons (old new : string) (c : ascii) (s t : string) :
  String.prefix old (String c s) = false ->
  Replaced old new s t -> Replaced old new (String c s) (String c t).
Proof.
  intros Hp H. destruct H as [s Hno | a b b' Hl Hb].
  - apply Replaced_none. intros Hocc.
    destruct (occurs_cons _ _ _ Hocc) as [Hp' | Hs]; [congruence | contradiction].
  - change (String c (a ++ old ++ b)) with (String c a ++ old ++ b).
    change (String c (a ++ new ++ b')) with (String c a ++ new ++ b').
    apply Replaced_next; [|assumption]. eapply leftmost_cons; eassumption.
Qed.

Lemma replace_from_Replaced (old new : string) :
  old <> "" ->
  forall n s, String.length s <= n ->
              Replaced old new s (replace_from old new s 0).
Proof.
  intros Hne. induction n as [|n IH]; intros s Hlen.
  - destruct s; simpl in Hlen; [|lia]. apply Replaced_none.
    intros [a [b H]]. apply (f_equal String.length) in H.
    rewrite !length_append in H. simpl in H.
    destruct old; [congruence | simpl in H; lia].
  - destruct s as [|c s].
    + apply Replaced_none. intros [a [b H]].
      apply (f_equal String.length) in H. rewrite !length_append in H.
      destruct old; [congruence | simpl in H; lia].
    + destruct (String.prefix old (String c s)) eqn:Hp.
      * apply prefix_append in Hp. destruct Hp as [b Hb]. rewrite Hb.
        rewrite (replace_from_match old new b Hne).
        apply (Replaced_next old new "" b _ (leftmost_nil old)).
        apply IH. apply (f_equal String.length) in Hb.
        rewrite length_append in Hb. simpl in Hb, Hlen.
        destruct old; [congruence | simpl in Hb; lia].
      * rewrite (replace_from_miss old new c s Hp). apply Replaced_cons; [assumption|].
        apply IH. simpl in Hlen. lia.
Qed.

Lemma replace_from_none (old new s : string) :
  ~ occurs old s -> replace_from old new s 0 = s.
Proof.
  induction s as [|c s IH]; intros Hno; [reflexivity|].
  assert (Hp : String.prefix old (String c s) = false).
  { apply not_true_iff_false. intros Hp. apply Hno.
    apply prefix_append in Hp. destruct Hp as [b Hb]. now exists "", b. }
  rewrite (replace_from_miss old new c s Hp). f_equal. apply IH.
  intros [a [b H]]. apply Hno. exists (String c a), b. simpl. now rewrite H.
Qed.

Lemma replace_from_next (old new a b : string) :
  old <> "" -> leftmost old a ->
  replace_from old new (a ++ old ++ b) 0
  = a ++ new ++ replace_from old new b 0.
Proof.
  intros Hne. induction a as [|c a IH]; intros Hl.
  - simpl. now apply replace_from_match.
  - change (String c a ++ old ++ b) with (String c (a ++ old ++ b)).
    rewrite (replace_from_miss old new _ _ (leftmost_no_prefix old c a b Hl)).
    simpl. f_equal. apply IH. eapply leftmost_tail; eassumption.
Qed.

(** [py_replace] computes the one string that is [s] with every occurrence
    of [old] replaced by [new]. *)
Theorem py_replace_Replaced (old new s t : string) :
  old <> "" -> (Replaced old new s t <-> t = py_replace old new s).
Proof.
  intros Hne.
  assert (Hpy : forall x, py_replace old new x = replace_from old new x 0).
  { intros x. unfold py_replace. destruct old; [congruence | reflexivity]. }
  split.
  - intros H. rewrite Hpy. induction H as [s Hno | a b b' Hl Hb IH].
    + symmetry. now apply replace_from_none.
    + rewrite (replace_from_next old new a b Hne Hl). now rewrite IH.
  - intros ->. rewrite Hpy. now apply (replace_from_Replaced old new Hne (String.length s)).
Qed.

(* ===================================================================== *)
(** * What each method does to the world *)

(** ** [create_campaign] *)

Lemma create_campaign_unknown (U C : nat -> string) (name template : string)
    (w : World) :
  in_templates templates template = false ->
  create_campaign U C name template w
  = (Raises (ValueError ("Неизвестный шаблон: " ++ template)), w).
Proof. intros Hno. unfold create_campaign. now rewrite Hno. Qed.

Lemma create_campaign_run (U C : nat -> string) (name template : string)
    (w : World) :
  in_templates templates template = true ->
  mem (U (entropy w)) (map c_id (campaigns (db w))) = false ->
  create_campaign U C name template w
  = (Returns (U (entropy w)),
     mkWorld
       (mkDatabase
          (campaigns (db w) ++
           [mkCampaign (U (entropy w)) name template (C (ticks w)) "active"])
          (employees (db w)) (results (db w)))
       (S (entropy w)) (S (ticks w))
       (stdout w ++
        [("Создана кампания: " ++ name ++ " (ID: " ++ U (entropy w) ++ ")")
           %string])
       (written w)).
Proof.
  intros Hin Hfresh.
  unfold create_campaign, bind, except_sqlite3, with_connection, execute,
    uuid4, now_isoformat, print, ret, insert_campaign.
  rewrite Hin. simpl. rewrite Hfresh. reflexivity.
Qed.

(** When the uuid drawn is already a campaign id the INSERT fails, the
    transaction is rolled back and the method raises. *)
Lemma create_campaign_taken (U C : nat -> string) (name template : string)
    (w : World) :
  in_templates templates template = true ->
  mem (U (entropy w)) (map c_id (campaigns (db w))) = true ->
  create_campaign U C name template w
  = (Raises (RuntimeError
       "Ошибка создания кампании: UNIQUE constraint failed: campaigns.id"),
     mkWorld (db w) (S (entropy w)) (S (ticks w)) (stdout w) (written w)).
Proof.
  intros Hin Htaken.
  unfold create_campaign, bind, except_sqlite3, with_connection, execute,
    uuid4, now_isoformat, print, ret, raise, insert_campaign.
  rewrite Hin. simpl. rewrite Htaken. reflexivity.
Qed.

(** ** [add_employees]: reading the file *)

Lemma validate_rows_ok (rows : list Row) :
  forallb has_required_fields rows = true -> validate_rows rows = Returns rows.
Proof.
  induction rows as [|row rows IH]; simpl; intros H; [reflexivity|].
  apply andb_true_iff in H. destruct H as [Hr Hrest].
  rewrite Hr, (IH Hrest). reflexivity.
Qed.

Lemma validate_rows_missing (rows : list Row) :
  forallb has_required_fields rows = false ->
  validate_rows rows
  = Raises (ValueError "CSV должен содержать поля: email, name, department").
Proof.
  induction rows as [|row rows IH]; simpl; intros H; [discriminate|].
  destruct (has_required_fields row); simpl in *; [|reflexivity].
  now rewrite (IH H).
Qed.

Lemma read_employees_ok (F : string -> option (list Row)) (file : string)
    (rows : list Row) :
  F file = Some rows -> rows <> [] ->
  forallb has_required_fields rows = true ->
  read_employees F file = Returns rows.
Proof.
  intros HF Hne Hok. unfold read_employees.
  rewrite HF, (validate_rows_ok rows Hok).
  destruct rows; [congruence | reflexivity].
Qed.

Lemma add_employees_no_file (U : nat -> string)
    (F : string -> option (list Row)) (campaign_id file : string)
    (w : World) :
  F file = None ->
  add_employees U F campaign_id file w
  = (Raises (FileNotFoundError ("Файл не найден: " ++ file)), w).
Proof.
  intros HF. unfold add_employees, read_employees. now rewrite HF.
Qed.

(** ** [add_employees]: one iteration of the loop *)

Lemma enroll_run (U : nat -> string) (campaign_id : string) (emp : Row)
    (w : World) :
  let k := entropy w in
  let d1 := insert_or_ignore_employee (U k) (row_get "email" emp)
              (row_get "name" emp) (row_get "department" emp)
              campaign_id (db w) in
  enroll U campaign_id emp w
  = match insert_result (U (S (S k))) (U k) campaign_id (U (S k)) d1 with
    | Done d2 =>
        (Returns tt,
         mkWorld d2 (S (S (S k))) (ticks w) (stdout w) (written w))
    | Failed msg =>
        (Raises (Sqlite3Error msg),
         mkWorld d1 (S (S (S k))) (ticks w) (stdout w) (written w))
    end.
Proof.
  intros k d1. unfold enroll, bind, uuid4, execute_ignore, execute, set_db.
  simpl. fold k. fold d1.
  destruct (insert_result _ _ _ _ d1); reflexivity.
Qed.

(** ** [generate_emails] *)

Lemma mark_sent_nil (rs : list Result) : mark_sent [] rs = rs.
Proof.
  unfold mark_sent, mem. induction rs as [|r rs IH]; [reflexivity|].
  cbn [map existsb]. f_equal. exact IH.
Qed.

Lemma mark_sent_cons (token : string) (tokens : list string)
    (rs : list Result) :
  mark_sent tokens
    (map (fun r => if String.eqb (r_token r) token
                   then set_email_sent r else r) rs)
  = mark_sent (token :: tokens) rs.
Proof.
  unfold mark_sent. rewrite map_map. apply map_ext. intros r. simpl.
  destruct (String.eqb (r_token r) token) eqn:E; simpl.
  - destruct (mem (r_token r) tokens); reflexivity.
  - reflexivity.
Qed.

Lemma mark_sent_In (tokens : list string) (rs : list Result) (r : Result) :
  In r (mark_sent tokens rs) -> In (r_token r) tokens -> r_email_sent r = 1%Z.
Proof.
  unfold mark_sent. rewrite in_map_iff. intros [r0 [Hr _]] Hin.
  destruct (mem (r_token r0) tokens) eqn:E; subst r; [reflexivity|].
  apply mem_not_In in E. contradiction.
Qed.

Lemma mark_sent_other (tokens : list string) (rs : list Result) (r : Result) :
  In r rs -> ~ In (r_token r) tokens -> In r (mark_sent tokens rs).
Proof.
  intros Hr Hno. unfold mark_sent. apply in_map_iff. exists r.
  split; [|assumption].
  apply mem_not_In in Hno. now rewrite Hno.
Qed.

Lemma mark_sent_tokens (tokens : list string) (rs : list Result) :
  map r_token (mark_sent tokens rs) = map r_token rs.
Proof.
  unfold mark_sent. rewrite map_map. apply map_ext. intros r.
  destruct (mem (r_token r) tokens); reflexivity.
Qed.

Lemma rendered_all (fs : FileSystem) (out : string)
    (rs : list (string * option string * string)) :
  all_open fs out rs -> rendered fs out rs = rs /\ refusal fs out rs = None.
Proof.
  induction rs as [|x rs IH]; intros H; [now split|].
  cbn [rendered refusal]. rewrite (H x (or_introl eq_refl)).
  destruct IH as [-> ->]; [|now split].
  intros y Hy. apply H. now right.
Qed.

Lemma refusal_none (fs : FileSystem) (out : string)
    (rs : list (string * option string * string)) :
  refusal fs out rs = None -> rendered fs out rs = rs /\ all_open fs out rs.
Proof.
  induction rs as [|x rs IH]; cbn [rendered refusal]; intros H.
  - split; [reflexivity | intros y []].
  - destruct (fs_open fs (email_filename out (fst (fst x)))) eqn:E;
      [discriminate|].
    destruct (IH H) as [-> Hall]. split; [reflexivity|].
    intros y [<-|Hy]; [exact E | now apply Hall].
Qed.

(** When the loop stops, it stops at the first row whose file cannot be
    opened, with the exception the file system gave. *)
Lemma refusal_some (fs : FileSystem) (out : string)
    (rs : list (string * option string * string)) (e : Exception) :
  refusal fs out rs = Some e ->
  exists x rest,
    rs = (rendered fs out rs ++ x :: rest)%list /\
    fs_open fs (email_filename out (fst (fst x))) = Some e.
Proof.
  induction rs as [|x rs IH]; cbn [rendered refusal]; intros H;
    [discriminate|].
  destruct (fs_open fs (email_filename out (fst (fst x)))) eqn:E.
  - injection H as ->. exists x, rs. now split.
  - destruct (IH H) as [y [rest [Hrs Hy]]]. exists y, rest.
    split; [|exact Hy]. simpl. now rewrite <- Hrs.
Qed.

Lemma rendered_prefix (fs : FileSystem) (out : string)
    (rs : list (string * option string * string)) :
  exists rest, rs = (rendered fs out rs ++ rest)%list.
Proof.
  induction rs as [|x rs [rest IH]]; cbn [rendered]; [now exists []|].
  destruct (fs_open fs (email_filename out (fst (fst x)))).
  - now exists (x :: rs).
  - exists rest. simpl. now rewrite <- IH.
Qed.

Lemma rendered_incl (fs : FileSystem) (out : string)
    (rs : list (string * option string * string))
    (x : string * option string * string) :
  In x (rendered fs out rs) ->
  In x rs /\ fs_open fs (email_filename out (fst (fst x))) = None.
Proof.
  induction rs as [|y rs IH]; cbn [rendered]; [intros []|].
  destruct (fs_open fs (email_filename out (fst (fst y)))) eqn:E;
    [intros []|].
  intros [<-|Hx].
  - split; [now left | exact E].
  - destruct (IH Hx) as [H1 H2]. split; [now right | exact H2].
Qed.

(** One iteration: the file is written, then the flag is set; or the file
    cannot be opened and nothing happens. *)
Lemma send_one_run (fs : FileSystem) (t : EmailTemplate) (name out : string)
    (x : string * option string * string) (w : World) :
  send_one fs t name out x w
  = match fs_open fs (email_filename out (fst (fst x))) with
    | None =>
        (Returns tt,
         mkWorld (fst (update_email_sent (recipient_token x) (db w)))
           (entropy w) (ticks w) (stdout w)
           (written w ++ [recipient_file t name out x]))
    | Some e => (Raises e, w)
    end.
Proof.
  destruct x as [[email nm] token]. unfold send_one, bind, write_file.
  cbn [fst snd]. destruct (fs_open fs (email_filename out email)); reflexivity.
Qed.

Lemma send_loop (fs : FileSystem) (t : EmailTemplate) (name out : string)
    (rs : list (string * option string * string)) :
  forall w,
    for_each rs (send_one fs t name out) w
    = (outcome_of (refusal fs out rs),
       mkWorld
         (mkDatabase (campaigns (db w)) (employees (db w))
            (mark_sent (map recipient_token (rendered fs out rs))
                       (results (db w))))
         (entropy w) (ticks w) (stdout w)
         (written w ++ map (recipient_file t name out) (rendered fs out rs))).
Proof.
  induction rs as [|x rs IH]; intros w.
  - simpl. unfold ret. rewrite mark_sent_nil, app_nil_r, database_eta.
    now rewrite world_eta.
  - cbn [for_each rendered refusal]. unfold bind at 1. rewrite send_one_run.
    destruct (fs_open fs (email_filename out (fst (fst x)))) as [e|].
    + simpl. rewrite mark_sent_nil, app_nil_r, database_eta.
      now rewrite world_eta.
    + rewrite IH. simpl. rewrite mark_sent_cons, <- app_assoc. reflexivity.
Qed.

(** [generate_emails] once the campaign and its template were found and the
    output directory is there. *)
Lemma generate_emails_run (fs : FileSystem)
    (campaign_id out name tname : string) (t : EmailTemplate) (w : World) :
  select_campaign campaign_id (db w) = Some (name, tname) ->
  templates_get templates tname = Some t ->
  fs_makedirs fs out = None ->
  let rs := select_recipients campaign_id (db w) in
  generate_emails fs campaign_id out w
  = (outcome_of (refusal fs out rs),
     mkWorld
       (mkDatabase (campaigns (db w)) (employees (db w))
          (mark_sent (map recipient_token (rendered fs out rs))
                     (results (db w))))
       (entropy w) (ticks w)
       (stdout w ++
        match refusal fs out rs with
        | None =>
            [("Сгенерировано писем: " ++ str_nat (List.length rs))%string;
             ("Письма сохранены в: " ++ out ++ "/")%string]
        | Some _ => []
        end)
       (written w ++ map (recipient_file t name out) (rendered fs out rs))).
Proof.
  intros Hc Ht Hdir rs. unfold generate_emails.
  unfold bind at 1. unfold except_sqlite3 at 1, with_connection at 1.
  unfold bind at 1. unfold query at 1. rewrite Hc, Ht.
  unfold bind at 1. unfold query at 1. unfold ret at 1. fold rs.
  unfold bind at 1. unfold makedirs at 1. rewrite Hdir.
  unfold bind at 1. rewrite send_loop.
  destruct (refusal fs out rs) as [e|]; cbn [outcome_of].
  - now rewrite app_nil_r.
  - unfold bind, print. simpl. rewrite <- app_assoc. reflexivity.
Qed.

(** [generate_emails] when every file can be opened. *)
Lemma generate_emails_returns (fs : FileSystem)
    (campaign_id out name tname : string) (t : EmailTemplate) (w : World) :
  select_campaign campaign_id (db w) = Some (name, tname) ->
  templates_get templates tname = Some t ->
  fs_makedirs fs out = None ->
  let rs := select_recipients campaign_id (db w) in
  all_open fs out rs ->
  generate_emails fs campaign_id out w
  = (Returns tt,
     mkWorld
       (mkDatabase (campaigns (db w)) (employees (db w))
          (mark_sent (map recipient_token rs) (results (db w))))
       (entropy w) (ticks w)
       (stdout w ++
        [("Сгенерировано писем: " ++ str_nat (List.length rs))%string;
         ("Письма сохранены в: " ++ out ++ "/")%string])
       (written w ++ map (recipient_file t name out) rs)).
Proof.
  intros Hc Ht Hdir rs Hall.
  rewrite (generate_emails_run fs campaign_id out name tname t w Hc Ht Hdir).
  fold rs. destruct (rendered_all fs out rs Hall) as [-> ->]. reflexivity.
Qed.

Lemma generate_emails_no_directory (fs : FileSystem)
    (campaign_id out name tname : string) (t : EmailTemplate) (w : World)
    (e : Exception) :
  select_campaign campaign_id (db w) = Some (name, tname) ->
  templates_get templates tname = Some t ->
  fs_makedirs fs out = Some e ->
  generate_emails fs campaign_id out w = (Raises e, w).
Proof.
  intros Hc Ht Hdir. unfold generate_emails.
  unfold bind at 1. unfold except_sqlite3 at 1, with_connection at 1.
  unfold bind at 1. unfold query at 1. rewrite Hc, Ht.
  unfold bind at 1. unfold query at 1. unfold ret at 1.
  unfold bind at 1. unfold makedirs at 1. now rewrite Hdir.
Qed.

Lemma generate_emails_no_campaign (fs : FileSystem)
    (campaign_id out : string) (w : World) :
  select_campaign campaign_id (db w) = None ->
  generate_emails fs campaign_id out w
  = (Raises (ValueError "Кампания не найдена"), w).
Proof.
  intros Hc. unfold generate_emails, bind, except_sqlite3, with_connection,
    query, raise. rewrite Hc. now rewrite world_eta.
Qed.

Lemma generate_emails_no_template (fs : FileSystem)
    (campaign_id out name tname : string) (w : World) :
  select_campaign campaign_id (db w) = Some (name, tname) ->
  templates_get templates tname = None ->
  generate_emails fs campaign_id out w
  = (Raises (ValueError ("Шаблон не найден: " ++ tname)), w).
Proof.
  intros Hc Ht. unfold generate_emails, bind, except_sqlite3,
    with_connection, query, raise. rewrite Hc, Ht. now rewrite world_eta.
Qed.

(** Whatever happens, [generate_emails] sets email_sent on the rows of some
    tokens, all of them fetched, appends files and lines, and does nothing
    else to the world. *)
Lemma generate_emails_world (fs : FileSystem) (campaign_id out : string)
    (w : World) :
  exists tokens files lines,
    incl tokens
         (map recipient_token (select_recipients campaign_id (db w))) /\
    snd (generate_emails fs campaign_id out w)
    = mkWorld
        (mkDatabase (campaigns (db w)) (employees (db w))
                    (mark_sent tokens (results (db w))))
        (entropy w) (ticks w) (stdout w ++ lines) (written w ++ files).
Proof.
  assert (Hsame : w = mkWorld
            (mkDatabase (campaigns (db w)) (employees (db w))
                        (mark_sent [] (results (db w))))
            (entropy w) (ticks w) (stdout w ++ []) (written w ++ [])).
  { now rewrite mark_sent_nil, !app_nil_r, database_eta, world_eta. }
  destruct (select_campaign campaign_id (db w)) as [[name tname]|] eqn:Hc.
  - destruct (templates_get templates tname) as [t|] eqn:Ht.
    + destruct (fs_makedirs fs out) as [e|] eqn:Hdir.
      * rewrite (generate_emails_no_directory fs _ _ _ _ t w e Hc Ht Hdir).
        exists [], [], []. split; [intros x []|exact Hsame].
      * rewrite (generate_emails_run fs _ _ _ _ t w Hc Ht Hdir).
        eexists _, _, _. split; [|reflexivity].
        intros x Hx. apply in_map_iff in Hx. destruct Hx as [y [<- Hy]].
        apply in_map. now apply rendered_incl in Hy.
    + rewrite (generate_emails_no_template fs _ _ _ _ w Hc Ht).
      exists [], [], []. split; [intros x []|exact Hsame].
  - rewrite (generate_emails_no_campaign fs _ _ w Hc).
    exists [], [], []. split; [intros x []|exact Hsame].
Qed.

(** The fetched rows are the pairs of an employee row of the campaign and a
    result row that references it. *)
Lemma join_In (campaign_id : string) (d : Database) (e : Employee)
    (r : Result) :
  In (e, r) (join_employees_results campaign_id d) <->
  In e (employees d) /\ In r (results d) /\
  e_campaign_id e = campaign_id /\ e_id e = r_employee_id r.
Proof.
  unfold join_employees_results, employees_of_result.
  rewrite in_flat_map. split.
  - intros [r0 [Hr0 Hin]]. apply in_map_iff in Hin.
    destruct Hin as [e0 [Heq He0]]. injection Heq as -> ->.
    apply filter_In in He0. destruct He0 as [He Hb].
    apply andb_true_iff in Hb. destruct Hb as [Hid Hc].
    apply String.eqb_eq in Hid. apply String.eqb_eq in Hc. now repeat split.
  - intros [He [Hr [Hc Hid]]]. exists r. split; [assumption|].
    apply in_map_iff. exists e. split; [reflexivity|].
    apply filter_In. split; [assumption|].
    apply andb_true_iff. split; now apply String.eqb_eq.
Qed.

Lemma select_recipients_In (campaign_id : string) (d : Database)
    (x : string * option string * string) :
  In x (select_recipients campaign_id d) <->
  exists e r, In e (employees d) /\ In r (results d) /\
              e_campaign_id e = campaign_id /\ e_id e = r_employee_id r /\
              x = (e_email e, e_name e, r_token r).
Proof.
  unfold select_recipients. rewrite in_map_iff. split.
  - intros [[e r] [Hx Hin]]. simpl in Hx. apply join_In in Hin.
    destruct Hin as [He [Hr [Hc Hid]]]. exists e, r. now repeat split.
  - intros [e [r [He [Hr [Hc [Hm Hx]]]]]]. exists (e, r). split.
    + now symmetry.
    + apply join_In. now repeat split.
Qed.

(** ** [simulate_click] and [report_phishing] *)

Lemma simulate_click_run (C : nat -> string) (token : string) (w : World) :
  simulate_click C token w
  = (Returns tt,
     mkWorld (fst (update_link_clicked (C (ticks w)) token (db w)))
       (entropy w) (S (ticks w))
       (stdout w ++
        [if Nat.eqb (snd (update_link_clicked (C (ticks w)) token (db w))) 0
         then "Токен не найден: " ++ token
         else "Клик зарегистрирован"])
       (written w)).
Proof.
  unfold simulate_click, except_sqlite3, with_connection, bind, now_isoformat,
    execute_update, print, set_db. simpl.
  destruct (Nat.eqb _ 0); reflexivity.
Qed.

Lemma report_phishing_run (C : nat -> string) (email campaign_id : string)
    (w : World) :
  report_phishing C email campaign_id w
  = (Returns tt,
     mkWorld
       (fst (update_phishing_reported (C (ticks w)) email campaign_id (db w)))
       (entropy w) (S (ticks w))
       (stdout w ++
        [if Nat.eqb (snd (update_phishing_reported (C (ticks w)) email
                            campaign_id (db w))) 0
         then "Сотрудник не найден в кампании"
         else "Отчет зарегистрирован"])
       (written w)).
Proof.
  unfold report_phishing, except_sqlite3, with_connection, bind,
    now_isoformat, execute_update, print, set_db. simpl.
  destruct (Nat.eqb _ 0); reflexivity.
Qed.

Lemma clicked_rows (at_ token : string) (rs : list Result) (r : Result) :
  In r (map (fun r => if String.eqb (r_token r) token
                      then set_link_clicked at_ r else r) rs) ->
  r_token r = token ->
  r_link_clicked r = 1%Z /\ r_clicked_at r = Some at_.
Proof.
  rewrite in_map_iff. intros [r0 [Hr _]] Htok.
  destruct (String.eqb (r_token r0) token) eqn:E; subst r.
  - now simpl.
  - simpl in Htok. apply String.eqb_neq in E. contradiction.
Qed.

(** ** [get_stats] *)

Lemma get_stats_run (campaign_id : string) (w : World) :
  get_stats campaign_id w
  = if stats_overflow campaign_id (db w)
    then (Raises (RuntimeError "Ошибка БД: integer overflow"), w)
    else (Returns (stats campaign_id (db w)), w).
Proof.
  unfold get_stats, stats_overflow, bind, except_sqlite3, with_connection,
    query_sums, ret, raise.
  destruct (totals_overflow campaign_id (db w)); cbn [orb].
  - now rewrite world_eta.
  - destruct (department_totals_overflow campaign_id (db w)).
    + now rewrite world_eta.
    + reflexivity.
Qed.


Lemma get_stats_world (campaign_id : string) (w : World) :
  snd (get_stats campaign_id w) = w.
Proof.
  rewrite get_stats_run. now destruct (stats_overflow campaign_id (db w)).
Qed.

Lemma or_zero_sql_sum (xs : list Z) : or_zero (sql_sum xs) = sum_Z xs.
Proof. destruct xs; reflexivity. Qed.

Lemma int_or_zero_id (x : Z) : int_or_zero x = x.
Proof.
  unfold int_or_zero. destruct (x =? 0)%Z eqn:E; [|reflexivity].
  apply Z.eqb_eq in E. now subst.
Qed.

Lemma total_employees_stats (campaign_id : string) (d : Database) :
  total_employees (stats campaign_id d)
  = Z.of_nat (List.length
      (filter (fun r => String.eqb (r_campaign_id r) campaign_id)
              (results d))).
Proof.
  unfold stats, stats_of, select_totals. cbn [total_employees].
  apply int_or_zero_id.
Qed.

(* ===================================================================== *)
(** * The invariant of the tables *)

(** ** Distinct identifiers *)

Lemma fresh_uuids_injective (U : nat -> string) (n : nat) :
  fresh_uuids U n = true -> injective_upto U n.
Proof.
  unfold fresh_uuids. rewrite distinct_NoDup, (NoDup_nth _ "").
  rewrite length_map, length_seq. intros H i j Hi Hj Heq.
  apply H; try assumption.
  rewrite !(nth_indep _ "" (U 0)) by (rewrite length_map, length_seq; lia).
  rewrite !map_nth, !seq_nth by lia. exact Heq.
Qed.

Lemma injective_upto_le (U : nat -> string) (m n : nat) :
  m <= n -> injective_upto U n -> injective_upto U m.
Proof. intros Hle H i j Hi Hj. apply H; lia. Qed.

Lemma drawn_le (U : nat -> string) (m n : nat) (x : string) :
  m <= n -> drawn U m x -> drawn U n x.
Proof. intros Hle [i [Hi Hx]]. exists i. split; [lia | assumption]. Qed.

Lemma drawn_next (U : nat -> string) (n k : nat) :
  k < n -> drawn U n (U k).
Proof. intros H. exists k. now split. Qed.

(** A value drawn later differs from every value drawn before. *)
Lemma drawn_fresh (U : nat -> string) (m n k : nat) (x : string) :
  injective_upto U n -> drawn U m x -> m <= k -> k < n -> x <> U k.
Proof.
  intros Hinj [i [Hi ->]] Hmk Hkn Heq.
  assert (i = k) by (apply Hinj; [lia | lia | assumption]). lia.
Qed.

(** ** The invariant is kept *)

Lemma Inv_le (U : nat -> string) (m n : nat) (d : Database) :
  m <= n -> Inv U m d -> Inv U n d.
Proof.
  intros Hle [H1 H2 H3 H4 H5 Hcam H6 H7 H8].
  constructor; try assumption.
  - intros c Hin. eapply drawn_le; eauto.
  - intros e He. eapply drawn_le; eauto.
  - intros r Hr. destruct (H7 r Hr) as [Ha [Hb Hd]].
    repeat split; eapply drawn_le; eauto.
Qed.

Lemma Inv_empty (U : nat -> string) : Inv U 0 empty_database.
Proof.
  constructor; simpl; try apply NoDup_nil; intros ? [].
Qed.

Lemma Inv_insert_campaign (U : nat -> string) (n : nat) (d d' : Database)
    (id name template created : string) :
  Inv U n d -> drawn U n id ->
  insert_campaign id name template created d = Done d' ->
  Inv U n d'.
Proof.
  intros [H1 H2 H3 H4 H5 Hcam H6 H7 H8] Hid. unfold insert_campaign.
  destruct (mem id (map c_id (campaigns d))) eqn:E; [discriminate|].
  intros Hd. injection Hd as <-. constructor; simpl; try assumption.
  - rewrite map_app. simpl. apply NoDup_snoc; [assumption|].
    now apply mem_not_In.
  - intros c Hin. apply in_app_or in Hin. destruct Hin as [Hin|[<-|[]]].
    + now apply Hcam.
    + exact Hid.
Qed.

Lemma Inv_update (U : nat -> string) (n : nat) (d : Database)
    (g : Result -> Result) :
  keeps_keys g -> Inv U n d ->
  Inv U n (mkDatabase (campaigns d) (employees d) (map g (results d))).
Proof.
  intros Hg [H1 H2 H3 H4 H5 Hcam H6 H7 H8].
  assert (Hid : map r_id (map g (results d)) = map r_id (results d)).
  { rewrite map_map. apply map_ext. intros r. apply Hg. }
  assert (Htok : map r_token (map g (results d)) = map r_token (results d)).
  { rewrite map_map. apply map_ext. intros r. apply Hg. }
  constructor; simpl; try assumption.
  - now rewrite Hid.
  - now rewrite Htok.
  - intros r Hr. apply in_map_iff in Hr. destruct Hr as [r0 [<- Hr0]].
    destruct (Hg r0) as [-> [-> [_ ->]]]. now apply H7.
  - intros e He. destruct (H8 e He) as [r [Hr Hc]].
    exists (g r). unfold results_of in *. simpl. split.
    + rewrite filter_map_swap.
      rewrite (filter_ext _ (fun r => String.eqb (e_id e) (r_employee_id r))).
      * now rewrite Hr.
      * intros a. destruct (Hg a) as [_ [-> _]]. reflexivity.
    + destruct (Hg r) as [_ [_ [-> _]]]. assumption.
Qed.

Lemma results_of_snoc (e : Employee) (cs : list Campaign)
    (es : list Employee) (rs : list Result) (r : Result) :
  results_of e (mkDatabase cs es (rs ++ [r]))
  = (filter (fun r => String.eqb (e_id e) (r_employee_id r)) rs ++
     (if String.eqb (e_id e) (r_employee_id r) then [r] else []))%list.
Proof. unfold results_of. simpl. now rewrite filter_app. Qed.

(** Adding a result row whose employee_id matches no employee row. *)
Lemma Inv_add_result (U : nat -> string) (n : nat) (d : Database)
    (r : Result) :
  Inv U n d ->
  ~ In (r_id r) (map r_id (results d)) ->
  ~ In (r_token r) (map r_token (results d)) ->
  ~ In (r_employee_id r) (map e_id (employees d)) ->
  drawn U n (r_id r) -> drawn U n (r_employee_id r) -> drawn U n (r_token r) ->
  Inv U n (mkDatabase (campaigns d) (employees d) (results d ++ [r])).
Proof.
  intros [H1 H2 H3 H4 H5 Hcam H6 H7 H8] Hid Htok Hemp Da Db Dc.
  constructor; simpl; try assumption.
  - rewrite map_app. now apply NoDup_snoc.
  - rewrite map_app. now apply NoDup_snoc.
  - intros r0 Hr0. apply in_app_or in Hr0. destruct Hr0 as [Hr0|[<-|[]]].
    + now apply H7.
    + now repeat split.
  - intros e He. rewrite results_of_snoc.
    destruct (String.eqb (e_id e) (r_employee_id r)) eqn:E.
    + apply String.eqb_eq in E. exfalso. apply Hemp. rewrite <- E.
      now apply in_map.
    + rewrite app_nil_r. exact (H8 e He).
Qed.

(** Adding an employee row together with the result row created for it. *)
Lemma Inv_add_employee (U : nat -> string) (n : nat) (d : Database)
    (e : Employee) (r : Result) :
  Inv U n d ->
  ~ In (e_id e) (map e_id (employees d)) ->
  ~ In (e_email e) (map e_email (employees d)) ->
  ~ In (e_id e) (map r_employee_id (results d)) ->
  ~ In (r_id r) (map r_id (results d)) ->
  ~ In (r_token r) (map r_token (results d)) ->
  r_employee_id r = e_id e -> r_campaign_id r = e_campaign_id e ->
  drawn U n (r_id r) -> drawn U n (e_id e) -> drawn U n (r_token r) ->
  Inv U n (mkDatabase (campaigns d) (employees d ++ [e]) (results d ++ [r])).
Proof.
  intros [H1 H2 H3 H4 H5 Hcam H6 H7 H8] He Hem Hdang Hid Htok Hre Hrc Da Db Dc.
  constructor; simpl; try assumption.
  - rewrite map_app. now apply NoDup_snoc.
  - rewrite map_app. now apply NoDup_snoc.
  - rewrite map_app. now apply NoDup_snoc.
  - rewrite map_app. now apply NoDup_snoc.
  - intros e0 He0. apply in_app_or in He0. destruct He0 as [He0|[<-|[]]].
    + now apply H6.
    + assumption.
  - intros r0 Hr0. apply in_app_or in Hr0. destruct Hr0 as [Hr0|[<-|[]]].
    + now apply H7.
    + rewrite Hre. now repeat split.
  - intros e0 He0. rewrite results_of_snoc. rewrite Hre.
    apply in_app_or in He0. destruct He0 as [He0|[<-|[]]].
    + destruct (String.eqb (e_id e0) (e_id e)) eqn:E.
      * apply String.eqb_eq in E. exfalso. apply He. rewrite <- E.
        now apply in_map.
      * rewrite app_nil_r. exact (H8 e0 He0).
    + rewrite String.eqb_refl. exists r. split; [|assumption].
      rewrite filter_none; [reflexivity|].
      intros r0 Hr0. apply String.eqb_neq. intros Heq. apply Hdang.
      rewrite Heq. now apply in_map.
Qed.

Lemma enroll_fresh (U : nat -> string) (campaign_id : string) (emp : Row)
    (w : World) :
  let k := entropy w in
  Inv U k (db w) -> injective_upto U (S (S (S k))) ->
  let r := mkResult (U (S (S k))) (U k) campaign_id 0 0 0 None None
                    (U (S k)) in
  let d2 := mkDatabase (campaigns (db w))
              (enrolled (U k) emp campaign_id (employees (db w)))
              (results (db w) ++ [r]) in
  enroll U campaign_id emp w
  = (Returns tt, mkWorld d2 (S (S (S k))) (ticks w) (stdout w) (written w))
  /\ Inv U (S (S (S k))) d2.
Proof.
  intros k HI Hinj r d2.
  pose proof HI as [H1 H2 H3 H4 H5 Hcam H6 H7 H8].
  assert (Hfresh_e : forall j, k <= j < S (S (S k)) ->
            ~ In (U j) (map e_id (employees (db w)))).
  { intros j Hj Hin. apply in_map_iff in Hin. destruct Hin as [e [He Hin]].
    apply (drawn_fresh U k (S (S (S k))) j (e_id e) Hinj (H6 e Hin));
      [lia | lia | assumption]. }
  assert (Hfresh_r : forall j, k <= j < S (S (S k)) ->
            ~ In (U j) (map r_id (results (db w))) /\
            ~ In (U j) (map r_employee_id (results (db w))) /\
            ~ In (U j) (map r_token (results (db w)))).
  { intros j Hj. repeat split; intros Hin; apply in_map_iff in Hin;
      destruct Hin as [r0 [Hr0 Hin]]; destruct (H7 r0 Hin) as [Da [Db Dc]].
    - apply (drawn_fresh U k (S (S (S k))) j (r_id r0) Hinj Da);
        [lia | lia | assumption].
    - apply (drawn_fresh U k (S (S (S k))) j (r_employee_id r0) Hinj Db);
        [lia | lia | assumption].
    - apply (drawn_fresh U k (S (S (S k))) j (r_token r0) Hinj Dc);
        [lia | lia | assumption]. }
  assert (HI3 : Inv U (S (S (S k))) (db w)) by (apply (Inv_le U k); [lia | assumption]).
  destruct (Hfresh_r (S (S k)) ltac:(lia)) as [Hrid _].
  destruct (Hfresh_r (S k) ltac:(lia)) as [_ [_ Htok]].
  destruct (Hfresh_r k ltac:(lia)) as [_ [Hdang _]].
  pose proof (Hfresh_e k ltac:(lia)) as Heid.
  rewrite enroll_run. fold k.
  assert (Hd1 : insert_or_ignore_employee (U k) (row_get "email" emp)
              (row_get "name" emp) (row_get "department" emp)
              campaign_id (db w)
            = mkDatabase (campaigns (db w))
                (enrolled (U k) emp campaign_id (employees (db w)))
                (results (db w))).
  { unfold insert_or_ignore_employee, enrolled.
    destruct (row_get "email" emp) as [em|].
    - apply mem_not_In in Heid. rewrite Heid. simpl.
      destruct (mem em (map e_email (employees (db w)))).
      + now destruct (db w).
      + reflexivity.
    - now destruct (db w). }
  rewrite Hd1. unfold insert_result. simpl.
  apply mem_not_In in Hrid. apply mem_not_In in Htok. rewrite Hrid, Htok.
  split; [reflexivity|]. unfold d2, enrolled.
  apply mem_not_In in Hrid. apply mem_not_In in Htok.
  destruct (row_get "email" emp) as [em|].
  - destruct (mem em (map e_email (employees (db w)))) eqn:Eem.
    + apply Inv_add_result; simpl; try assumption; apply drawn_next; lia.
    + apply Inv_add_employee; simpl; try assumption; try reflexivity;
        try (apply drawn_next; lia).
      now apply mem_not_In.
  - apply Inv_add_result; simpl; try assumption; apply drawn_next; lia.
Qed.

(** ** The enrolment loop *)

Lemma enroll_loop (U : nat -> string) (campaign_id : string)
    (rows : list Row) :
  forall w,
    Inv U (entropy w) (db w) ->
    injective_upto U (entropy w + 3 * List.length rows) ->
    let d' := mkDatabase (campaigns (db w))
                (enrolled_all U (entropy w) campaign_id rows
                              (employees (db w)))
                (results (db w) ++
                 new_results U (entropy w) campaign_id rows) in
    for_each rows (enroll U campaign_id) w
    = (Returns tt,
       mkWorld d' (entropy w + 3 * List.length rows) (ticks w) (stdout w)
               (written w))
    /\ Inv U (entropy w + 3 * List.length rows) d'.
Proof.
  induction rows as [|emp rows IH]; intros w HI Hinj d'.
  - unfold d'. simpl. rewrite app_nil_r, database_eta, Nat.add_0_r.
    unfold ret. rewrite world_eta. now split.
  - destruct (enroll_fresh U campaign_id emp w HI) as [Hrun HI1].
    { eapply injective_upto_le; [|exact Hinj]. simpl. lia. }
    cbn [for_each]. unfold bind at 1. rewrite Hrun.
    set (w1 := mkWorld _ _ _ _ _) in *.
    specialize (IH w1 HI1).
    assert (Hn : entropy w1 + 3 * List.length rows
                 = entropy w + 3 * List.length (emp :: rows)).
    { unfold w1. simpl. lia. }
    rewrite Hn in IH. specialize (IH Hinj). simpl in IH.
    destruct IH as [IHrun IHI]. unfold d'. simpl.
    rewrite <- app_assoc in IHrun, IHI. simpl in IHrun, IHI.
    split; assumption.
Qed.

Lemma new_results_length (U : nat -> string) (campaign_id : string)
    (rows : list Row) :
  forall k, List.length (new_results U k campaign_id rows) = List.length rows.
Proof. induction rows as [|emp rows IH]; intros k; simpl; congruence. Qed.

Lemma new_results_campaign (U : nat -> string) (campaign_id : string)
    (rows : list Row) :
  forall k r, In r (new_results U k campaign_id rows) ->
              r_campaign_id r = campaign_id /\ r_email_sent r = 0%Z /\
              r_link_clicked r = 0%Z /\ r_phishing_reported r = 0%Z.
Proof.
  induction rows as [|emp rows IH]; intros k r; simpl; [intros []|].
  intros [<-|Hr]; [now simpl | eauto].
Qed.

Lemma enrolled_keeps (id : string) (emp : Row) (campaign_id : string)
    (es : list Employee) (em : string) :
  In em (map e_email es) ->
  In em (map e_email (enrolled id emp campaign_id es)).
Proof.
  intros H. unfold enrolled. destruct (row_get "email" emp); [|assumption].
  destruct (mem s (map e_email es)); [assumption|].
  rewrite map_app. apply in_or_app. now left.
Qed.

Lemma enrolled_has (id : string) (emp : Row) (campaign_id : string)
    (es : list Employee) (em : string) :
  row_get "email" emp = Some em ->
  In em (map e_email (enrolled id emp campaign_id es)).
Proof.
  intros H. unfold enrolled. rewrite H.
  destruct (mem em (map e_email es)) eqn:E.
  - now apply mem_In.
  - rewrite map_app. apply in_or_app. right. now left.
Qed.

Lemma enrolled_all_keeps (U : nat -> string) (campaign_id : string)
    (rows : list Row) (em : string) :
  forall k es, In em (map e_email es) ->
               In em (map e_email (enrolled_all U k campaign_id rows es)).
Proof.
  induction rows as [|emp rows IH]; intros k es H; simpl; [assumption|].
  apply IH. now apply enrolled_keeps.
Qed.

Lemma enrolled_all_has (U : nat -> string) (campaign_id : string)
    (rows : list Row) (emp : Row) (em : string) :
  In emp rows -> row_get "email" emp = Some em ->
  forall k es, In em (map e_email (enrolled_all U k campaign_id rows es)).
Proof.
  induction rows as [|emp0 rows IH]; intros Hin Hem k es; [destruct Hin|].
  simpl. destruct Hin as [->|Hin].
  - apply enrolled_all_keeps. now apply enrolled_has.
  - now apply IH.
Qed.

Lemma add_employees_run (U : nat -> string)
    (F : string -> option (list Row)) (campaign_id file : string)
    (rows : list Row) (w : World) :
  read_employees F file = Returns rows ->
  Inv U (entropy w) (db w) ->
  injective_upto U (entropy w + 3 * List.length rows) ->
  let d' := mkDatabase (campaigns (db w))
              (enrolled_all U (entropy w) campaign_id rows
                            (employees (db w)))
              (results (db w) ++
               new_results U (entropy w) campaign_id rows) in
  add_employees U F campaign_id file w
  = (Returns tt,
     mkWorld d' (entropy w + 3 * List.length rows) (ticks w)
       (stdout w ++
        [("Добавлено сотрудников: " ++ str_nat (List.length rows))%string])
       (written w))
  /\ Inv U (entropy w + 3 * List.length rows) d'.
Proof.
  intros Hread HI Hinj d'.
  destruct (enroll_loop U campaign_id rows w HI Hinj) as [Hloop HI'].
  split; [|exact HI'].
  unfold add_employees. rewrite Hread.
  unfold except_sqlite3, with_connection, bind. rewrite Hloop.
  reflexivity.
Qed.

(** ** Every call keeps the invariant *)

Lemma enroll_loop_entropy (U : nat -> string) (campaign_id : string)
    (rows : list Row) :
  forall w,
    entropy w <= entropy (snd (for_each rows (enroll U campaign_id) w)) /\
    (fst (for_each rows (enroll U campaign_id) w) = Returns tt ->
     entropy (snd (for_each rows (enroll U campaign_id) w))
     = entropy w + 3 * List.length rows).
Proof.
  induction rows as [|emp rows IH]; intros w.
  - simpl. split; [lia | intros _; lia].
  - cbn [for_each]. unfold bind at 1 2 3. rewrite enroll_run.
    destruct (insert_result _ _ _ _ _) as [d2|msg].
    + match goal with
      | |- context [for_each rows _ ?w1] => destruct (IH w1) as [Hle Heq]
      end.
      simpl in Hle, Heq. split.
      * lia.
      * intros Hret. rewrite (Heq Hret). simpl. lia.
    + simpl. split; [lia | discriminate].
Qed.

Lemma add_employees_cases (U : nat -> string)
    (F : string -> option (list Row)) (campaign_id file : string)
    (w : World) :
  let w' := snd (add_employees U F campaign_id file w) in
  entropy w <= entropy w' /\
  match fst (add_employees U F campaign_id file w) with
  | Raises _ => db w' = db w
  | Returns _ =>
      exists rows, read_employees F file = Returns rows /\
                   entropy w' = entropy w + 3 * List.length rows
  end.
Proof.
  unfold add_employees.
  destruct (read_employees F file) as [rows|e] eqn:Hread.
  - pose proof (enroll_loop_entropy U campaign_id rows w) as [Hle Heq].
    unfold except_sqlite3, with_connection, bind.
    destruct (for_each rows (enroll U campaign_id) w) as [[[]|e] w1] eqn:E;
      simpl in *.
    + split; [lia|]. exists rows. split; [reflexivity|]. now apply Heq.
    + destruct e; simpl; split; try lia; reflexivity.
  - simpl. split; [lia | reflexivity].
Qed.

Lemma keeps_keys_when (p : Result -> bool) (g : Result -> Result) :
  keeps_keys g -> keeps_keys (fun r => if p r then g r else r).
Proof. intros Hg r. destruct (p r); [apply Hg | now repeat split]. Qed.

Lemma keeps_keys_email_sent : keeps_keys set_email_sent.
Proof. intros r. now repeat split. Qed.

Lemma keeps_keys_link_clicked (at_ : string) :
  keeps_keys (set_link_clicked at_).
Proof. intros r. now repeat split. Qed.

Lemma keeps_keys_phishing_reported (at_ : string) :
  keeps_keys (set_phishing_reported at_).
Proof. intros r. now repeat split. Qed.

Lemma call_entropy_le (U C : nat -> string) (c : Call) (w : World) :
  entropy w <= entropy (call U C c w).
Proof.
  destruct c as [name template | F cid file | fs cid out | token
                | email cid | cid]; simpl.
  - unfold create_campaign.
    destruct (in_templates templates template); simpl; [|lia].
    unfold bind, except_sqlite3, with_connection, uuid4, now_isoformat,
      execute, print, ret, raise, set_db. simpl.
    destruct (insert_campaign _ _ _ _ _); simpl; lia.
  - apply add_employees_cases.
  - destruct (generate_emails_world fs cid out w)
      as [tokens [files [lines [_ ->]]]]. simpl. lia.
  - rewrite simulate_click_run. simpl. lia.
  - rewrite report_phishing_run. simpl. lia.
  - rewrite get_stats_world. lia.
Qed.

Lemma call_Inv (U C : nat -> string) (c : Call) (w : World) :
  Inv U (entropy w) (db w) ->
  injective_upto U (entropy (call U C c w)) ->
  Inv U (entropy (call U C c w)) (db (call U C c w)).
Proof.
  intros HI.
  destruct c as [name template | F cid file | fs cid out | token
                | email cid | cid]; simpl.
  - intros _. unfold create_campaign.
    destruct (in_templates templates template); simpl; [|assumption].
    unfold bind, except_sqlite3, with_connection, uuid4, now_isoformat,
      execute, print, ret, raise, set_db. simpl.
    destruct (insert_campaign _ _ _ _ _) as [d'|msg] eqn:E; simpl.
    + eapply Inv_insert_campaign; [| |exact E].
      * apply (Inv_le U (entropy w)); [lia | assumption].
      * apply drawn_next. lia.
    + apply (Inv_le U (entropy w)); [lia | assumption].
  - pose proof (add_employees_cases U F cid file w) as [Hle Hcase].
    simpl in Hle, Hcase. intros Hinj.
    destruct (fst (add_employees U F cid file w)) eqn:Hfst.
    + destruct Hcase as [rows [Hread Hent]]. rewrite Hent in Hinj.
      destruct (add_employees_run U F cid file rows w Hread HI Hinj)
        as [Hrun HI'].
      rewrite Hrun. simpl. exact HI'.
    + rewrite Hcase. apply (Inv_le U (entropy w)); assumption.
  - intros _. destruct (generate_emails_world fs cid out w)
      as [tokens [files [lines [_ ->]]]]. simpl.
    apply Inv_update; [|assumption].
    apply keeps_keys_when, keeps_keys_email_sent.
  - intros _. rewrite simulate_click_run. simpl.
    apply Inv_update; [|assumption].
    apply keeps_keys_when, keeps_keys_link_clicked.
  - intros _. rewrite report_phishing_run. simpl.
    apply Inv_update; [|assumption].
    apply (keeps_keys_when
             (fun r => mem (r_employee_id r)
                (map e_id
                   (filter (fun e => String.eqb (e_email e) email &&
                                     String.eqb (e_campaign_id e) cid)
                           (employees (db w)))))),
          keeps_keys_phishing_reported.
  - intros _. now rewrite get_stats_world.
Qed.

Lemma run_snoc (U C : nat -> string) (cs : list Call) (c : Call) :
  run U C (cs ++ [c]) = call U C c (run U C cs).
Proof. unfold run. now rewrite fold_left_app. Qed.

(** In a session whose uuids are pairwise different the tables satisfy the
    invariant. *)
Lemma session_Inv (U C : nat -> string) (cs : list Call) :
  injective_upto U (entropy (run U C cs)) ->
  Inv U (entropy (run U C cs)) (db (run U C cs)).
Proof.
  induction cs as [|c cs IH] using rev_ind.
  - intros _. apply Inv_empty.
  - rewrite run_snoc. intros Hinj. apply call_Inv; [|assumption].
    apply IH. eapply injective_upto_le; [|exact Hinj].
    apply call_entropy_le.
Qed.

(* ===================================================================== *)
(** * Rounding, grouping, the catalog *)

(** [round_half_even] returns an integer within one half of the quotient. *)
Lemma round_half_even_nearest (num den : Z) :
  (0 < den)%Z ->
  (Z.abs (2 * num - 2 * den * round_half_even num den) <= den)%Z.
Proof.
  intros Hden. unfold round_half_even.
  pose proof (Z.div_mod num den ltac:(lia)) as Hdm.
  pose proof (Z.mod_pos_bound num den Hden) as Hb.
  set (q := (num / den)%Z) in *. set (r := (num mod den)%Z) in *.
  destruct (2 * r <? den)%Z eqn:E1; [apply Z.ltb_lt in E1; nia|].
  apply Z.ltb_ge in E1.
  destruct (den <? 2 * r)%Z eqn:E2; [apply Z.ltb_lt in E2; nia|].
  apply Z.ltb_ge in E2.
  destruct (Z.even q); nia.
Qed.

(** On a tie [round_half_even] returns the even neighbour. *)
Lemma round_half_even_tie (num den : Z) :
  (0 < den)%Z ->
  (Z.abs (2 * num - 2 * den * round_half_even num den) = den)%Z ->
  Z.even (round_half_even num den) = true.
Proof.
  intros Hden. unfold round_half_even.
  pose proof (Z.div_mod num den ltac:(lia)) as Hdm.
  pose proof (Z.mod_pos_bound num den Hden) as Hb.
  set (q := (num / den)%Z) in *. set (r := (num mod den)%Z) in *.
  destruct (2 * r <? den)%Z eqn:E1.
  { apply Z.ltb_lt in E1. intros H. exfalso. nia. }
  apply Z.ltb_ge in E1.
  destruct (den <? 2 * r)%Z eqn:E2.
  { apply Z.ltb_lt in E2. intros H. exfalso. nia. }
  destruct (Z.even q) eqn:Ev; intros _; [assumption|].
  rewrite Z.even_add, Ev. reflexivity.
Qed.

(** [round(x, 2)] of a finite float below [2^46] is a whole number of
    hundredths, the nearest one to the exact value [m * 2^e] of [x]. *)
Lemma py_round2_hundredths (x : float) (s : bool) (m : positive) (e : Z) :
  Prim2SF x = S754_finite s m e ->
  (e <= -7)%Z ->
  let n := round_half_even (100 * Z.pos m) (2 ^ (- e)) in
  let y := PrimFloat.div (float_of_int n) (float_of_int 100) in
  py_round2 x = (if s then PrimFloat.opp y else y) /\
  (Z.abs (2 * (100 * Z.pos m) - 2 * 2 ^ (- e) * n) <= 2 ^ (- e))%Z.
Proof.
  intros Hx He n y. split.
  - unfold py_round2. rewrite Hx.
    destruct (-7 <? e)%Z eqn:E; [apply Z.ltb_lt in E; lia|]. reflexivity.
  - apply round_half_even_nearest. apply Z.pow_pos_nonneg; lia.
Qed.

(** ** Percentages *)




(** ** The join, employee by employee *)

Lemma flat_map_nothing {A B} (l : list A) :
  flat_map (fun _ : A => @nil B) l = [].
Proof. induction l; simpl; congruence. Qed.

Lemma filter_Permutation {A} (p : A -> bool) (l l' : list A) :
  Permutation l l' -> Permutation (filter p l) (filter p l').
Proof.
  intros H. induction H as [|x l l' H IH|x y l|l l' l'' H1 IH1 H2 IH2]; simpl.
  - constructor.
  - destruct (p x); [now constructor | assumption].
  - destruct (p x), (p y); try apply Permutation_refl. apply perm_swap.
  - eapply perm_trans; eassumption.
Qed.

Lemma sum_Z_Permutation (l l' : list Z) :
  Permutation l l' -> sum_Z l = sum_Z l'.
Proof.
  intros H. induction H as [|x l l' H IH|x y l|l l' l'' H1 IH1 H2 IH2];
    unfold sum_Z in *; simpl; lia.
Qed.

(** A join can be listed by either table. *)
Lemma join_swap {A B} (p : A -> B -> bool) (la : list A) (lb : list B) :
  Permutation
    (flat_map (fun b => map (fun a => (a, b)) (filter (fun a => p a b) la)) lb)
    (flat_map (fun a => map (pair a) (filter (p a) lb)) la).
Proof.
  induction la as [|a la IH]; simpl.
  - now rewrite flat_map_nothing.
  - eapply perm_trans; [|apply Permutation_app_head; exact IH].
    clear IH. induction lb as [|b lb IHb]; simpl; [constructor|].
    destruct (p a b); simpl.
    + constructor. eapply perm_trans;
        [apply Permutation_app_head; exact IHb|].
      apply Permutation_app_swap_app.
    + eapply perm_trans; [apply Permutation_app_head; exact IHb|].
      rewrite !app_assoc. apply Permutation_app_tail.
      apply Permutation_app_comm.
Qed.

Lemma pairs_of_campaign (campaign_id : string) (rs : list Result)
    (es : list Employee) :
  flat_map
    (fun e =>
       map (pair e)
           (filter (fun r => String.eqb (e_id e) (r_employee_id r) &&
                             String.eqb (e_campaign_id e) campaign_id) rs))
    es
  = flat_map
      (fun e =>
         map (pair e)
             (filter (fun r => String.eqb (e_id e) (r_employee_id r)) rs))
      (filter (fun e => String.eqb (e_campaign_id e) campaign_id) es).
Proof.
  induction es as [|e es IH]; simpl; [reflexivity|].
  destruct (String.eqb (e_campaign_id e) campaign_id) eqn:E; simpl.
  - rewrite IH. f_equal. f_equal. apply filter_ext. intros r.
    now rewrite andb_true_r.
  - rewrite IH. rewrite filter_none; [reflexivity|].
    intros r _. now rewrite andb_false_r.
Qed.

(** The joined rows listed employee by employee: the same rows as
    [join_employees_results], in another order. *)
Lemma join_by_employee (campaign_id : string) (d : Database) :
  Permutation
    (join_employees_results campaign_id d)
    (flat_map (fun e => map (pair e) (results_of e d))
       (filter (fun e => String.eqb (e_campaign_id e) campaign_id)
               (employees d))).
Proof.
  unfold join_employees_results, employees_of_result, results_of.
  rewrite <- pairs_of_campaign.
  apply (join_swap
           (fun e r => String.eqb (e_id e) (r_employee_id r) &&
                       String.eqb (e_campaign_id e) campaign_id)).
Qed.

Lemma join_group (campaign_id : string) (dept : option string)
    (d : Database) :
  Permutation
    (department_group campaign_id d dept)
    (flat_map (fun e => map (pair e) (results_of e d))
              (employees_in campaign_id dept d)).
Proof.
  unfold department_group.
  eapply perm_trans; [apply filter_Permutation, join_by_employee|].
  rewrite (filter_pairs (fun e => option_eqb (e_department e) dept)).
  unfold employees_in. rewrite filter_twice. apply Permutation_refl.
Qed.

(** ** The order of the groups *)

Lemma insert_department_Permutation (x : option string)
    (l : list (option string)) :
  Permutation (x :: l) (insert_department x l).
Proof.
  induction l as [|y l IH]; simpl; [apply Permutation_refl|].
  destruct (department_leb x y); [apply Permutation_refl|].
  eapply perm_trans; [apply perm_swap|]. now constructor.
Qed.

Lemma sort_departments_Permutation (l : list (option string)) :
  Permutation l (sort_departments l).
Proof.
  induction l as [|x l IH]; simpl; [constructor|].
  eapply perm_trans; [|apply insert_department_Permutation]. now constructor.
Qed.

Lemma sort_departments_In (l : list (option string)) (x : option string) :
  In x (sort_departments l) <-> In x l.
Proof.
  split; apply Permutation_in;
    [apply Permutation_sym|]; apply sort_departments_Permutation.
Qed.

Lemma joined_departments_In (campaign_id : string) (d : Database)
    (dept : option string) :
  In dept (joined_departments campaign_id d) <->
  exists e r, In (e, r) (join_employees_results campaign_id d) /\
              e_department e = dept.
Proof.
  unfold joined_departments. rewrite nodup_In, in_map_iff. split.
  - intros [[e r] [Hd Hin]]. now exists e, r.
  - intros [e [r [Hin Hd]]]. now exists (e, r).
Qed.

(** The breakdown, with each group listed employee by employee. *)
Lemma department_stats_stats (campaign_id : string) (d : Database) :
  department_stats (stats campaign_id d)
  = map (fun dept =>
           let es := employees_in campaign_id dept d in
           mkDepartmentStats dept
             (Z.of_nat (List.length
                (flat_map (fun e => map (pair e) (results_of e d)) es)))
             (sum_Z (map r_link_clicked
                         (flat_map (fun e => results_of e d) es)))
             (sum_Z (map r_phishing_reported
                         (flat_map (fun e => results_of e d) es))))
        (sort_departments (joined_departments campaign_id d)).
Proof.
  unfold stats, stats_of, select_department_totals.
  destruct (select_totals campaign_id d) as [[[t s] c] r].
  cbn [department_stats]. rewrite map_map. apply map_ext. intros dept.
  rewrite !or_zero_sql_sum.
  pose proof (join_group campaign_id dept d) as Hg.
  rewrite (Permutation_length Hg).
  rewrite (sum_Z_Permutation _ _
             (Permutation_map (fun er => r_link_clicked (snd er)) Hg)).
  rewrite (sum_Z_Permutation _ _
             (Permutation_map (fun er => r_phishing_reported (snd er)) Hg)).
  rewrite (map_snd_pairs r_link_clicked), (map_snd_pairs r_phishing_reported).
  reflexivity.
Qed.

(** Every body of the catalog holds the placeholder once. *)
Lemma catalog_bodies (key : string) (t : EmailTemplate) :
  templates_get templates key = Some t ->
  exists pre post,
    t_body t = pre ++ "{link}" ++ post /\
    forall url, py_replace "{link}" url (t_body t) = pre ++ url ++ post.
Proof.
  unfold templates, _load_templates. cbn [templates_get].
  destruct (String.eqb "password_reset" key).
  { intros H. injection H as <-.
    exists ("Уважаемый сотрудник," ++ nl ++ nl ++
     "Наша система безопасности обнаружила подозрительную активность." ++ nl ++
     "Для защиты данных требуется немедленный сброс пароля." ++ nl ++ nl ++
     "Ссылка: "),
     (nl ++ nl ++ "С уважением," ++ nl ++ "Отдел ИБ").
    split; [reflexivity | intros url; reflexivity]. }
  destruct (String.eqb "software_update" key).
  { intros H. injection H as <-.
    exists ("Здравствуйте," ++ nl ++ nl ++
     "Требуется установить обновление безопасности." ++ nl ++
     "Пожалуйста, перейдите по ссылке для установки:" ++ nl ++ nl),
     (nl ++ nl ++ "С уважением," ++ nl ++ "IT отдел").
    split; [reflexivity | intros url; reflexivity]. }
  destruct (String.eqb "ceo_request" key); [|discriminate].
  intros H. injection H as <-.
  exists ("Добрый день," ++ nl ++ nl ++
     "Прошу вас ознакомиться с важным документом." ++ nl ++
     "Доступ по ссылке:" ++ nl ++ nl),
     (nl ++ nl ++ "С уважением," ++ nl ++ "Генеральный директор").
  split; [reflexivity | intros url; reflexivity].
Qed.

(* ===================================================================== *)
(** * The claims of the specification *)

(** ** Creating a campaign *)

(** C7.  [create_campaign] with a template name that is not a key of the
    catalog raises the unknown-template error and leaves the world as it
    was.  With a key of the catalog, in a session whose uuids are pairwise
    different, it returns the uuid it drew, which is the id of no campaign
    row so far; it inserts exactly one campaign row, carrying that id, the
    given name and template and the current clock reading, and the campaign
    can be fetched by that id. *)
Theorem create_campaign_spec (U C : nat -> string) (cs : list Call)
    (name template : string) :
  let w := run U C cs in
  let id := U (entropy w) in
  (in_templates templates template = false ->
   create_campaign U C name template w
   = (Raises (ValueError ("Неизвестный шаблон: " ++ template)), w)) /\
  (in_templates templates template = true ->
   fresh_uuids U (S (entropy w)) = true ->
   let row := mkCampaign id name template (C (ticks w)) "active" in
   let d' := mkDatabase (campaigns (db w) ++ [row])
                        (employees (db w)) (results (db w)) in
   ~ In id (map c_id (campaigns (db w))) /\
   create_campaign U C name template w
   = (Returns id,
      mkWorld d' (S (entropy w)) (S (ticks w))
        (stdout w ++
         [("Создана кампания: " ++ name ++ " (ID: " ++ id ++ ")")%string])
        (written w)) /\
   select_campaign id d' = Some (name, template)).
Proof.
  intros w id. split; [apply create_campaign_unknown|].
  intros Hin Hfresh row d'. apply fresh_uuids_injective in Hfresh.
  assert (HI : Inv U (entropy w) (db w)).
  { apply session_Inv. eapply injective_upto_le; [|exact Hfresh]. fold w. lia. }
  assert (Hnew : ~ In id (map c_id (campaigns (db w)))).
  { intros Hc. apply in_map_iff in Hc. destruct Hc as [c [Hc Hcin]].
    apply (drawn_fresh U (entropy w) (S (entropy w)) (entropy w) (c_id c)
             Hfresh (inv_drawn_c _ _ _ HI c Hcin)); [lia | lia | exact Hc]. }
  split; [exact Hnew|]. apply mem_not_In in Hnew. split.
  - now apply create_campaign_run.
  - unfold select_campaign, d'. cbn [campaigns]. rewrite filter_app.
    rewrite (filter_key_absent c_id id _ Hnew). simpl.
    now rewrite String.eqb_refl.
Qed.

Lemma create_campaign_spec_witness :
  in_templates templates "no_such_template" = false /\
  in_templates templates "password_reset" = true /\
  fresh_uuids sample_uuid 1 = true /\
  fst (create_campaign sample_uuid sample_clock "Q1" "no_such_template"
         initial_world)
  = Raises (ValueError "Неизвестный шаблон: no_such_template") /\
  fst (create_campaign sample_uuid sample_clock "Q1" "password_reset"
         initial_world)
  = Returns "uuid-0".
Proof.
  split; [reflexivity|]. split; [reflexivity|]. split; [reflexivity|].
  destruct (create_campaign_spec sample_uuid sample_clock [] "Q1"
              "no_such_template") as [Hbad _].
  destruct (create_campaign_spec sample_uuid sample_clock [] "Q1"
              "password_reset") as [_ Hgood].
  split.
  - apply (f_equal fst (Hbad eq_refl)).
  - destruct (Hgood eq_refl eq_refl) as [_ [Hrun _]].
    apply (f_equal fst Hrun).
Defined.

(** ** Enrolling employees *)

(** C3, as amended.  [add_employees] validates before it writes: when the
    file has no rows, or some row lacks one of the keys email, name,
    department, the call raises and the world, so every table, is as it was.
    What is checked of a row is that it has the three keys, whatever their
    values. *)
Theorem add_employees_validates_first (U : nat -> string)
    (F : string -> option (list Row)) (campaign_id file : string)
    (rows : list Row) (w : World) :
  F file = Some rows ->
  (rows = [] ->
   add_employees U F campaign_id file w
   = (Raises (RuntimeError "Ошибка чтения CSV: Файл не содержит данных"), w))
  /\
  (forallb has_required_fields rows = false ->
   add_employees U F campaign_id file w
   = (Raises (RuntimeError
        "Ошибка чтения CSV: CSV должен содержать поля: email, name, department"),
      w)) /\
  (forall row,
     has_required_fields row = true <->
     In "email" (map fst row) /\ In "name" (map fst row) /\
     In "department" (map fst row)).
Proof.
  intros HF. split; [|split].
  - intros ->. unfold add_employees, read_employees. rewrite HF. reflexivity.
  - intros Hbad. unfold add_employees, read_employees.
    rewrite HF, (validate_rows_missing _ Hbad). reflexivity.
  - intros row. unfold has_required_fields, row_has. cbn [forallb].
    rewrite !andb_true_iff, !mem_In. tauto.
Qed.

Lemma add_employees_validates_first_witness :
  sample_files "empty.csv" = Some [] /\
  sample_files "nodept.csv"
  = Some [[("email", Some "dan@x.com"); ("name", Some "Dan")]] /\
  forallb has_required_fields
    [[("email", Some "dan@x.com"); ("name", Some "Dan")]] = false /\
  snd (add_employees sample_uuid sample_files "uuid-0" "empty.csv"
         initial_world) = initial_world /\
  snd (add_employees sample_uuid sample_files "uuid-0" "nodept.csv"
         initial_world) = initial_world.
Proof.
  split; [reflexivity|]. split; [reflexivity|]. split; [reflexivity|].
  split.
  - destruct (add_employees_validates_first sample_uuid sample_files
                "uuid-0" "empty.csv" [] initial_world eq_refl) as [H _].
    apply (f_equal snd (H eq_refl)).
  - destruct (add_employees_validates_first sample_uuid sample_files
                "uuid-0" "nodept.csv"
                [[("email", Some "dan@x.com"); ("name", Some "Dan")]]
                initial_world eq_refl) as [_ [H _]].
    apply (f_equal snd (H eq_refl)).
Defined.

(** C3 as the specification words it fails on a line that is shorter than
    the header: [csv.DictReader] gives the record the key email with no
    value, the validation passes, the employee row is skipped and a result
    row is written. *)
Lemma add_employees_accepts_short_line :
  let row := [("name", Some "Dan"); ("department", Some "Ops");
              ("email", None)] in
  let w := run sample_uuid sample_clock
             [CreateCampaign "Q1" "password_reset"] in
  let w' := snd (add_employees sample_uuid sample_files "uuid-0"
                               "short.csv" w) in
  sample_files "short.csv" = Some [row] /\
  row_get "email" row = None /\
  fst (add_employees sample_uuid sample_files "uuid-0" "short.csv" w)
  = Returns tt /\
  employees (db w') = employees (db w) /\
  results (db w')
  = (results (db w) ++
     [mkResult "uuid-3" "uuid-1" "uuid-0" 0 0 0 None None "uuid-2"])%list.
Proof. repeat split; vm_compute; reflexivity. Qed.

(** C2.  In a session whose uuids are pairwise different, [add_employees]
    on a file of N valid rows returns, appends N result rows, all of the
    given campaign, so that the campaign's total grows by N whatever the
    addresses are; and every address of the file is then the email of
    exactly one employee row, however often it was enrolled. *)
Theorem add_employees_counts (U C : nat -> string) (cs : list Call)
    (F : string -> option (list Row)) (campaign_id file : string)
    (rows : list Row) :
  let w := run U C cs in
  F file = Some rows ->
  rows <> [] ->
  forallb has_required_fields rows = true ->
  fresh_uuids U (entropy w + 3 * List.length rows) = true ->
  let w' := snd (add_employees U F campaign_id file w) in
  fst (add_employees U F campaign_id file w) = Returns tt /\
  (exists new,
     results (db w') = (results (db w) ++ new)%list /\
     List.length new = List.length rows /\
     forall r, In r new -> r_campaign_id r = campaign_id) /\
  total_employees (stats campaign_id (db w'))
  = (total_employees (stats campaign_id (db w))
     + Z.of_nat (List.length rows))%Z /\
  (forall emp em,
     In emp rows -> row_get "email" emp = Some em ->
     List.length (filter (fun e => String.eqb (e_email e) em)
                         (employees (db w'))) = 1).
Proof.
  intros w HF Hne Hok Hfresh w'.
  apply fresh_uuids_injective in Hfresh.
  assert (HI : Inv U (entropy w) (db w)).
  { apply session_Inv. eapply injective_upto_le; [|exact Hfresh].
    fold w. lia. }
  pose proof (read_employees_ok F file rows HF Hne Hok) as Hread.
  destruct (add_employees_run U F campaign_id file rows w Hread HI Hfresh)
    as [Hrun HI'].
  unfold w'. rewrite Hrun. cbn [fst snd db results employees].
  split; [reflexivity|]. split; [|split].
  - exists (new_results U (entropy w) campaign_id rows).
    split; [reflexivity|]. split; [apply new_results_length|].
    intros r Hr.
    now apply (new_results_campaign U campaign_id rows (entropy w) r).
  - rewrite !total_employees_stats. cbn [results].
    rewrite filter_app, length_app.
    rewrite (filter_all _ (new_results U (entropy w) campaign_id rows)).
    + rewrite new_results_length. lia.
    + intros r Hr. apply String.eqb_eq.
      now apply (new_results_campaign U campaign_id rows (entropy w) r).
  - intros emp em Hin Hem. apply filter_unique.
    + exact (inv_emails _ _ _ HI').
    + now apply (enrolled_all_has U campaign_id rows emp em).
Qed.

Lemma add_employees_counts_witness :
  let rows := [sample_row "alice@x.com" "Alice" "Eng";
               sample_row "alice@x.com" "Alice" "Eng"] in
  let w := run sample_uuid sample_clock
             [CreateCampaign "Q1" "password_reset"] in
  let w' := snd (add_employees sample_uuid sample_files "uuid-0"
                               "twice.csv" w) in
  sample_files "twice.csv" = Some rows /\
  rows <> [] /\
  forallb has_required_fields rows = true /\
  fresh_uuids sample_uuid (entropy w + 3 * List.length rows) = true /\
  total_employees (stats "uuid-0" (db w')) = 2%Z /\
  List.length (filter (fun e => String.eqb (e_email e) "alice@x.com")
                      (employees (db w'))) = 1.
Proof.
  intros rows w w'.
  split; [reflexivity|]. split; [discriminate|]. split; [reflexivity|].
  split; [vm_compute; reflexivity|].
  destruct (add_employees_counts sample_uuid sample_clock
              [CreateCampaign "Q1" "password_reset"]
              sample_files "uuid-0" "twice.csv" rows
              eq_refl ltac:(discriminate) eq_refl
              ltac:(vm_compute; reflexivity)) as [_ [_ [Htotal Hone]]].
  split.
  - exact Htotal.
  - apply (Hone (sample_row "alice@x.com" "Alice" "Eng") "alice@x.com").
    + now left.
    + reflexivity.
Defined.

(** C1.  The claim fails on the code when an address is enrolled twice: the
    INSERT OR IGNORE skips the second employee row, and the result row is
    inserted all the same with the uuid generated for the skipped row, which
    is the id of no employee row. *)
Example add_employees_unmatched_result :
  let w := run sample_uuid sample_clock
             [CreateCampaign "Q1" "password_reset";
              AddEmployees sample_files "uuid-0" "twice.csv"] in
  map e_id (employees (db w)) = ["uuid-1"] /\
  map r_employee_id (results (db w)) = ["uuid-1"; "uuid-4"] /\
  exists r, In r (results (db w)) /\
            ~ In (r_employee_id r) (map e_id (employees (db w))).
Proof.
  split; [vm_compute; reflexivity|]. split; [vm_compute; reflexivity|].
  exists (mkResult "uuid-6" "uuid-4" "uuid-0" 0 0 0 None None "uuid-5").
  split.
  - vm_compute. right. left. reflexivity.
  - vm_compute. intros [H|[]]. discriminate H.
Qed.

(** What the enrolment does guarantee: every employee row has exactly one
    result row, created under the employee's campaign. *)
Lemma employee_has_one_result (U C : nat -> string) (cs : list Call) :
  let d := db (run U C cs) in
  fresh_uuids U (entropy (run U C cs)) = true ->
  forall e, In e (employees d) ->
  exists r, results_of e d = [r] /\ r_campaign_id r = e_campaign_id e.
Proof.
  intros d Hfresh. apply fresh_uuids_injective in Hfresh.
  exact (inv_one_result _ _ _ (session_Inv U C cs Hfresh)).
Qed.

(** ** Rendering the emails *)

(** C5, as amended.  For a campaign that exists with a template of the
    catalog, once the output directory is there, [generate_emails] goes
    through the fetched rows (email, name, token) in their order and stops
    at the first one whose file cannot be opened.  For every row before
    that one it writes one document: the three headers, then the template
    body with every occurrence of the placeholder replaced by the tracking
    link http://localhost:8080/track/<token>, then the footer; and
    afterwards the result row with that token exists and has
    email_sent = 1.  No other file is written and no other row is changed.
    When every file can be opened all fetched rows are rendered and the
    call returns; otherwise it raises the exception of the file that could
    not be opened. *)
Theorem generate_emails_spec (fs : FileSystem)
    (campaign_id out name tname : string) (t : EmailTemplate) (w : World) :
  select_campaign campaign_id (db w) = Some (name, tname) ->
  templates_get templates tname = Some t ->
  fs_makedirs fs out = None ->
  let rs := select_recipients campaign_id (db w) in
  let done := rendered fs out rs in
  let w' := snd (generate_emails fs campaign_id out w) in
  (exists rest, rs = (done ++ rest)%list) /\
  written w' = (written w ++ map (recipient_file t name out) done)%list /\
  results (db w') = mark_sent (map recipient_token done) (results (db w)) /\
  (forall email nm token,
     In (email, nm, token) done ->
     (exists body,
        Replaced "{link}" ("http://localhost:8080/track/" ++ token)
                 (t_body t) body /\
        email_document t name email token
        = "Кому: " ++ email ++ nl ++
          "Тема: " ++ t_subject t ++ nl ++
          "От: " ++ t_sender t ++ nl ++
          nl ++ body ++ nl ++
          nl ++ "---" ++ nl ++
          "Тестовое письмо для кампании: " ++ name ++ nl ++
          "Токен отслеживания: " ++ token ++ nl) /\
     (exists r, In r (results (db w')) /\ r_token r = token) /\
     (forall r, In r (results (db w')) -> r_token r = token ->
                r_email_sent r = 1%Z)) /\
  (all_open fs out rs ->
   done = rs /\ fst (generate_emails fs campaign_id out w) = Returns tt) /\
  (forall x rest,
     rs = (done ++ x :: rest)%list ->
     exists e,
       fs_open fs (email_filename out (fst (fst x))) = Some e /\
       fst (generate_emails fs campaign_id out w) = Raises e).
Proof.
  intros Hc Ht Hdir rs done w'. unfold w'.
  rewrite (generate_emails_run fs campaign_id out name tname t w Hc Ht Hdir).
  cbn [fst snd written db results]. fold rs. fold done.
  split; [apply rendered_prefix|]. split; [reflexivity|].
  split; [reflexivity|]. split; [|split].
  - intros email nm token Hin.
    assert (Htok : In token (map recipient_token done)).
    { apply in_map_iff. now exists (email, nm, token). }
    split; [|split].
    + exists (py_replace "{link}" ("http://localhost:8080/track/" ++ token)
                         (t_body t)).
      split; [|reflexivity].
      apply py_replace_Replaced; [discriminate | reflexivity].
    + apply rendered_incl in Hin. destruct Hin as [Hin _].
      apply select_recipients_In in Hin.
      destruct Hin as [e [r [_ [Hr [_ [_ Hx]]]]]]. injection Hx as _ _ ->.
      assert (Hin : In (r_token r)
                      (map r_token (mark_sent (map recipient_token done)
                                              (results (db w))))).
      { rewrite mark_sent_tokens. now apply in_map. }
      apply in_map_iff in Hin. destruct Hin as [r' [Hr1 Hr2]]. now exists r'.
    + intros r Hr Hrt. apply (mark_sent_In _ _ _ Hr). now rewrite Hrt.
  - intros Hall. destruct (rendered_all fs out rs Hall) as [Hd Hr].
    split; [exact Hd|]. now rewrite Hr.
  - intros x rest Hrs.
    destruct (refusal fs out rs) as [e|] eqn:Hr.
    + destruct (refusal_some fs out rs e Hr) as [y [rest' [Hrs' Hy]]].
      fold done in Hrs'. rewrite Hrs' in Hrs at 1.
      apply app_inv_head in Hrs. injection Hrs as <- _.
      exists e. now split.
    + destruct (refusal_none fs out rs Hr) as [Hd _]. fold done in Hd.
      exfalso. apply (f_equal (@List.length _)) in Hrs.
      rewrite Hd, length_app in Hrs. simpl in Hrs. lia.
Qed.

Lemma generate_emails_spec_witness :
  let w := run sample_uuid sample_clock
             [CreateCampaign "Q1" "password_reset";
              AddEmployees sample_files "uuid-0" "employees.csv"] in
  let w' := snd (generate_emails sample_fs "uuid-0" "emails" w) in
  select_campaign "uuid-0" (db w) = Some ("Q1", "password_reset") /\
  templates_get templates "password_reset" = Some password_reset /\
  fs_makedirs sample_fs "emails" = None /\
  In ("alice@x.com", Some "Alice", "uuid-2")
     (rendered sample_fs "emails" (select_recipients "uuid-0" (db w))) /\
  (forall r, In r (results (db w')) -> r_token r = "uuid-2" ->
             r_email_sent r = 1%Z).
Proof.
  intros w w'.
  assert (Hc : select_campaign "uuid-0" (db w) = Some ("Q1", "password_reset"))
    by (vm_compute; reflexivity).
  assert (Ht : templates_get templates "password_reset" = Some password_reset)
    by reflexivity.
  assert (Hin : In ("alice@x.com", Some "Alice", "uuid-2")
                   (rendered sample_fs "emails"
                             (select_recipients "uuid-0" (db w))))
    by (vm_compute; left; reflexivity).
  split; [exact Hc|]. split; [exact Ht|]. split; [reflexivity|].
  split; [exact Hin|].
  destruct (generate_emails_spec sample_fs "uuid-0" "emails" "Q1"
              "password_reset" password_reset w Hc Ht eq_refl)
    as [_ [_ [_ [H _]]]].
  exact (proj2 (proj2 (H "alice@x.com" (Some "Alice") "uuid-2" Hin))).
Defined.

(** C5 as the specification words it fails when a file cannot be opened:
    with an address that holds a "/" the file would lie in a directory that
    does not exist, the call raises there, and the row fetched after it
    gets no document and keeps email_sent = 0. *)
Lemma generate_emails_stops_at_unwritable :
  let w := run sample_uuid sample_clock slash_session in
  let w' := snd (generate_emails sample_fs "uuid-0" "emails" w) in
  select_recipients "uuid-0" (db w)
  = [("alice@x.com", Some "Alice", "uuid-2");
     ("a/b@x.com", Some "Ab", "uuid-5");
     ("carol@x.com", Some "Carol", "uuid-8")] /\
  fst (generate_emails sample_fs "uuid-0" "emails" w)
  = Raises (FileNotFoundError
      "[Errno 2] No such file or directory: 'emails/a/b_x.com.txt'") /\
  map fst (written w') = ["emails/alice_x.com.txt"] /\
  map (fun r => (r_token r, r_email_sent r)) (results (db w'))
  = [("uuid-2", 1%Z); ("uuid-5", 0%Z); ("uuid-8", 0%Z)].
Proof. repeat split; vm_compute; reflexivity. Qed.

(** ** Clicks *)

(** C6.  [simulate_click] never raises.  With a token of no result row it
    prints the not-found line and the tables are as before.  With the token
    of a result row it sets link_clicked = 1 and clicked_at to the current
    clock reading on the rows with that token and changes nothing else; a
    second call returns as well, leaves link_clicked = 1 and moves
    clicked_at to the next clock reading. *)
Theorem simulate_click_spec (C : nat -> string) (token : string) (w : World) :
  let w1 := snd (simulate_click C token w) in
  let w2 := snd (simulate_click C token w1) in
  fst (simulate_click C token w) = Returns tt /\
  (mem token (map r_token (results (db w))) = false ->
   db w1 = db w /\
   stdout w1 = (stdout w ++ [("Токен не найден: " ++ token)%string])%list) /\
  (mem token (map r_token (results (db w))) = true ->
   stdout w1 = (stdout w ++ ["Клик зарегистрирован"])%list /\
   campaigns (db w1) = campaigns (db w) /\
   employees (db w1) = employees (db w) /\
   results (db w1)
   = map (fun r => if String.eqb (r_token r) token
                   then set_link_clicked (C (ticks w)) r else r)
         (results (db w)) /\
   (exists r, In r (results (db w1)) /\ r_token r = token) /\
   (forall r, In r (results (db w1)) -> r_token r = token ->
      r_link_clicked r = 1%Z /\ r_clicked_at r = Some (C (ticks w))) /\
   fst (simulate_click C token w1) = Returns tt /\
   stdout w2 = (stdout w1 ++ ["Клик зарегистрирован"])%list /\
   (forall r, In r (results (db w2)) -> r_token r = token ->
      r_link_clicked r = 1%Z /\ r_clicked_at r = Some (C (S (ticks w))))).
Proof.
  intros w1 w2. subst w2 w1. rewrite !simulate_click_run. simpl.
  split; [reflexivity|]. split.
  - intros Habs. pose proof (filter_key_absent r_token token _ Habs) as Hf.
    rewrite Hf. simpl. split; [|reflexivity].
    rewrite (map_if_absent _ _ _ Hf). apply database_eta.
  - intros Hpres.
    pose proof (filter_key_present r_token token _ Hpres) as Hf.
    assert (Hlen : forall at_,
      List.length (filter (fun r => String.eqb (r_token r) token)
        (map (fun r => if String.eqb (r_token r) token
                       then set_link_clicked at_ r else r)
             (results (db w)))) <> 0).
    { intros at_. revert Hf. generalize (results (db w)).
      induction l as [|r l IH]; simpl; [congruence|].
      destruct (String.eqb (r_token r) token) eqn:E; simpl.
      - rewrite E. simpl. lia.
      - rewrite E. exact IH. }
    destruct (filter _ (results (db w))) as [|r0 l0] eqn:Ef; [congruence|].
    simpl. repeat split.
    + assert (Hin : In r0 (filter (fun r => String.eqb (r_token r) token)
                                  (results (db w)))) by (rewrite Ef; now left).
      apply filter_In in Hin. destruct Hin as [Hin Ht].
      exists (set_link_clicked (C (ticks w)) r0). split.
      * apply in_map_iff. exists r0. now rewrite Ht.
      * simpl. now apply String.eqb_eq.
    + eapply clicked_rows; eassumption.
    + eapply clicked_rows; eassumption.
    + specialize (Hlen (C (ticks w))).
      destruct (List.length _) eqn:El; [congruence|]. reflexivity.
    + eapply clicked_rows; eassumption.
    + eapply clicked_rows; eassumption.
Qed.

Lemma simulate_click_spec_witness :
  let w := run sample_uuid sample_clock
             [CreateCampaign "Q1" "password_reset";
              AddEmployees sample_files "uuid-0" "employees.csv"] in
  mem "no-such-token" (map r_token (results (db w))) = false /\
  mem "uuid-2" (map r_token (results (db w))) = true /\
  db (snd (simulate_click sample_clock "no-such-token" w)) = db w /\
  (forall r,
     In r (results (db (snd (simulate_click sample_clock "uuid-2" w)))) ->
     r_token r = "uuid-2" ->
     r_link_clicked r = 1%Z /\
     r_clicked_at r = Some (sample_clock (ticks w))).
Proof.
  intros w.
  assert (Ha : mem "no-such-token" (map r_token (results (db w))) = false)
    by (vm_compute; reflexivity).
  assert (Hp : mem "uuid-2" (map r_token (results (db w))) = true)
    by (vm_compute; reflexivity).
  split; [exact Ha|]. split; [exact Hp|]. split.
  - destruct (simulate_click_spec sample_clock "no-such-token" w)
      as [_ [H _]].
    exact (proj1 (H Ha)).
  - destruct (simulate_click_spec sample_clock "uuid-2" w) as [_ [_ H]].
    destruct (H Hp) as [_ [_ [_ [_ [_ [Hflag _]]]]]]. exact Hflag.
Defined.

(** ** Statistics *)



(** C8.  In a session whose uuids are pairwise different, the breakdown of
    [get_stats] has exactly one entry per department value found among the
    employee rows of the campaign.  The entry's total is the number of those
    employee rows in the department; its clicked and reported are the sums
    of link_clicked and phishing_reported over the result rows that
    reference them. *)
Theorem department_breakdown (U C : nat -> string) (cs : list Call)
    (campaign_id : string) :
  let d := db (run U C cs) in
  fresh_uuids U (entropy (run U C cs)) = true ->
  let s := stats campaign_id d in
  NoDup (map department (department_stats s)) /\
  (forall dept,
     In dept (map department (department_stats s)) <->
     exists e, In e (employees d) /\ e_campaign_id e = campaign_id /\
               e_department e = dept) /\
  (forall ds,
     In ds (department_stats s) ->
     let es := employees_in campaign_id (department ds) d in
     total ds = Z.of_nat (List.length es) /\
     clicked ds
     = sum_Z (map r_link_clicked (flat_map (fun e => results_of e d) es)) /\
     reported ds
     = sum_Z (map r_phishing_reported
                  (flat_map (fun e => results_of e d) es))).
Proof.
  intros d Hfresh s. apply fresh_uuids_injective in Hfresh.
  pose proof (session_Inv U C cs Hfresh) as HI. fold d in HI.
  pose proof (inv_one_result _ _ _ HI) as Hone.
  unfold s. rewrite department_stats_stats.
  assert (Hdepts : forall (l : list (option string)),
    map department
      (map (fun dept =>
           let es := employees_in campaign_id dept d in
           mkDepartmentStats dept
             (Z.of_nat (List.length
                (flat_map (fun e => map (pair e) (results_of e d)) es)))
             (sum_Z (map r_link_clicked
                         (flat_map (fun e => results_of e d) es)))
             (sum_Z (map r_phishing_reported
                         (flat_map (fun e => results_of e d) es)))) l) = l).
  { intros l. rewrite map_map. simpl. apply map_id. }
  rewrite Hdepts. split.
  { eapply Permutation_NoDup; [apply sort_departments_Permutation|].
    apply NoDup_nodup. }
  split.
  - intros dept. rewrite sort_departments_In, joined_departments_In. split.
    + intros [e [r [Hin Hd]]]. apply join_In in Hin.
      destruct Hin as [He [_ [Hc _]]]. now exists e.
    + intros [e [He [Hc Hd]]]. destruct (Hone e He) as [r [Hr _]].
      exists e, r. split; [|exact Hd]. apply join_In.
      assert (Hin : In r (results_of e d)) by (rewrite Hr; now left).
      unfold results_of in Hin. apply filter_In in Hin.
      destruct Hin as [Hrin Hid]. apply String.eqb_eq in Hid.
      now repeat split.
  - intros ds Hds. apply in_map_iff in Hds. destruct Hds as [dept [<- _]].
    cbn [department total clicked reported]. repeat split.
    f_equal. apply length_pairs_one. intros e He.
    unfold employees_in in He. apply filter_In in He.
    destruct (Hone e (proj1 He)) as [r [Hr _]]. now rewrite Hr.
Qed.

Lemma department_breakdown_witness :
  let d := db (run sample_uuid sample_clock scenario_session) in
  let eng := mkDepartmentStats (Some "Eng") 2 1 1 in
  fresh_uuids sample_uuid
    (entropy (run sample_uuid sample_clock scenario_session)) = true /\
  In eng (department_stats (stats "uuid-0" d)) /\
  total eng = Z.of_nat (List.length (employees_in "uuid-0" (Some "Eng") d)).
Proof.
  intros d eng.
  assert (Hf : fresh_uuids sample_uuid
                 (entropy (run sample_uuid sample_clock scenario_session))
               = true) by (vm_compute; reflexivity).
  assert (Hin : In eng (department_stats (stats "uuid-0" d)))
    by (vm_compute; left; reflexivity).
  split; [exact Hf|]. split; [exact Hin|].
  destruct (department_breakdown sample_uuid sample_clock scenario_session
              "uuid-0" Hf) as [_ [_ H]].
  exact (proj1 (H eng Hin)).
Defined.

(** [round(x, 2)] on two ties and on a value just below a tie: 0.125 is a
    float and goes to the even 0.12; 0.375 goes to 0.38; the float next to
    2.675 lies below it and goes to 2.67. *)
Example py_round2_samples :
  py_round2 (PrimFloat.div (float_of_int 1) (float_of_int 8))
  = PrimFloat.div (float_of_int 12) (float_of_int 100) /\
  py_round2 (PrimFloat.div (float_of_int 3) (float_of_int 8))
  = PrimFloat.div (float_of_int 38) (float_of_int 100) /\
  py_round2 (PrimFloat.div (float_of_int 2675) (float_of_int 1000))
  = PrimFloat.div (float_of_int 267) (float_of_int 100).
Proof. repeat split; vm_compute; reflexivity. Qed.

(** The scenario of the specification, computed. *)
Example scenario_stats :
  stats "uuid-0" (db (run sample_uuid sample_clock scenario_session))
  = mkStatsReport 3 3 1 1
      (PyFloat (PrimFloat.div (float_of_int 3333) (float_of_int 100)))
      (PyFloat (PrimFloat.div (float_of_int 3333) (float_of_int 100)))
      [mkDepartmentStats (Some "Eng") 2 1 1;
       mkDepartmentStats (Some "Sales") 1 0 0].
Proof. vm_compute. reflexivity. Qed.

(* ===================================================================== *)
(** * Further properties of the methods *)

Lemma Forall2_map_if {A} (p : A -> bool) (g : A -> A) (l : list A) :
  Forall2 (fun a a' => (p a = true /\ a' = g a) \/ (p a = false /\ a' = a))
          l (map (fun a => if p a then g a else a) l).
Proof.
  induction l as [|a l IH]; simpl; constructor; [|exact IH].
  destruct (p a); [left | right]; now split.
Qed.

Lemma length_filter_zero {A} (p : A -> bool) (l : list A) :
  List.length (filter p l) = 0 <-> filter p l = [].
Proof. destruct (filter p l); simpl; split; congruence. Qed.

Lemma Forall2_impl_left {A B} (R R' : A -> B -> Prop) (l : list A)
    (l' : list B) :
  (forall a b, In a l -> R a b -> R' a b) ->
  Forall2 R l l' -> Forall2 R' l l'.
Proof.
  intros H HF. induction HF as [|a b l l' Hab HF IH]; constructor.
  - apply H; [now left | assumption].
  - apply IH. intros x y Hx. apply H. now right.
Qed.

Lemma report_phishing_effect (C : nat -> string) (email campaign_id : string)
    (w : World) :
  let hit := reported_row email campaign_id (db w) in
  let w1 := snd (report_phishing C email campaign_id w) in
  fst (report_phishing C email campaign_id w) = Returns tt /\
  campaigns (db w1) = campaigns (db w) /\
  employees (db w1) = employees (db w) /\
  Forall2 (fun r r' =>
             (hit r = true /\
              r' = set_phishing_reported (C (ticks w)) r) \/
             (hit r = false /\ r' = r))
          (results (db w)) (results (db w1)) /\
  (filter hit (results (db w)) = [] ->
   db w1 = db w /\
   stdout w1 = (stdout w ++ ["Сотрудник не найден в кампании"])%list) /\
  (filter hit (results (db w)) <> [] ->
   stdout w1 = (stdout w ++ ["Отчет зарегистрирован"])%list).
Proof.
  intros hit w1. unfold w1. rewrite report_phishing_run.
  cbn [fst snd db stdout]. unfold update_phishing_reported, update_results.
  cbn [fst snd campaigns employees results]. fold (reported_row email campaign_id (db w)).
  fold hit.
  split; [reflexivity|]. split; [reflexivity|]. split; [reflexivity|].
  split; [apply Forall2_map_if|]. split.
  - intros Hnone. rewrite Hnone. cbn [List.length Nat.eqb]. split; [|reflexivity].
    rewrite (map_if_absent _ _ _ Hnone). apply database_eta.
  - intros Hsome. destruct (filter hit (results (db w))); [congruence|].
    reflexivity.
Qed.



Lemma filter_ext_eq {A} (p q : A -> bool) (l : list A) :
  (forall a, p a = q a) -> filter p l = filter q l.
Proof. intros H. apply filter_ext. exact H. Qed.

(** With unique emails, the rows the UPDATE of [report_phishing] selects
    are the rows that reference the one employee found. *)
Lemma reported_row_employee (email campaign_id : string) (d : Database)
    (e : Employee) :
  NoDup (map e_email (employees d)) ->
  In e (employees d) -> e_email e = email -> e_campaign_id e = campaign_id ->
  forall r, reported_row email campaign_id d r
            = String.eqb (e_id e) (r_employee_id r).
Proof.
  intros Hn He Hem Hc r. unfold reported_row.
  destruct (String.eqb (e_id e) (r_employee_id r)) eqn:E.
  - apply mem_In. apply String.eqb_eq in E. rewrite <- E.
    apply in_map. apply filter_In. split; [assumption|].
    apply andb_true_iff. split; now apply String.eqb_eq.
  - apply mem_not_In. intros Hin. apply in_map_iff in Hin.
    destruct Hin as [x [Hx Hin]]. apply filter_In in Hin.
    destruct Hin as [Hxin Hp]. apply andb_true_iff in Hp.
    destruct Hp as [Hp1 _]. apply String.eqb_eq in Hp1.
    assert (x = e).
    { apply (NoDup_key_inj e_email (employees d)); try assumption.
      congruence. }
    subst x. apply String.eqb_neq in E. congruence.
Qed.

Lemma reported_row_nobody (email campaign_id : string) (d : Database) :
  (forall e, In e (employees d) -> e_email e = email ->
             e_campaign_id e <> campaign_id) ->
  forall r, reported_row email campaign_id d r = false.
Proof.
  intros Hnone r. unfold reported_row.
  rewrite (filter_none _ (employees d)); [reflexivity|].
  intros e He. apply andb_false_iff.
  destruct (String.eqb (e_email e) email) eqn:E1; [right | now left].
  apply String.eqb_eq in E1. apply String.eqb_neq. now apply Hnone.
Qed.

(** X2.  After any session with fresh uuids, reporting the address of an
    enrolled employee under that employee's campaign prints "Отчет
    зарегистрирован" and changes exactly one result row, the one that
    belongs to the employee; every other row is left as it was. *)
Theorem report_phishing_one_row (U C : nat -> string) (cs : list Call)
    (e : Employee) :
  let w := run U C cs in
  fresh_uuids U (entropy w) = true ->
  In e (employees (db w)) ->
  let w1 := snd (report_phishing C (e_email e) (e_campaign_id e) w) in
  stdout w1 = (stdout w ++ ["Отчет зарегистрирован"])%list /\
  exists r,
    In r (results (db w)) /\ r_employee_id r = e_id e /\
    r_campaign_id r = e_campaign_id e /\
    Forall2 (fun x x' =>
               (x = r /\ x' = set_phishing_reported (C (ticks w)) r) \/
               (x <> r /\ x' = x))
            (results (db w)) (results (db w1)).
Proof.
  intros w Hfresh He w1. apply fresh_uuids_injective in Hfresh.
  pose proof (session_Inv U C cs Hfresh) as HI. fold w in HI.
  destruct (inv_one_result _ _ _ HI e He) as [r [Hr Hrc]].
  pose proof (reported_row_employee (e_email e) (e_campaign_id e) (db w) e
                (inv_emails _ _ _ HI) He eq_refl eq_refl) as Hhit.
  assert (Hrin : In r (results_of e (db w))) by (rewrite Hr; now left).
  unfold results_of in Hrin. apply filter_In in Hrin.
  destruct Hrin as [Hrin Hrm]. apply String.eqb_eq in Hrm.
  destruct (report_phishing_effect C (e_email e) (e_campaign_id e) w)
    as [_ [_ [_ [Hall [_ Hmsg]]]]].
  fold w1 in Hall, Hmsg. split.
  - apply Hmsg.
    rewrite (filter_ext_eq _ (fun x => String.eqb (e_id e) (r_employee_id x))
               _ Hhit).
    fold (results_of e (db w)). rewrite Hr. discriminate.
  - exists r. split; [assumption|]. split; [now symmetry|].
    split; [assumption|].
    eapply Forall2_impl_left; [|exact Hall].
    intros x x' Hx [[Hh ->]|[Hh ->]].
    + left. rewrite Hhit in Hh.
      assert (Hxin : In x (results_of e (db w))).
      { unfold results_of. apply filter_In. now split. }
      rewrite Hr in Hxin. destruct Hxin as [<-|[]]. now split.
    + right. split; [|reflexivity]. intros ->.
      rewrite Hhit in Hh. apply String.eqb_neq in Hh. congruence.
Qed.

Lemma report_phishing_one_row_witness :
  let w := run sample_uuid sample_clock enrolled_session in
  fresh_uuids sample_uuid (entropy w) = true /\
  In sample_bob (employees (db w)) /\
  stdout (snd (report_phishing sample_clock "bob@x.com" "uuid-0" w))
  = (stdout w ++ ["Отчет зарегистрирован"])%list.
Proof.
  intros w.
  assert (Hf : fresh_uuids sample_uuid (entropy w) = true)
    by (vm_compute; reflexivity).
  assert (Hin : In sample_bob (employees (db w)))
    by (vm_compute; right; left; reflexivity).
  split; [exact Hf|]. split; [exact Hin|].
  exact (proj1 (report_phishing_one_row sample_uuid sample_clock
                  enrolled_session sample_bob Hf Hin)).
Defined.

Lemma enrolled_incl (id : string) (emp : Row) (campaign_id : string)
    (es : list Employee) (e : Employee) :
  In e es -> In e (enrolled id emp campaign_id es).
Proof.
  intros H. unfold enrolled. destruct (row_get "email" emp); [|assumption].
  destruct (mem s (map e_email es)); [assumption|].
  apply in_or_app. now left.
Qed.

Lemma enrolled_all_incl (U : nat -> string) (campaign_id : string)
    (rows : list Row) (e : Employee) :
  forall k es, In e es -> In e (enrolled_all U k campaign_id rows es).
Proof.
  induction rows as [|emp rows IH]; intros k es H; simpl; [assumption|].
  apply IH. now apply enrolled_incl.
Qed.

(** X3.  An employee enrolled in one campaign cannot be reported under
    another one, not even after a file naming the same address has been
    loaded for that other campaign: the email is UNIQUE over the whole
    table, so the second enrolment leaves the employee where it was (while
    still adding one result row per line), and [report_phishing] finds
    nobody, changes nothing and prints "Сотрудник не найден в кампании". *)
Theorem reenrolled_not_reportable (U C : nat -> string) (cs : list Call)
    (F : string -> option (list Row)) (campaign_id file : string)
    (rows : list Row) (e : Employee) :
  let w := run U C cs in
  F file = Some rows ->
  rows <> [] ->
  forallb has_required_fields rows = true ->
  fresh_uuids U (entropy w + 3 * List.length rows) = true ->
  In e (employees (db w)) ->
  e_campaign_id e <> campaign_id ->
  let w1 := snd (add_employees U F campaign_id file w) in
  let w2 := snd (report_phishing C (e_email e) campaign_id w1) in
  List.length (results (db w1))
  = List.length (results (db w)) + List.length rows /\
  db w2 = db w1 /\
  stdout w2 = (stdout w1 ++ ["Сотрудник не найден в кампании"])%list.
Proof.
  intros w HF Hne Hok Hfresh He Hother w1 w2.
  apply fresh_uuids_injective in Hfresh.
  assert (HI : Inv U (entropy w) (db w)).
  { apply session_Inv. eapply injective_upto_le; [|exact Hfresh].
    fold w. lia. }
  pose proof (read_employees_ok F file rows HF Hne Hok) as Hread.
  destruct (add_employees_run U F campaign_id file rows w Hread HI Hfresh)
    as [Hrun HI1].
  assert (Hw1 : db w1
    = mkDatabase (campaigns (db w))
        (enrolled_all U (entropy w) campaign_id rows (employees (db w)))
        (results (db w) ++ new_results U (entropy w) campaign_id rows)).
  { unfold w1. now rewrite Hrun. }
  split.
  - rewrite Hw1. cbn [results]. rewrite length_app, new_results_length.
    reflexivity.
  - assert (He1 : In e (employees (db w1))).
    { rewrite Hw1. cbn [employees]. now apply enrolled_all_incl. }
    assert (Hemails : NoDup (map e_email (employees (db w1)))).
    { rewrite Hw1. exact (inv_emails _ _ _ HI1). }
    assert (Hnone : forall r,
              reported_row (e_email e) campaign_id (db w1) r = false).
    { apply reported_row_nobody. intros x Hx Hem.
      assert (x = e)
        by (apply (NoDup_key_inj e_email (employees (db w1))); assumption).
      now subst x. }
    destruct (report_phishing_effect C (e_email e) campaign_id w1)
      as [_ [_ [_ [_ [Hnf _]]]]].
    apply Hnf. apply filter_none. intros r _. apply Hnone.
Qed.

Lemma reenrolled_not_reportable_witness :
  let rows := [sample_row "alice@x.com" "Alice" "Eng";
               sample_row "alice@x.com" "Alice" "Eng"] in
  let w := run sample_uuid sample_clock two_campaign_session in
  let w1 := snd (add_employees sample_uuid sample_files "uuid-10"
                               "twice.csv" w) in
  sample_files "twice.csv" = Some rows /\
  rows <> [] /\
  forallb has_required_fields rows = true /\
  fresh_uuids sample_uuid (entropy w + 3 * List.length rows) = true /\
  In sample_alice (employees (db w)) /\
  e_campaign_id sample_alice <> "uuid-10" /\
  db (snd (report_phishing sample_clock "alice@x.com" "uuid-10" w1)) = db w1.
Proof.
  intros rows w w1.
  assert (Hf : fresh_uuids sample_uuid (entropy w + 3 * List.length rows)
               = true) by (vm_compute; reflexivity).
  assert (Hin : In sample_alice (employees (db w)))
    by (vm_compute; left; reflexivity).
  assert (Hc : e_campaign_id sample_alice <> "uuid-10") by discriminate.
  split; [reflexivity|]. split; [discriminate|]. split; [reflexivity|].
  split; [exact Hf|]. split; [exact Hin|]. split; [exact Hc|].
  exact (proj1 (proj2
    (reenrolled_not_reportable sample_uuid sample_clock
       two_campaign_session sample_files "uuid-10" "twice.csv" rows
       sample_alice eq_refl ltac:(discriminate) eq_refl Hf Hin Hc))).
Defined.

(** ** Rows advance *)

Lemma flag_kept_refl (x : Z) : flag_kept x x.
Proof. now left. Qed.

Lemma flag_kept_trans (x y z : Z) :
  flag_kept x y -> flag_kept y z -> flag_kept x z.
Proof. unfold flag_kept. intros [-> | ->] [-> | ->]; auto. Qed.

Lemma advances_refl (r : Result) : advances r r.
Proof. repeat split; auto using flag_kept_refl. Qed.

Lemma advances_trans (a b c : Result) :
  advances a b -> advances b c -> advances a c.
Proof.
  intros [A1 [A2 [A3 [A4 [A5 [A6 [A7 [A8 A9]]]]]]]]
         [B1 [B2 [B3 [B4 [B5 [B6 [B7 [B8 B9]]]]]]]].
  repeat split; try congruence; eauto using flag_kept_trans.
Qed.

Lemma advances_email_sent (r : Result) : advances r (set_email_sent r).
Proof.
  repeat split; simpl; auto using flag_kept_refl. now right.
Qed.

Lemma advances_link_clicked (at_ : string) (r : Result) :
  advances r (set_link_clicked at_ r).
Proof.
  repeat split; simpl; auto using flag_kept_refl; try (now right).
  intros _. discriminate.
Qed.

Lemma advances_phishing_reported (at_ : string) (r : Result) :
  advances r (set_phishing_reported at_ r).
Proof.
  repeat split; simpl; auto using flag_kept_refl; try (now right).
  intros _. discriminate.
Qed.

Lemma Forall2_advances_refl (rs : list Result) : Forall2 advances rs rs.
Proof. induction rs; constructor; auto using advances_refl. Qed.

Lemma Forall2_advances_map (p : Result -> bool) (g : Result -> Result)
    (rs : list Result) :
  (forall r, advances r (g r)) ->
  Forall2 advances rs (map (fun r => if p r then g r else r) rs).
Proof.
  intros Hg. induction rs as [|r rs IH]; simpl; constructor; [|exact IH].
  destruct (p r); auto using advances_refl.
Qed.

Lemma Forall2_advances_trans (l1 l2 l3 : list Result) :
  Forall2 advances l1 l2 -> Forall2 advances l2 l3 -> Forall2 advances l1 l3.
Proof.
  intros H. revert l3. induction H as [|a b l1 l2 Hab H IH]; intros l3 H3.
  - inversion H3. constructor.
  - inversion H3 as [|b' c l2' l3' Hbc H3']; subst. constructor.
    + eapply advances_trans; eassumption.
    + now apply IH.
Qed.

(** ** One call *)

Lemma moves_refl (d : Database) : moves d d.
Proof.
  exists [], [], (results d), []. rewrite !app_nil_r.
  repeat split; auto using Forall2_advances_refl.
Qed.

Lemma moves_update (d : Database) (p : Result -> bool)
    (g : Result -> Result) :
  (forall r, advances r (g r)) ->
  moves d (mkDatabase (campaigns d) (employees d)
             (map (fun r => if p r then g r else r) (results d))).
Proof.
  intros Hg. exists [], [], (map (fun r => if p r then g r else r) (results d)), [].
  cbn [campaigns employees results]. rewrite !app_nil_r.
  repeat split; auto using Forall2_advances_map.
Qed.

Lemma Forall2_In_r {A B} (R : A -> B -> Prop) (l : list A) (l' : list B)
    (b : B) :
  Forall2 R l l' -> In b l' -> exists a, In a l /\ R a b.
Proof.
  intros H. induction H as [|x y l l' Hxy H IH]; intros Hin; [destruct Hin|].
  destruct Hin as [<-|Hin].
  - exists x. split; [now left | assumption].
  - destruct (IH Hin) as [a [Ha HR]]. exists a. split; [now right | assumption].
Qed.

Lemma moves_grows (d d' : Database) : moves d d' -> grows d d'.
Proof.
  intros [cs [es [rs [new [Hc [_ [He [Hr [Hadv _]]]]]]]]].
  split; [now exists cs|]. split; [now exists es|]. now exists rs, new.
Qed.

Lemma grows_refl (d : Database) : grows d d.
Proof. apply moves_grows, moves_refl. Qed.

Lemma grows_trans (d1 d2 d3 : Database) :
  grows d1 d2 -> grows d2 d3 -> grows d1 d3.
Proof.
  intros [[cs Hc] [[es He] [rs [new [Hr Hadv]]]]]
         [[cs' Hc'] [[es' He'] [rs' [new' [Hr' Hadv']]]]].
  rewrite Hr in Hadv'. apply Forall2_app_inv_l in Hadv'.
  destruct Hadv' as [ra [rb [Ha [Hb ->]]]].
  split; [exists (cs ++ cs')%list; now rewrite Hc', Hc, app_assoc|].
  split; [exists (es ++ es')%list; now rewrite He', He, app_assoc|].
  exists ra, (rb ++ new')%list. split; [now rewrite Hr', app_assoc|].
  eapply Forall2_advances_trans; eassumption.
Qed.

Lemma moves_flags_ok (d d' : Database) :
  moves d d' -> flags_ok d -> flags_ok d'.
Proof.
  intros [cs [es [rs [new [_ [_ [_ [Hr [Hadv Hnew]]]]]]]]] Hok r Hin.
  rewrite Hr in Hin. apply in_app_or in Hin. destruct Hin as [Hin|Hin].
  - destruct (Forall2_In_r _ _ _ _ Hadv Hin) as [r0 [Hr0 Hadv0]].
    destruct (Hok r0 Hr0) as [O1 [O2 O3]].
    destruct Hadv0 as [_ [_ [_ [_ [F1 [F2 [F3 _]]]]]]].
    unfold flag_kept in *. repeat split.
    + destruct F1 as [-> | ->]; auto.
    + destruct F2 as [-> | ->]; auto.
    + destruct F3 as [-> | ->]; auto.
  - rewrite Forall_forall in Hnew.
    destruct (Hnew r Hin) as [-> [-> [-> _]]]. repeat split; now left.
Qed.

Lemma moves_catalog_ok (d d' : Database) :
  moves d d' -> catalog_ok d -> catalog_ok d'.
Proof.
  intros [cs [es [rs [new [Hc [Hcat _]]]]]] Hok c Hin.
  rewrite Hc in Hin. apply in_app_or in Hin. destruct Hin as [Hin|Hin].
  - now apply Hok.
  - rewrite Forall_forall in Hcat. now apply Hcat.
Qed.

(** The enrolment loop only appends, also when it ends by raising. *)
Lemma enroll_loop_moves (U : nat -> string) (campaign_id : string)
    (rows : list Row) :
  forall w,
    exists es new,
      campaigns (db (snd (for_each rows (enroll U campaign_id) w)))
      = campaigns (db w) /\
      employees (db (snd (for_each rows (enroll U campaign_id) w)))
      = (employees (db w) ++ es)%list /\
      results (db (snd (for_each rows (enroll U campaign_id) w)))
      = (results (db w) ++ new)%list /\
      Forall untouched new.
Proof.
  induction rows as [|emp rows IH]; intros w.
  - exists [], []. simpl. rewrite !app_nil_r. repeat split. constructor.
  - cbn [for_each]. unfold bind at 1 2 3. rewrite enroll_run.
    set (d1 := insert_or_ignore_employee _ _ _ _ _ _).
    assert (Hd1 : campaigns d1 = campaigns (db w) /\
                  results d1 = results (db w) /\
                  exists es1, employees d1 = (employees (db w) ++ es1)%list).
    { unfold d1, insert_or_ignore_employee.
      destruct (row_get "email" emp) as [em|].
      - destruct (_ || _); cbn [campaigns employees results].
        + repeat split. exists []. now rewrite app_nil_r.
        + repeat split. now eexists.
      - repeat split. exists []. now rewrite app_nil_r. }
    destruct Hd1 as [Hc1 [Hr1 [es1 He1]]].
    unfold insert_result.
    destruct (mem _ (map r_token (results d1))).
    { cbn [snd db]. exists es1, []. rewrite app_nil_r.
      repeat split; try assumption. constructor. }
    destruct (mem _ (map r_id (results d1))).
    { cbn [snd db]. exists es1, []. rewrite app_nil_r.
      repeat split; try assumption. constructor. }
    match goal with
    | |- context [for_each rows _ ?w1] =>
        destruct (IH w1) as [es [new [Hc [He [Hr Hnew]]]]]
    end.
    cbn [db campaigns employees results] in Hc, He, Hr.
    eexists (es1 ++ es)%list, (_ :: new).
    rewrite Hc, He, Hr, Hc1, He1, Hr1, <- !app_assoc. cbn [app].
    repeat split. constructor; [|assumption]. repeat split.
Qed.

Lemma call_moves (U C : nat -> string) (c : Call) (w : World) :
  moves (db w) (db (call U C c w)).
Proof.
  destruct c as [name template | F cid file | fs cid out | token
                | email cid | cid]; simpl.
  - unfold create_campaign.
    destruct (in_templates templates template) eqn:Hin; simpl;
      [|apply moves_refl].
    unfold bind, except_sqlite3, with_connection, uuid4, now_isoformat,
      execute, print, ret, raise, set_db, insert_campaign. simpl.
    destruct (mem _ (map c_id (campaigns (db w)))); simpl;
      [apply moves_refl|].
    eexists [_], [], (results (db w)), []. cbn [campaigns employees results].
    rewrite !app_nil_r. repeat split; auto using Forall2_advances_refl.
  - unfold add_employees.
    destruct (read_employees F file) as [rows|e]; [|apply moves_refl].
    destruct (enroll_loop_moves U cid rows w)
      as [es [new [Hc [He [Hr Hnew]]]]].
    unfold except_sqlite3, with_connection, bind.
    destruct (for_each rows (enroll U cid) w) as [[[]|e] w1]; simpl in *.
    + exists [], es, (results (db w)), new. rewrite app_nil_r.
      repeat split; auto using Forall2_advances_refl.
    + destruct e; simpl; apply moves_refl.
  - destruct (generate_emails_world fs cid out w)
      as [tokens [files [lines [_ ->]]]]. simpl.
    apply moves_update. apply advances_email_sent.
  - rewrite simulate_click_run. simpl. apply moves_update.
    apply advances_link_clicked.
  - rewrite report_phishing_run. simpl.
    apply (moves_update (db w)
             (fun r => mem (r_employee_id r)
                (map e_id
                   (filter (fun e => String.eqb (e_email e) email &&
                                     String.eqb (e_campaign_id e) cid)
                           (employees (db w)))))).
    apply advances_phishing_reported.
  - rewrite get_stats_world. apply moves_refl.
Qed.

Lemma run_from_snoc (U C : nat -> string) (w : World) (cs : list Call)
    (c : Call) :
  run_from U C w (cs ++ [c]) = call U C c (run_from U C w cs).
Proof. unfold run_from. now rewrite fold_left_app. Qed.

Lemma run_run_from (U C : nat -> string) (cs : list Call) :
  run U C cs = run_from U C initial_world cs.
Proof. reflexivity. Qed.

Lemma session_flags_ok (U C : nat -> string) (cs : list Call) :
  flags_ok (db (run U C cs)).
Proof.
  induction cs as [|c cs IH] using rev_ind.
  - intros r [].
  - rewrite run_snoc. eapply moves_flags_ok; [apply call_moves | exact IH].
Qed.

Lemma session_catalog_ok (U C : nat -> string) (cs : list Call) :
  catalog_ok (db (run U C cs)).
Proof.
  induction cs as [|c cs IH] using rev_ind.
  - intros r [].
  - rewrite run_snoc. eapply moves_catalog_ok; [apply call_moves | exact IH].
Qed.

(** X4.  No method deletes or rewinds anything.  From any world and over
    any sequence of calls, the campaign and employee rows that were there
    are still there, unchanged and in the same place; every result row is
    still in its place with the same id, employee, campaign and token, each
    flag unchanged or set to 1, and no timestamp erased; new rows are only
    appended. *)
Theorem nothing_is_taken_back (U C : nat -> string) (w : World)
    (cs : list Call) :
  grows (db w) (db (run_from U C w cs)).
Proof.
  induction cs as [|c cs IH] using rev_ind.
  - apply grows_refl.
  - rewrite run_from_snoc. eapply grows_trans; [exact IH|].
    apply moves_grows, call_moves.
Qed.

Lemma sum_flags_bounds {A} (f : A -> Z) (l : list A) :
  (forall a, In a l -> f a = 0%Z \/ f a = 1%Z) ->
  (0 <= sum_Z (map f l) <= Z.of_nat (List.length l))%Z.
Proof.
  induction l as [|a l IH]; intros H; [simpl; lia|].
  cbn [map sum_Z fold_right List.length].
  fold (sum_Z (map f l)).
  specialize (IH (fun b Hb => H b (or_intror Hb))).
  destruct (H a (or_introl eq_refl)) as [-> | ->]; lia.
Qed.

Lemma stats_counters (campaign_id : string) (d : Database) :
  let rs := filter (fun r => String.eqb (r_campaign_id r) campaign_id)
                   (results d) in
  emails_sent (stats campaign_id d) = sum_Z (map r_email_sent rs) /\
  links_clicked (stats campaign_id d) = sum_Z (map r_link_clicked rs) /\
  phishing_reported (stats campaign_id d)
  = sum_Z (map r_phishing_reported rs).
Proof.
  intros rs. unfold stats, stats_of, select_totals. fold rs.
  cbn [emails_sent links_clicked phishing_reported].
  rewrite !or_zero_sql_sum. repeat split.
Qed.

(** X5.  In the report of [get_stats] after any session, emails_sent,
    links_clicked and phishing_reported lie between 0 and total_employees,
    and in every department row clicked and reported lie between 0 and
    that row's total. *)
Theorem counters_within_total (U C : nat -> string) (cs : list Call)
    (campaign_id : string) :
  let s := stats campaign_id (db (run U C cs)) in
  (0 <= emails_sent s <= total_employees s)%Z /\
  (0 <= links_clicked s <= total_employees s)%Z /\
  (0 <= phishing_reported s <= total_employees s)%Z /\
  Forall (fun ds => (0 <= clicked ds <= total ds)%Z /\
                    (0 <= reported ds <= total ds)%Z)
         (department_stats s).
Proof.
  intros s. pose proof (session_flags_ok U C cs) as Hok.
  set (d := db (run U C cs)) in *.
  assert (Hin : forall r,
            In r (filter (fun r => String.eqb (r_campaign_id r) campaign_id)
                         (results d)) ->
            (r_email_sent r = 0%Z \/ r_email_sent r = 1%Z) /\
            (r_link_clicked r = 0%Z \/ r_link_clicked r = 1%Z) /\
            (r_phishing_reported r = 0%Z \/ r_phishing_reported r = 1%Z)).
  { intros r Hr. apply filter_In in Hr. apply Hok. tauto. }
  unfold s. rewrite total_employees_stats.
  destruct (stats_counters campaign_id d) as [-> [-> ->]].
  split; [apply sum_flags_bounds; intros r Hr; apply (Hin r Hr)|].
  split; [apply sum_flags_bounds; intros r Hr; apply (Hin r Hr)|].
  split; [apply sum_flags_bounds; intros r Hr; apply (Hin r Hr)|].
  rewrite department_stats_stats. apply Forall_forall. intros ds Hds.
  apply in_map_iff in Hds. destruct Hds as [dept [<- _]].
  cbn [clicked reported total].
  rewrite <- (map_snd_pairs r_link_clicked),
          <- (map_snd_pairs r_phishing_reported).
  assert (Hg : forall er,
            In er (flat_map (fun e => map (pair e) (results_of e d))
                            (employees_in campaign_id dept d)) ->
            In (snd er) (results d)).
  { intros [e r] Her. apply in_flat_map in Her.
    destruct Her as [e0 [_ Her]]. apply in_map_iff in Her.
    destruct Her as [r0 [Heq Hr0]]. injection Heq as _ <-.
    unfold results_of in Hr0. apply filter_In in Hr0. tauto. }
  split.
  - apply (sum_flags_bounds (fun ab : Employee * Result => r_link_clicked (snd ab))).
    intros er Her. apply (Hok (snd er) (Hg er Her)).
  - apply (sum_flags_bounds (fun ab : Employee * Result => r_phishing_reported (snd ab))).
    intros er Her. apply (Hok (snd er) (Hg er Her)).
Qed.

(** ** Rendering skips result rows that match no employee *)

Lemma sum_flags_strict {A} (f : A -> Z) (l : list A) (a : A) :
  (forall b, In b l -> f b = 0%Z \/ f b = 1%Z) ->
  In a l -> f a = 0%Z ->
  (sum_Z (map f l) < Z.of_nat (List.length l))%Z.
Proof.
  induction l as [|b l IH]; intros H Hin Ha; [destruct Hin|].
  cbn [map sum_Z fold_right List.length]. fold (sum_Z (map f l)).
  pose proof (sum_flags_bounds f l (fun c Hc => H c (or_intror Hc))) as Hb.
  destruct Hin as [->|Hin].
  - rewrite Ha. lia.
  - specialize (IH (fun c Hc => H c (or_intror Hc)) Hin Ha).
    destruct (H b (or_introl eq_refl)) as [-> | ->]; lia.
Qed.

(** What [generate_emails] does in every case: it renders the first fetched
    rows, all of them when it returns. *)
Lemma generate_emails_rendering (fs : FileSystem) (campaign_id out : string)
    (w : World) :
  let rs := select_recipients campaign_id (db w) in
  let w' := snd (generate_emails fs campaign_id out w) in
  exists done rest,
    rs = (done ++ rest)%list /\
    (forall name tname t,
       select_campaign campaign_id (db w) = Some (name, tname) ->
       templates_get templates tname = Some t ->
       written w'
       = (written w ++ map (recipient_file t name out) done)%list) /\
    (select_campaign campaign_id (db w) = None -> written w' = written w) /\
    results (db w') = mark_sent (map recipient_token done) (results (db w)) /\
    (fst (generate_emails fs campaign_id out w) = Returns tt -> rest = []).
Proof.
  intros rs w'. unfold w'.
  assert (Hnone : forall e,
            generate_emails fs campaign_id out w = (Raises e, w) ->
            exists done rest,
              rs = (done ++ rest)%list /\
              (forall name tname t,
                 select_campaign campaign_id (db w) = Some (name, tname) ->
                 templates_get templates tname = Some t ->
                 written (snd (generate_emails fs campaign_id out w))
                 = (written w ++ map (recipient_file t name out) done)%list)
              /\
              (select_campaign campaign_id (db w) = None ->
               written (snd (generate_emails fs campaign_id out w))
               = written w) /\
              results (db (snd (generate_emails fs campaign_id out w)))
              = mark_sent (map recipient_token done) (results (db w)) /\
              (fst (generate_emails fs campaign_id out w) = Returns tt ->
               rest = [])).
  { intros e ->. exists [], rs. cbn [fst snd map app].
    rewrite mark_sent_nil. repeat split.
    - intros. now rewrite app_nil_r.
    - discriminate. }
  destruct (select_campaign campaign_id (db w)) as [[name tname]|] eqn:Hc.
  - destruct (templates_get templates tname) as [t|] eqn:Ht.
    + destruct (fs_makedirs fs out) as [e|] eqn:Hdir.
      * apply (Hnone e). now apply (generate_emails_no_directory fs _ _ name
                                      tname t).
      * rewrite (generate_emails_run fs _ _ _ _ t w Hc Ht Hdir). fold rs.
        cbn [fst snd written db results].
        destruct (rendered_prefix fs out rs) as [rest Hrest].
        exists (rendered fs out rs), rest.
        split; [exact Hrest|]. split; [|split; [|split]].
        -- intros name' tname' t' Hc' Ht'. injection Hc' as <- <-.
           rewrite Ht in Ht'. injection Ht' as <-. reflexivity.
        -- discriminate.
        -- reflexivity.
        -- destruct (refusal fs out rs) eqn:Hr; cbn [outcome_of];
             [discriminate|].
           intros _. destruct (refusal_none fs out rs Hr) as [Hd _].
           rewrite Hd in Hrest. apply (f_equal (@List.length _)) in Hrest.
           rewrite length_app in Hrest. destruct rest; [reflexivity|].
           simpl in Hrest. lia.
    + apply (Hnone (ValueError ("Шаблон не найден: " ++ tname))).
      now apply (generate_emails_no_template fs _ _ name).
  - apply (Hnone (ValueError "Кампания не найдена")).
    now apply generate_emails_no_campaign.
Qed.

(** C10.  In a session whose uuids are pairwise different,
    [generate_emails] fetches the pairs of an employee row of the campaign
    and a result row that references it, renders fetched rows only, in
    their order (all of them when it returns), and changes nothing else.
    A result row that no employee row of the campaign matches has its token
    among no fetched row and is in the table afterwards exactly as before;
    when it is a row of the campaign with email_sent = 0, the emails_sent
    of [get_stats] after the rendering is below total_employees.  Enrolling
    an address that is already the email of an employee row produces such a
    result row. *)
Theorem generate_emails_skips_unmatched (U C : nat -> string)
    (cs : list Call) (fs : FileSystem) (campaign_id out : string) :
  let w := run U C cs in
  fresh_uuids U (entropy w) = true ->
  let rs := select_recipients campaign_id (db w) in
  let w' := snd (generate_emails fs campaign_id out w) in
  (forall x,
     In x rs <->
     exists e r, In e (employees (db w)) /\ In r (results (db w)) /\
                 e_campaign_id e = campaign_id /\
                 e_id e = r_employee_id r /\
                 x = (e_email e, e_name e, r_token r)) /\
  (exists done rest,
     rs = (done ++ rest)%list /\
     (forall name tname t,
        select_campaign campaign_id (db w) = Some (name, tname) ->
        templates_get templates tname = Some t ->
        written w'
        = (written w ++ map (recipient_file t name out) done)%list) /\
     (select_campaign campaign_id (db w) = None -> written w' = written w) /\
     results (db w') = mark_sent (map recipient_token done) (results (db w)) /\
     (fst (generate_emails fs campaign_id out w) = Returns tt ->
      rest = [])) /\
  (forall r,
     In r (results (db w)) ->
     (forall e, In e (employees (db w)) ->
                e_campaign_id e = campaign_id ->
                e_id e <> r_employee_id r) ->
     ~ In (r_token r) (map recipient_token rs) /\
     In r (results (db w')) /\
     (r_campaign_id r = campaign_id -> r_email_sent r = 0%Z ->
      (emails_sent (stats campaign_id (db w'))
       < total_employees (stats campaign_id (db w')))%Z)) /\
  (forall emp em,
     row_get "email" emp = Some em ->
     In em (map e_email (employees (db w))) ->
     fresh_uuids U (S (S (S (entropy w)))) = true ->
     let w1 := snd (enroll U campaign_id emp w) in
     fst (enroll U campaign_id emp w) = Returns tt /\
     employees (db w1) = employees (db w) /\
     exists r,
       results (db w1) = (results (db w) ++ [r])%list /\
       r_campaign_id r = campaign_id /\ r_email_sent r = 0%Z /\
       forall e, In e (employees (db w1)) -> e_id e <> r_employee_id r).
Proof.
  intros w Hfresh rs w'. apply fresh_uuids_injective in Hfresh.
  pose proof (session_Inv U C cs Hfresh) as HI. fold w in HI.
  split; [apply select_recipients_In|].
  split; [apply generate_emails_rendering|]. split.
  - intros r Hr Hnone.
    assert (Hno : ~ In (r_token r) (map recipient_token rs)).
    { intros Hin. apply in_map_iff in Hin. destruct Hin as [x [Hx Hin]].
      apply select_recipients_In in Hin.
      destruct Hin as [e [r' [He [Hr' [Hc' [Hm ->]]]]]].
      cbn [recipient_token snd] in Hx.
      assert (r' = r).
      { apply (NoDup_key_inj r_token (results (db w))); try assumption.
        exact (inv_tokens _ _ _ HI). }
      subst r'. exact (Hnone e He Hc' Hm). }
    assert (Hkept : In r (results (db w'))).
    { destruct (generate_emails_world fs campaign_id out w)
        as [tokens [files [lines [Hincl Hw']]]].
      unfold w'. rewrite Hw'. cbn [db results].
      apply mark_sent_other; [assumption|].
      intros Hin. apply Hno. now apply Hincl. }
    split; [exact Hno|]. split; [exact Hkept|].
    intros Hrc Hzero.
    pose proof (session_flags_ok U C (cs ++ [GenerateEmails fs campaign_id
                                                           out])) as Hok.
    rewrite run_snoc in Hok. cbn [call] in Hok. fold w in Hok. fold w' in Hok.
    rewrite total_employees_stats.
    destruct (stats_counters campaign_id (db w')) as [-> _].
    apply (sum_flags_strict r_email_sent _ r).
    + intros b Hb. apply filter_In in Hb. apply (Hok b). tauto.
    + apply filter_In. split; [exact Hkept | now apply String.eqb_eq].
    + exact Hzero.
  - intros emp em Hem Hin Hfresh3 w1.
    apply fresh_uuids_injective in Hfresh3.
    destruct (enroll_fresh U campaign_id emp w HI Hfresh3) as [Hrun _].
    unfold w1. rewrite Hrun. cbn [fst snd db employees results].
    assert (Hsame : enrolled (U (entropy w)) emp campaign_id
                      (employees (db w)) = employees (db w)).
    { unfold enrolled. rewrite Hem. apply mem_In in Hin. now rewrite Hin. }
    rewrite Hsame. split; [reflexivity|]. split; [reflexivity|].
    eexists. split; [reflexivity|]. cbn. split; [reflexivity|].
    split; [reflexivity|].
    intros e He. apply (drawn_fresh U (entropy w) (S (S (S (entropy w))))).
    + assumption.
    + exact (inv_drawn_e _ _ _ HI e He).
    + lia.
    + lia.
Qed.

Lemma generate_emails_skips_unmatched_witness :
  let w := run sample_uuid sample_clock
             [CreateCampaign "Q1" "password_reset";
              AddEmployees sample_files "uuid-0" "twice.csv"] in
  let w' := snd (generate_emails sample_fs "uuid-0" "emails" w) in
  let r := mkResult "uuid-6" "uuid-4" "uuid-0" 0 0 0 None None "uuid-5" in
  fresh_uuids sample_uuid (entropy w) = true /\
  In r (results (db w)) /\
  (forall e, In e (employees (db w)) -> e_campaign_id e = "uuid-0" ->
             e_id e <> r_employee_id r) /\
  fst (generate_emails sample_fs "uuid-0" "emails" w) = Returns tt /\
  In r (results (db w')) /\
  (emails_sent (stats "uuid-0" (db w'))
   < total_employees (stats "uuid-0" (db w')))%Z.
Proof.
  intros w w' r.
  assert (Hf : fresh_uuids sample_uuid (entropy w) = true)
    by (vm_compute; reflexivity).
  assert (Hr : In r (results (db w)))
    by (vm_compute; right; left; reflexivity).
  assert (Hnone : forall e, In e (employees (db w)) ->
                            e_campaign_id e = "uuid-0" ->
                            e_id e <> r_employee_id r).
  { intros e He _ Heq. vm_compute in He. destruct He as [<-|[]].
    discriminate Heq. }
  split; [exact Hf|]. split; [exact Hr|]. split; [exact Hnone|].
  split; [vm_compute; reflexivity|].
  destruct (generate_emails_skips_unmatched sample_uuid sample_clock
              [CreateCampaign "Q1" "password_reset";
               AddEmployees sample_files "uuid-0" "twice.csv"]
              sample_fs "uuid-0" "emails" Hf)
    as [_ [_ [Hskip _]]].
  destruct (Hskip r Hr Hnone) as [_ [Hin Hless]].
  split; [exact Hin|]. exact (Hless eq_refl eq_refl).
Defined.



Lemma in_templates_get (key : string) :
  in_templates templates key = true ->
  exists t, templates_get templates key = Some t.
Proof.
  unfold in_templates, templates, _load_templates, mem.
  cbn [map fst existsb templates_get]. rewrite !(String.eqb_sym key).
  destruct (String.eqb "password_reset" key); [now eexists|].
  destruct (String.eqb "software_update" key); [now eexists|].
  destruct (String.eqb "ceo_request" key); [now eexists | discriminate].
Qed.

Lemma select_campaign_found (campaign_id : string) (d : Database) :
  mem campaign_id (map c_id (campaigns d)) = true ->
  exists c, In c (campaigns d) /\ c_id c = campaign_id /\
            select_campaign campaign_id d = Some (c_name c, c_template c).
Proof.
  intros H. unfold select_campaign.
  pose proof (filter_key_present c_id campaign_id _ H) as Hne.
  destruct (filter _ (campaigns d)) as [|c l] eqn:E; [congruence|].
  assert (Hin : In c (filter (fun c => String.eqb (c_id c) campaign_id)
                             (campaigns d))) by (rewrite E; now left).
  apply filter_In in Hin. destruct Hin as [Hin Hid].
  apply String.eqb_eq in Hid. now exists c.
Qed.

Lemma select_campaign_absent (campaign_id : string) (d : Database) :
  mem campaign_id (map c_id (campaigns d)) = false ->
  select_campaign campaign_id d = None.
Proof.
  intros H. unfold select_campaign.
  now rewrite (filter_key_absent c_id campaign_id _ H).
Qed.

(** X7.  After any session, for a campaign_id that is in the campaigns
    table the template is always one of the catalog, so [generate_emails]
    returns whenever the output directory can be created and the file of
    every fetched row can be opened, and the only exceptions it can raise
    are those of the file system; for every other id it raises
    ValueError("Кампания не найдена") without changing anything. *)
Theorem generate_emails_in_session (U C : nat -> string) (cs : list Call)
    (fs : FileSystem) (campaign_id out : string) :
  let w := run U C cs in
  let rs := select_recipients campaign_id (db w) in
  (mem campaign_id (map c_id (campaigns (db w))) = true ->
   fs_makedirs fs out = None -> all_open fs out rs ->
   fst (generate_emails fs campaign_id out w) = Returns tt) /\
  (mem campaign_id (map c_id (campaigns (db w))) = true ->
   forall e,
     fst (generate_emails fs campaign_id out w) = Raises e ->
     fs_makedirs fs out = Some e \/
     exists x, In x rs /\
               fs_open fs (email_filename out (fst (fst x))) = Some e) /\
  (mem campaign_id (map c_id (campaigns (db w))) = false ->
   generate_emails fs campaign_id out w
   = (Raises (ValueError "Кампания не найдена"), w)).
Proof.
  intros w rs.
  assert (Hfound : mem campaign_id (map c_id (campaigns (db w))) = true ->
            exists name tname t,
              select_campaign campaign_id (db w) = Some (name, tname) /\
              templates_get templates tname = Some t).
  { intros Hmem.
    destruct (select_campaign_found campaign_id (db w) Hmem)
      as [c [Hin [_ Hsel]]].
    destruct (session_catalog_ok U C cs c Hin) as [Hcat _].
    destruct (in_templates_get _ Hcat) as [t Ht].
    exists (c_name c), (c_template c), t. now split. }
  split; [|split].
  - intros Hmem Hdir Hall.
    destruct (Hfound Hmem) as [name [tname [t [Hsel Ht]]]].
    now rewrite (generate_emails_returns fs campaign_id out _ _ t w Hsel Ht
                   Hdir Hall).
  - intros Hmem e.
    destruct (Hfound Hmem) as [name [tname [t [Hsel Ht]]]].
    destruct (fs_makedirs fs out) as [e0|] eqn:Hdir.
    + rewrite (generate_emails_no_directory fs campaign_id out _ _ t w e0
                 Hsel Ht Hdir).
      cbn [fst]. intros H. injection H as ->. now left.
    + rewrite (generate_emails_run fs campaign_id out _ _ t w Hsel Ht Hdir).
      cbn [fst]. fold rs. destruct (refusal fs out rs) as [e0|] eqn:Hr;
        cbn [outcome_of]; [|discriminate].
      intros H. injection H as ->. right.
      destruct (refusal_some fs out rs e Hr) as [x [rest [Hrs Hx]]].
      exists x. split; [|exact Hx]. rewrite Hrs. apply in_or_app.
      right. now left.
  - intros Hmem. apply generate_emails_no_campaign.
    now apply select_campaign_absent.
Qed.

Lemma generate_emails_in_session_witness :
  let w := run sample_uuid sample_clock enrolled_session in
  mem "uuid-0" (map c_id (campaigns (db w))) = true /\
  mem "no-such-campaign" (map c_id (campaigns (db w))) = false /\
  fs_makedirs sample_fs "emails" = None /\
  all_open sample_fs "emails" (select_recipients "uuid-0" (db w)) /\
  fst (generate_emails sample_fs "uuid-0" "emails" w) = Returns tt /\
  generate_emails sample_fs "no-such-campaign" "emails" w
  = (Raises (ValueError "Кампания не найдена"), w).
Proof.
  intros w.
  assert (Hy : mem "uuid-0" (map c_id (campaigns (db w))) = true)
    by (vm_compute; reflexivity).
  assert (Hn : mem "no-such-campaign" (map c_id (campaigns (db w))) = false)
    by (vm_compute; reflexivity).
  assert (Hall : all_open sample_fs "emails"
                          (select_recipients "uuid-0" (db w))).
  { intros x Hx. vm_compute in Hx.
    destruct Hx as [<-|[<-|[<-|[]]]]; reflexivity. }
  split; [exact Hy|]. split; [exact Hn|]. split; [reflexivity|].
  split; [exact Hall|]. split.
  - exact (proj1 (generate_emails_in_session sample_uuid sample_clock
                    enrolled_session sample_fs "uuid-0" "emails")
                 Hy eq_refl Hall).
  - exact (proj2 (proj2 (generate_emails_in_session sample_uuid sample_clock
                    enrolled_session sample_fs "no-such-campaign" "emails"))
                 Hn).
Defined.

(** ** Rendering twice *)

Lemma mark_sent_keeps_keys (tokens : list string) :
  keeps_keys (fun r => if mem (r_token r) tokens then set_email_sent r else r).
Proof. apply keeps_keys_when, keeps_keys_email_sent. Qed.

Lemma join_update (campaign_id : string) (d : Database)
    (g : Result -> Result) :
  keeps_keys g ->
  join_employees_results campaign_id
    (mkDatabase (campaigns d) (employees d) (map g (results d)))
  = map (fun er => (fst er, g (snd er)))
        (join_employees_results campaign_id d).
Proof.
  intros Hg. unfold join_employees_results, employees_of_result.
  cbn [employees results].
  induction (results d) as [|r l IH]; [reflexivity|].
  cbn [map flat_map]. rewrite map_app, IH. f_equal.
  destruct (Hg r) as [_ [-> _]]. now rewrite map_map.
Qed.

Lemma select_recipients_update (campaign_id : string) (d : Database)
    (g : Result -> Result) :
  keeps_keys g ->
  select_recipients campaign_id
    (mkDatabase (campaigns d) (employees d) (map g (results d)))
  = select_recipients campaign_id d.
Proof.
  intros Hg. unfold select_recipients. rewrite (join_update _ _ _ Hg).
  rewrite map_map. apply map_ext. intros [e r]. cbn [fst snd].
  destruct (Hg r) as [_ [_ [_ ->]]]. reflexivity.
Qed.

Lemma mark_sent_idem (tokens : list string) (rs : list Result) :
  mark_sent tokens (mark_sent tokens rs) = mark_sent tokens rs.
Proof.
  unfold mark_sent. rewrite map_map. apply map_ext. intros r.
  destruct (mem (r_token r) tokens) eqn:E; [|now rewrite E].
  cbn [set_email_sent r_token]. now rewrite E.
Qed.

(** X8.  Rendering a campaign a second time, on the file system that let
    the first rendering write every file, returns, leaves the tables as the
    first rendering left them, and writes the same files again, one per
    fetched row, with the same names and contents. *)
Theorem generate_emails_twice (fs : FileSystem)
    (campaign_id out name tname : string) (t : EmailTemplate) (w : World) :
  select_campaign campaign_id (db w) = Some (name, tname) ->
  templates_get templates tname = Some t ->
  fs_makedirs fs out = None ->
  all_open fs out (select_recipients campaign_id (db w)) ->
  let w1 := snd (generate_emails fs campaign_id out w) in
  let w2 := snd (generate_emails fs campaign_id out w1) in
  fst (generate_emails fs campaign_id out w) = Returns tt /\
  fst (generate_emails fs campaign_id out w1) = Returns tt /\
  db w2 = db w1 /\
  written w2
  = (written w1 ++
     map (recipient_file t name out)
         (select_recipients campaign_id (db w)))%list.
Proof.
  intros Hc Ht Hdir Hall w1 w2.
  pose proof (generate_emails_returns fs campaign_id out name tname t w
                Hc Ht Hdir Hall) as Hrun1.
  assert (Hdb1 : db w1
    = mkDatabase (campaigns (db w)) (employees (db w))
        (mark_sent (map recipient_token
                        (select_recipients campaign_id (db w)))
                   (results (db w)))).
  { unfold w1. now rewrite Hrun1. }
  assert (Hrs : select_recipients campaign_id (db w1)
                = select_recipients campaign_id (db w)).
  { rewrite Hdb1. apply select_recipients_update, mark_sent_keeps_keys. }
  assert (Hc1 : select_campaign campaign_id (db w1) = Some (name, tname)).
  { rewrite Hdb1. exact Hc. }
  assert (Hall1 : all_open fs out (select_recipients campaign_id (db w1)))
    by now rewrite Hrs.
  pose proof (generate_emails_returns fs campaign_id out name tname t w1
                Hc1 Ht Hdir Hall1) as Hrun2.
  split; [now rewrite Hrun1|].
  unfold w2. rewrite Hrun2. cbn [fst snd db written]. rewrite Hrs.
  split; [reflexivity|]. split; [|reflexivity].
  rewrite Hdb1 at 3. cbn [campaigns employees results].
  rewrite Hdb1. cbn [campaigns employees results].
  now rewrite mark_sent_idem.
Qed.

Lemma generate_emails_twice_witness :
  let w := run sample_uuid sample_clock enrolled_session in
  let w1 := snd (generate_emails sample_fs "uuid-0" "emails" w) in
  select_campaign "uuid-0" (db w) = Some ("Q1", "password_reset") /\
  templates_get templates "password_reset" = Some password_reset /\
  fs_makedirs sample_fs "emails" = None /\
  all_open sample_fs "emails" (select_recipients "uuid-0" (db w)) /\
  db (snd (generate_emails sample_fs "uuid-0" "emails" w1)) = db w1.
Proof.
  intros w w1.
  assert (Hc : select_campaign "uuid-0" (db w) = Some ("Q1", "password_reset"))
    by (vm_compute; reflexivity).
  assert (Ht : templates_get templates "password_reset" = Some password_reset)
    by reflexivity.
  assert (Hall : all_open sample_fs "emails"
                          (select_recipients "uuid-0" (db w))).
  { intros x Hx. vm_compute in Hx.
    destruct Hx as [<-|[<-|[<-|[]]]]; reflexivity. }
  split; [exact Hc|]. split; [exact Ht|]. split; [reflexivity|].
  split; [exact Hall|].
  exact (proj1 (proj2 (proj2
           (generate_emails_twice sample_fs "uuid-0" "emails" "Q1"
              "password_reset" password_reset w Hc Ht eq_refl Hall)))).
Defined.

(** ** The tracking link is in the document *)

(** X9.  Whichever template of the catalog is used, the document written
    for a recipient contains the tracking link
    http://localhost:8080/track/<token> of that recipient: every body of
    the catalog holds the placeholder {link}, and the replacement puts the
    link in its place. *)
Theorem document_holds_link (key name email token : string)
    (t : EmailTemplate) :
  templates_get templates key = Some t ->
  occurs ("http://localhost:8080/track/" ++ token)
         (email_document t name email token).
Proof.
  intros Ht. destruct (catalog_bodies key t Ht) as [pre [post [_ Hrep]]].
  unfold email_document. rewrite Hrep.
  exists ("Кому: " ++ email ++ nl ++ "Тема: " ++ t_subject t ++ nl ++
          "От: " ++ t_sender t ++ nl ++ nl ++ pre),
         (post ++ nl ++ nl ++ "---" ++ nl ++
          "Тестовое письмо для кампании: " ++ name ++ nl ++
          "Токен отслеживания: " ++ token ++ nl).
  repeat (rewrite !append_assoc; cbn [append]). reflexivity.
Qed.

Lemma document_holds_link_witness :
  templates_get templates "ceo_request" = Some ceo_request /\
  occurs "http://localhost:8080/track/uuid-2"
         (email_document ceo_request "Q1" "alice@x.com" "uuid-2").
Proof.
  split; [reflexivity|].
  exact (document_holds_link "ceo_request" "Q1" "alice@x.com" "uuid-2"
           ceo_request eq_refl).
Defined.

(** ** One click, one row *)

(** X10.  After any session with fresh uuids, a click on the token of a
    result row prints "Клик зарегистрирован" and changes that row and no
    other: tokens are unique. *)
Theorem simulate_click_one_row (U C : nat -> string) (cs : list Call)
    (r : Result) :
  let w := run U C cs in
  fresh_uuids U (entropy w) = true ->
  In r (results (db w)) ->
  let w1 := snd (simulate_click C (r_token r) w) in
  stdout w1 = (stdout w ++ ["Клик зарегистрирован"])%list /\
  Forall2 (fun x x' =>
             (x = r /\ x' = set_link_clicked (C (ticks w)) r) \/
             (x <> r /\ x' = x))
          (results (db w)) (results (db w1)).
Proof.
  intros w Hfresh Hr w1. apply fresh_uuids_injective in Hfresh.
  pose proof (session_Inv U C cs Hfresh) as HI. fold w in HI.
  pose proof (inv_tokens _ _ _ HI) as Htok.
  unfold w1. rewrite simulate_click_run. cbn [snd stdout db].
  unfold update_link_clicked, update_results. cbn [fst snd results].
  split.
  - assert (Hne : filter (fun x => String.eqb (r_token x) (r_token r))
                         (results (db w)) <> []).
    { apply filter_key_present. apply mem_In. now apply in_map. }
    destruct (filter _ (results (db w))); [congruence | reflexivity].
  - eapply Forall2_impl_left; [|apply Forall2_map_if].
    intros x x' Hx [[Hh ->]|[Hh ->]].
    + left. apply String.eqb_eq in Hh.
      assert (x = r)
        by (apply (NoDup_key_inj r_token (results (db w))); assumption).
      now subst x.
    + right. split; [|reflexivity]. intros ->.
      now rewrite String.eqb_refl in Hh.
Qed.

Lemma simulate_click_one_row_witness :
  let w := run sample_uuid sample_clock enrolled_session in
  fresh_uuids sample_uuid (entropy w) = true /\
  In sample_alice_result (results (db w)) /\
  stdout (snd (simulate_click sample_clock "uuid-2" w))
  = (stdout w ++ ["Клик зарегистрирован"])%list.
Proof.
  intros w.
  assert (Hf : fresh_uuids sample_uuid (entropy w) = true)
    by (vm_compute; reflexivity).
  assert (Hin : In sample_alice_result (results (db w)))
    by (vm_compute; left; reflexivity).
  split; [exact Hf|]. split; [exact Hin|].
  exact (proj1 (simulate_click_one_row sample_uuid sample_clock
                  enrolled_session sample_alice_result Hf Hin)).
Defined.

(** ** Enrol, then render *)

Lemma enrolled_origin (id : string) (emp : Row) (campaign_id : string)
    (es : list Employee) (e : Employee) :
  In e (enrolled id emp campaign_id es) ->
  In e es \/ e_campaign_id e = campaign_id.
Proof.
  unfold enrolled. destruct (row_get "email" emp); [|now left].
  destruct (mem s (map e_email es)); [now left|].
  intros H. apply in_app_or in H. destruct H as [H|[<-|[]]];
    [now left | now right].
Qed.

Lemma enrolled_all_origin (U : nat -> string) (campaign_id : string)
    (rows : list Row) (e : Employee) :
  forall k es, In e (enrolled_all U k campaign_id rows es) ->
               In e es \/ e_campaign_id e = campaign_id.
Proof.
  induction rows as [|emp rows IH]; intros k es H; [now left|].
  simpl in H. destruct (IH _ _ H) as [H1|H1]; [|now right].
  now apply (enrolled_origin (U k) emp campaign_id es e).
Qed.

(** X11.  Enrolment and rendering compose.  After any session, when a
    file with a row for an address not yet in the employees table is loaded
    for an existing campaign and the campaign is rendered on a file system
    that lets the output directory be created and every file be opened, the
    rendering returns, a file named after the address has been written, and
    the tables hold an employee row for the address under the campaign with
    a result row marked as sent. *)
Theorem enrol_then_render (U C : nat -> string) (cs : list Call)
    (F : string -> option (list Row)) (fs : FileSystem)
    (campaign_id file out : string)
    (rows : list Row) (emp : Row) (em : string) :
  let w := run U C cs in
  F file = Some rows ->
  rows <> [] ->
  forallb has_required_fields rows = true ->
  fresh_uuids U (entropy w + 3 * List.length rows) = true ->
  mem campaign_id (map c_id (campaigns (db w))) = true ->
  In emp rows -> row_get "email" emp = Some em ->
  ~ In em (map e_email (employees (db w))) ->
  let w1 := snd (add_employees U F campaign_id file w) in
  fs_makedirs fs out = None ->
  all_open fs out (select_recipients campaign_id (db w1)) ->
  let w2 := snd (generate_emails fs campaign_id out w1) in
  fst (generate_emails fs campaign_id out w1) = Returns tt /\
  (exists doc, In (email_filename out em, doc) (written w2)) /\
  (exists e r,
     In e (employees (db w2)) /\ e_email e = em /\
     e_campaign_id e = campaign_id /\
     In r (results (db w2)) /\ r_employee_id r = e_id e /\
     r_campaign_id r = campaign_id /\ r_email_sent r = 1%Z).
Proof.
  intros w HF Hne Hok Hfresh Hcamp Hemp Hem Hnew w1 Hdir Hall w2.
  apply fresh_uuids_injective in Hfresh.
  assert (HI : Inv U (entropy w) (db w)).
  { apply session_Inv. eapply injective_upto_le; [|exact Hfresh].
    fold w. lia. }
  pose proof (read_employees_ok F file rows HF Hne Hok) as Hread.
  destruct (add_employees_run U F campaign_id file rows w Hread HI Hfresh)
    as [Hrun HI1].
  set (d1 := mkDatabase (campaigns (db w))
        (enrolled_all U (entropy w) campaign_id rows (employees (db w)))
        (results (db w) ++ new_results U (entropy w) campaign_id rows))
    in *.
  assert (Hw1 : db w1 = d1) by (unfold w1; now rewrite Hrun).
  (* the campaign and its template *)
  destruct (select_campaign_found campaign_id (db w) Hcamp)
    as [c [Hcin [_ Hsel]]].
  destruct (session_catalog_ok U C cs c Hcin) as [Hcat _].
  destruct (in_templates_get _ Hcat) as [t Ht].
  assert (Hsel1 : select_campaign campaign_id (db w1)
                  = Some (c_name c, c_template c)).
  { rewrite Hw1. exact Hsel. }
  pose proof (generate_emails_returns fs campaign_id out _ _ t w1 Hsel1 Ht
                Hdir Hall) as Hgen.
  (* the employee row made for the address *)
  assert (Hin : In em (map e_email (employees d1))).
  { now apply (enrolled_all_has U campaign_id rows emp em). }
  apply in_map_iff in Hin. destruct Hin as [e [Hee Hein]].
  assert (Hec : e_campaign_id e = campaign_id).
  { destruct (enrolled_all_origin U campaign_id rows e _ _ Hein) as [H|H];
      [|exact H].
    exfalso. apply Hnew. rewrite <- Hee. now apply in_map. }
  destruct (inv_one_result _ _ _ HI1 e Hein) as [r [Hr Hrc]].
  assert (Hrin : In r (results_of e d1)) by (rewrite Hr; now left).
  unfold results_of in Hrin. apply filter_In in Hrin.
  destruct Hrin as [Hrin Hrm]. apply String.eqb_eq in Hrm.
  assert (Hx : In (em, e_name e, r_token r)
                  (select_recipients campaign_id (db w1))).
  { rewrite Hw1. apply select_recipients_In. exists e, r.
    repeat split; try assumption. now rewrite Hee. }
  set (rs := select_recipients campaign_id (db w1)) in *.
  assert (Htok : In (r_token r) (map recipient_token rs)).
  { apply (in_map recipient_token) in Hx. exact Hx. }
  unfold w2. rewrite Hgen. cbn [fst snd written db employees results].
  split; [reflexivity|]. split.
  - exists (email_document t (c_name c) em (r_token r)).
    apply in_or_app. right.
    apply (in_map (recipient_file t (c_name c) out)) in Hx. exact Hx.
  - rewrite Hw1. cbn [employees results].
    exists e, (set_email_sent r). repeat split; try assumption.
    + unfold mark_sent. apply in_map_iff. exists r. split; [|assumption].
      apply mem_In in Htok. now rewrite Htok.
    + cbn. now symmetry.
    + cbn. congruence.
Qed.

Lemma enrol_then_render_witness :
  let rows := [sample_row "alice@x.com" "Alice" "Eng";
               sample_row "bob@x.com" "Bob" "Eng";
               sample_row "carol@x.com" "Carol" "Sales"] in
  let w := run sample_uuid sample_clock
             [CreateCampaign "Q1" "password_reset"] in
  let w1 := snd (add_employees sample_uuid sample_files "uuid-0"
                               "employees.csv" w) in
  sample_files "employees.csv" = Some rows /\
  rows <> [] /\
  forallb has_required_fields rows = true /\
  fresh_uuids sample_uuid (entropy w + 3 * List.length rows) = true /\
  mem "uuid-0" (map c_id (campaigns (db w))) = true /\
  In (sample_row "carol@x.com" "Carol" "Sales") rows /\
  row_get "email" (sample_row "carol@x.com" "Carol" "Sales")
  = Some "carol@x.com" /\
  ~ In "carol@x.com" (map e_email (employees (db w))) /\
  fs_makedirs sample_fs "emails" = None /\
  all_open sample_fs "emails" (select_recipients "uuid-0" (db w1)) /\
  exists doc,
    In ("emails/carol_x.com.txt", doc)
       (written (snd (generate_emails sample_fs "uuid-0" "emails" w1))).
Proof.
  intros rows w w1.
  assert (Hall : all_open sample_fs "emails"
                          (select_recipients "uuid-0" (db w1))).
  { intros x Hx. vm_compute in Hx.
    destruct Hx as [<-|[<-|[<-|[]]]]; reflexivity. }
  assert (Hf : fresh_uuids sample_uuid (entropy w + 3 * List.length rows)
               = true) by (vm_compute; reflexivity).
  assert (Hm : mem "uuid-0" (map c_id (campaigns (db w))) = true)
    by (vm_compute; reflexivity).
  assert (Hin : In (sample_row "carol@x.com" "Carol" "Sales") rows)
    by (right; right; left; reflexivity).
  assert (Hnew : ~ In "carol@x.com" (map e_email (employees (db w))))
    by (vm_compute; tauto).
  split; [reflexivity|]. split; [discriminate|]. split; [reflexivity|].
  split; [exact Hf|]. split; [exact Hm|]. split; [exact Hin|].
  split; [reflexivity|]. split; [exact Hnew|]. split; [reflexivity|].
  split; [exact Hall|].
  exact (proj1 (proj2
    (enrol_then_render sample_uuid sample_clock
       [CreateCampaign "Q1" "password_reset"] sample_files sample_fs
       "uuid-0" "employees.csv" "emails" rows
       (sample_row "carol@x.com" "Carol" "Sales") "carol@x.com"
       eq_refl ltac:(discriminate) eq_refl Hf Hm Hin eq_refl Hnew
       eq_refl Hall))).
Defined.

(** ** Groups partition the rows *)

Lemma list_sum_cons (x : nat) (l : list nat) :
  list_sum (x :: l) = x + list_sum l.
Proof. reflexivity. Qed.

Lemma sum_Z_cons (x : Z) (l : list Z) : sum_Z (x :: l) = (x + sum_Z l)%Z.
Proof. reflexivity. Qed.

Lemma list_sum_add {A} (f g : A -> nat) (l : list A) :
  list_sum (map (fun a => f a + g a) l)
  = list_sum (map f l) + list_sum (map g l).
Proof. induction l as [|a l IH]; simpl; lia. Qed.

Lemma list_sum_indicator (a : option string) (l : list (option string)) :
  NoDup l -> In a l ->
  list_sum (map (fun d => if option_eqb a d then 1 else 0) l) = 1.
Proof.
  induction l as [|x l IH]; intros Hn Hin; [destruct Hin|].
  inversion Hn as [|? ? Hx Hl]; subst. cbn [map]. rewrite list_sum_cons.
  destruct (option_eqb a x) eqn:E.
  - apply option_eqb_eq in E. subst x.
    assert (Hz : list_sum (map (fun d => if option_eqb a d then 1 else 0) l)
                 = 0).
    { clear -Hx. induction l as [|y l IH]; [reflexivity|].
      cbn [map]. rewrite list_sum_cons. destruct (option_eqb a y) eqn:E.
      - apply option_eqb_eq in E. subst y. exfalso. apply Hx. now left.
      - rewrite IH; [reflexivity|]. intros H. apply Hx. now right. }
    rewrite Hz. reflexivity.
  - destruct Hin as [<-|Hin].
    + assert (option_eqb x x = true) by now apply option_eqb_eq.
      congruence.
    + now rewrite (IH Hl Hin).
Qed.

(** Counting a list group by group counts the list. *)
Lemma groups_partition {A} (key : A -> option string) (l : list A)
    (groups : list (option string)) :
  NoDup groups -> (forall a, In a l -> In (key a) groups) ->
  list_sum (map (fun d =>
                   List.length (filter (fun a => option_eqb (key a) d) l))
                groups)
  = List.length l.
Proof.
  intros Hn. induction l as [|a l IH]; intros Hin.
  - cbn [filter List.length]. clear.
    induction groups as [|g gs IHg]; [reflexivity|].
    cbn [map]. rewrite list_sum_cons. exact IHg.
  - change (List.length (a :: l)) with (1 + List.length l).
    rewrite <- IH by (intros b Hb; apply Hin; now right).
    rewrite <- (list_sum_indicator (key a) groups Hn
                  (Hin a (or_introl eq_refl))).
    rewrite <- list_sum_add. f_equal. apply map_ext. intros d.
    cbn [filter]. destruct (option_eqb (key a) d); reflexivity.
Qed.

Lemma sum_Z_of_nat {A} (f : A -> nat) (l : list A) :
  sum_Z (map (fun a => Z.of_nat (f a)) l) = Z.of_nat (list_sum (map f l)).
Proof.
  induction l as [|a l IH]; [reflexivity|].
  cbn [map]. rewrite sum_Z_cons, list_sum_cons, IH. lia.
Qed.

Lemma employees_in_filter (campaign_id : string) (dept : option string)
    (d : Database) :
  employees_in campaign_id dept d
  = filter (fun e => option_eqb (e_department e) dept)
           (employees_of_campaign campaign_id d).
Proof.
  unfold employees_in, employees_of_campaign. now rewrite filter_twice.
Qed.

(** The result rows of the employee rows of a list, one after the other. *)
Lemma results_of_NoDup (d : Database) (es : list Employee) :
  NoDup (map r_id (results d)) ->
  NoDup (map e_id es) ->
  (forall e, In e es -> exists r, results_of e d = [r]) ->
  NoDup (flat_map (fun e => results_of e d) es).
Proof.
  intros Hrid. induction es as [|e es IH]; intros Hn Hone; [constructor|].
  inversion Hn as [|? ? He Hes]; subst. cbn [flat_map].
  destruct (Hone e (or_introl eq_refl)) as [r Hr]. rewrite Hr.
  cbn [app]. constructor.
  - intros Hin. apply in_flat_map in Hin. destruct Hin as [e' [He' Hin]].
    unfold results_of in Hin, Hr. apply filter_In in Hin.
    destruct Hin as [_ Hm']. apply String.eqb_eq in Hm'.
    assert (Hrin : In r (filter (fun r => String.eqb (e_id e) (r_employee_id r))
                                (results d))) by (rewrite Hr; now left).
    apply filter_In in Hrin. destruct Hrin as [_ Hm].
    apply String.eqb_eq in Hm. apply He. rewrite Hm, <- Hm'.
    now apply in_map.
  - apply IH; [assumption|]. intros e' He'. apply Hone. now right.
Qed.

(** X12.  After any session with fresh uuids, the totals of the department
    rows of [get_stats] add up to the number of employee rows of the
    campaign, which is at most total_employees (the count of result rows
    of the campaign). *)
Theorem breakdown_totals (U C : nat -> string) (cs : list Call)
    (campaign_id : string) :
  let d := db (run U C cs) in
  fresh_uuids U (entropy (run U C cs)) = true ->
  let s := stats campaign_id d in
  sum_Z (map total (department_stats s))
  = Z.of_nat (List.length (employees_of_campaign campaign_id d)) /\
  (sum_Z (map total (department_stats s)) <= total_employees s)%Z.
Proof.
  intros d Hfresh s. apply fresh_uuids_injective in Hfresh.
  pose proof (session_Inv U C cs Hfresh) as HI. fold d in HI.
  pose proof (inv_one_result _ _ _ HI) as Hone.
  assert (Hsum : sum_Z (map total (department_stats s))
                 = Z.of_nat (List.length
                               (employees_of_campaign campaign_id d))).
  { unfold s. rewrite department_stats_stats, map_map. cbn [total].
    rewrite (sum_Z_of_nat
               (fun dept => List.length
                  (flat_map (fun e => map (pair e) (results_of e d))
                            (employees_in campaign_id dept d)))).
    f_equal.
    rewrite (map_ext _
               (fun dept => List.length
                  (filter (fun e => option_eqb (e_department e) dept)
                          (employees_of_campaign campaign_id d)))).
    - apply groups_partition.
      + eapply Permutation_NoDup; [apply sort_departments_Permutation|].
        apply NoDup_nodup.
      + intros e He. apply sort_departments_In, joined_departments_In.
        unfold employees_of_campaign in He. apply filter_In in He.
        destruct He as [He Hc]. apply String.eqb_eq in Hc.
        destruct (Hone e He) as [r [Hr _]]. exists e, r.
        split; [|reflexivity]. apply join_In.
        assert (Hin : In r (results_of e d)) by (rewrite Hr; now left).
        unfold results_of in Hin. apply filter_In in Hin.
        destruct Hin as [Hrin Hid]. apply String.eqb_eq in Hid.
        now repeat split.
    - intros dept. rewrite <- employees_in_filter.
      apply length_pairs_one. intros e He. unfold employees_in in He.
      apply filter_In in He. destruct (Hone e (proj1 He)) as [r [Hr _]].
      now rewrite Hr. }
  split; [exact Hsum|]. rewrite Hsum. unfold s.
  rewrite total_employees_stats. apply Nat2Z.inj_le.
  set (es := employees_of_campaign campaign_id d).
  assert (Hes : forall e, In e es -> In e (employees d) /\
                                     e_campaign_id e = campaign_id).
  { intros e He. unfold es, employees_of_campaign in He.
    apply filter_In in He. destruct He as [He Hc].
    apply String.eqb_eq in Hc. now split. }
  assert (Hlen : List.length (flat_map (fun e => results_of e d) es)
                 = List.length es).
  { clear -Hes Hone. induction es as [|e es IH]; [reflexivity|].
    cbn [flat_map]. rewrite length_app, IH.
    - destruct (Hone e (proj1 (Hes e (or_introl eq_refl)))) as [r [-> _]].
      reflexivity.
    - intros e' He'. apply Hes. now right. }
  rewrite <- Hlen. apply NoDup_incl_length.
  - apply results_of_NoDup.
    + exact (inv_result_ids _ _ _ HI).
    + unfold es, employees_of_campaign.
      pose proof (inv_employee_ids _ _ _ HI) as Hn.
      clear -Hn. induction (employees d) as [|e l IH]; [constructor|].
      inversion Hn as [|? ? He Hl]; subst. cbn [filter].
      destruct (String.eqb (e_campaign_id e) campaign_id); [|now apply IH].
      cbn [map]. constructor; [|now apply IH].
      intros Hin. apply He. apply in_map_iff in Hin.
      destruct Hin as [x [Hx Hin]]. apply filter_In in Hin.
      rewrite <- Hx. apply in_map. tauto.
    + intros e He. destruct (Hone e (proj1 (Hes e He))) as [r [Hr _]].
      now exists r.
  - intros r Hr. apply in_flat_map in Hr. destruct Hr as [e [He Hr]].
    destruct (Hes e He) as [Hein Hc].
    destruct (Hone e Hein) as [r0 [Hr0 Hrc]]. rewrite Hr0 in Hr.
    destruct Hr as [<-|[]].
    assert (Hrin : In r0 (results_of e d)) by (rewrite Hr0; now left).
    unfold results_of in Hrin. apply filter_In in Hrin.
    apply filter_In. split; [tauto|]. apply String.eqb_eq. congruence.
Qed.

Lemma breakdown_totals_witness :
  let d := db (run sample_uuid sample_clock reenrol_session) in
  fresh_uuids sample_uuid
    (entropy (run sample_uuid sample_clock reenrol_session)) = true /\
  sum_Z (map total (department_stats (stats "uuid-0" d)))
  = Z.of_nat (List.length (employees_of_campaign "uuid-0" d)) /\
  total_employees (stats "uuid-0" d) = 2%Z /\
  List.length (employees_of_campaign "uuid-0" d) = 1.
Proof.
  intros d.
  assert (Hf : fresh_uuids sample_uuid
                 (entropy (run sample_uuid sample_clock reenrol_session))
               = true) by (vm_compute; reflexivity).
  split; [exact Hf|]. split.
  - exact (proj1 (breakdown_totals sample_uuid sample_clock reenrol_session
                    "uuid-0" Hf)).
  - split; vm_compute; reflexivity.
Defined.

(** ** File names *)

Lemma replace_at_cons (c : ascii) (s : string) :
  py_replace "@" "_" (String c s)
  = String (if ascii_dec "@"%char c then "_"%char else c)
           (py_replace "@" "_" s).
Proof.
  unfold py_replace. cbn [replace_from String.prefix].
  destruct (ascii_dec "@"%char c); cbn [String.prefix].
  - destruct s; reflexivity.
  - reflexivity.
Qed.

Lemma replace_at_length (s : string) :
  String.length (py_replace "@" "_" s) = String.length s.
Proof.
  induction s as [|c s IH]; [reflexivity|].
  rewrite replace_at_cons. cbn [String.length]. now rewrite IH.
Qed.

Lemma replace_at_clean (s : string) : ~ occurs "@" (py_replace "@" "_" s).
Proof.
  induction s as [|c s IH].
  - intros [a [b H]]. destruct a; discriminate.
  - rewrite replace_at_cons. intros Hocc.
    destruct (occurs_cons _ _ _ Hocc) as [Hp|Hs]; [|contradiction].
    cbn [String.prefix] in Hp.
    destruct (ascii_dec "@"%char c) as [Hc|Hc].
    + destruct (ascii_dec "@"%char "_"%char); discriminate.
    + destruct (ascii_dec "@"%char c); [contradiction | discriminate].
Qed.

Lemma replace_at_changes (s : string) :
  occurs "@" s -> py_replace "@" "_" s <> s.
Proof.
  intros Hocc Heq. apply (replace_at_clean s). now rewrite Heq.
Qed.

(** X13.  The name of the file an email is written to: the output
    directory, "/", the address with every "@" replaced by "_", ".txt".
    The replaced text has the length of the address and no "@"; an address
    and its replaced form are written to the same file, and they differ as
    soon as the address contains "@". *)
Theorem email_filename_normalised (out email : string) :
  let local := py_replace "@" "_" email in
  email_filename out email = out ++ "/" ++ local ++ ".txt" /\
  String.length local = String.length email /\
  ~ occurs "@" local /\
  email_filename out local = email_filename out email /\
  (occurs "@" email -> local <> email).
Proof.
  intros local. split; [reflexivity|].
  split; [apply replace_at_length|]. split; [apply replace_at_clean|].
  split; [|apply replace_at_changes].
  assert (H : py_replace "@" "_" local = local).
  { unfold py_replace. apply replace_from_none. apply replace_at_clean. }
  unfold email_filename. rewrite H. reflexivity.
Qed.

Lemma email_filename_normalised_witness :
  occurs "@" "alice@x.com" /\
  py_replace "@" "_" "alice@x.com" <> "alice@x.com" /\
  email_filename "emails" (py_replace "@" "_" "alice@x.com")
  = email_filename "emails" "alice@x.com".
Proof.
  assert (Ho : occurs "@" "alice@x.com")
    by (exists "alice", "x.com"; reflexivity).
  pose proof (email_filename_normalised "emails" "alice@x.com") as H.
  cbv zeta in H. destruct H as [_ [_ [_ [H4 H5]]]].
  split; [exact Ho|]. split; [exact (H5 Ho) | exact H4].
Defined.

(** ** Slices *)


Lemma py_prefix_short (n : nat) (s : string) :
  String.length s <= n -> py_prefix n s = s.
Proof.
  revert n. induction s as [|c s IH]; intros n Hlen; [reflexivity|].
  cbn [py_prefix]. cbn [String.length] in Hlen.
  destruct (is_continuation c).
  - f_equal. apply IH. lia.
  - destruct n as [|k]; [lia|]. f_equal. apply IH. lia.
Qed.

(** ** [list_campaigns] *)

Lemma list_loop (cs : list Campaign) :
  forall w,
    for_each cs
      (fun c =>
         print ("ID: " ++ py_prefix 8 (c_id c) ++ "...") ;;;
         print ("  Название: " ++ c_name c) ;;;
         print ("  Шаблон: " ++ c_template c) ;;;
         print ("  Создана: " ++ py_prefix 10 (c_created c)) ;;;
         print ("  Статус: " ++ c_status c) ;;;
         print "") w
    = (Returns tt,
       mkWorld (db w) (entropy w) (ticks w)
               (stdout w ++ flat_map campaign_block cs) (written w)).
Proof.
  induction cs as [|c cs IH]; intros w.
  - simpl. unfold ret. now rewrite app_nil_r, world_eta.
  - cbn [for_each]. unfold bind at 1. unfold bind at 1, print at 1 2 3 4 5 6.
    cbn [bind fst snd db entropy ticks stdout written].
    unfold bind. cbn [db entropy ticks stdout written].
    rewrite IH. cbn [db entropy ticks stdout written flat_map campaign_block].
    rewrite <- !app_assoc. reflexivity.
Qed.

(** X14.  [list_campaigns] always returns, changes nothing but the
    console, and prints one line when there is no campaign, otherwise the
    heading, a rule of 80 dashes and six lines per campaign row, in the
    order of the table. *)
Theorem list_campaigns_spec (w : World) :
  let lines :=
    match campaigns (db w) with
    | [] => ["Нет созданных кампаний"]
    | cs => (nl ++ "Список кампаний:")%string
            :: py_repeat "-" 80
            :: flat_map campaign_block cs
    end in
  list_campaigns w
  = (Returns tt,
     mkWorld (db w) (entropy w) (ticks w) (stdout w ++ lines) (written w)) /\
  List.length lines
  = match campaigns (db w) with
    | [] => 1
    | cs => 2 + 6 * List.length cs
    end.
Proof.
  intros lines. split.
  - unfold list_campaigns, except_sqlite3, with_connection.
    unfold bind at 1. unfold query at 1. cbn [fst snd].
    unfold lines. destruct (campaigns (db w)) as [|c cs] eqn:E.
    + reflexivity.
    + unfold bind at 1. unfold print at 1. unfold bind at 1. unfold print at 1.
      rewrite list_loop. cbn [db entropy ticks stdout written].
      rewrite <- !app_assoc. reflexivity.
  - assert (Hlen : forall l, List.length (flat_map campaign_block l)
                             = 6 * List.length l).
    { induction l as [|x l IH]; [reflexivity|].
      cbn [flat_map]. rewrite length_app, IH.
      cbn [campaign_block List.length]. lia. }
    unfold lines. destruct (campaigns (db w)) as [|c cs]; [reflexivity|].
    cbn [List.length]. rewrite (Hlen (c :: cs)). cbn [List.length]. lia.
Qed.

(** ** [export_report] *)



(** ** Unique keys, whatever the uuids *)

Lemma keys_ok_update (d : Database) (g : Result -> Result) :
  keeps_keys g -> keys_ok d ->
  keys_ok (mkDatabase (campaigns d) (employees d) (map g (results d))).
Proof.
  intros Hg [H1 [H2 [H3 [H4 H5]]]].
  assert (Hid : map r_id (map g (results d)) = map r_id (results d)).
  { rewrite map_map. apply map_ext. intros r. apply Hg. }
  assert (Htok : map r_token (map g (results d)) = map r_token (results d)).
  { rewrite map_map. apply map_ext. intros r. apply Hg. }
  repeat split; cbn [campaigns employees results]; try assumption.
  - now rewrite Hid.
  - now rewrite Htok.
Qed.

Lemma keys_ok_insert_employee (id : string)
    (email name department : option string) (campaign_id : string)
    (d : Database) :
  keys_ok d ->
  keys_ok (insert_or_ignore_employee id email name department campaign_id d).
Proof.
  intros [H1 [H2 [H3 [H4 H5]]]]. unfold insert_or_ignore_employee.
  destruct email as [em|]; [|now repeat split].
  destruct (mem id (map e_id (employees d))) eqn:E1; [now repeat split|].
  destruct (mem em (map e_email (employees d))) eqn:E2; [now repeat split|].
  cbn [orb]. apply mem_not_In in E1. apply mem_not_In in E2.
  repeat split; cbn [campaigns employees results]; try assumption;
    rewrite map_app; now apply NoDup_snoc.
Qed.

Lemma keys_ok_insert_result (id employee_id campaign_id token : string)
    (d d' : Database) :
  keys_ok d ->
  insert_result id employee_id campaign_id token d = Done d' ->
  keys_ok d'.
Proof.
  intros [H1 [H2 [H3 [H4 H5]]]]. unfold insert_result.
  destruct (mem token (map r_token (results d))) eqn:E2; [discriminate|].
  destruct (mem id (map r_id (results d))) eqn:E1; [discriminate|].
  intros H. injection H as <-.
  apply mem_not_In in E1. apply mem_not_In in E2.
  repeat split; cbn [campaigns employees results]; try assumption;
    rewrite map_app; now apply NoDup_snoc.
Qed.

Lemma enroll_loop_keys_ok (U : nat -> string) (campaign_id : string)
    (rows : list Row) :
  forall w, keys_ok (db w) ->
            keys_ok (db (snd (for_each rows (enroll U campaign_id) w))).
Proof.
  induction rows as [|emp rows IH]; intros w Hok; [exact Hok|].
  cbn [for_each]. unfold bind at 1. rewrite enroll_run.
  pose proof (keys_ok_insert_employee (U (entropy w)) (row_get "email" emp)
                (row_get "name" emp) (row_get "department" emp)
                campaign_id (db w) Hok) as Hok1.
  destruct (insert_result _ _ _ _ _) as [d2|msg] eqn:E.
  - apply IH. cbn [db]. eapply keys_ok_insert_result; eassumption.
  - exact Hok1.
Qed.

Lemma call_keys_ok (U C : nat -> string) (c : Call) (w : World) :
  keys_ok (db w) -> keys_ok (db (call U C c w)).
Proof.
  intros Hok.
  destruct c as [name template | F cid file | fs cid out | token
                | email cid | cid]; simpl.
  - unfold create_campaign.
    destruct (in_templates templates template); simpl; [|assumption].
    unfold bind, except_sqlite3, with_connection, uuid4, now_isoformat,
      execute, print, ret, raise, set_db, insert_campaign. simpl.
    destruct (mem _ (map c_id (campaigns (db w)))) eqn:E; simpl;
      [assumption|].
    destruct Hok as [H1 [H2 [H3 [H4 H5]]]]. apply mem_not_In in E.
    repeat split; cbn [campaigns employees results]; try assumption.
    rewrite map_app. now apply NoDup_snoc.
  - unfold add_employees.
    destruct (read_employees F file) as [rows|e]; [|assumption].
    pose proof (enroll_loop_keys_ok U cid rows w Hok) as Hloop.
    unfold except_sqlite3, with_connection, bind.
    destruct (for_each rows (enroll U cid) w) as [[[]|e] w1]; simpl in *.
    + assumption.
    + destruct e; assumption.
  - destruct (generate_emails_world fs cid out w)
      as [tokens [files [lines [_ ->]]]]. simpl.
    apply keys_ok_update; [|assumption]. apply mark_sent_keeps_keys.
  - rewrite simulate_click_run. simpl. apply keys_ok_update; [|assumption].
    apply keeps_keys_when, keeps_keys_link_clicked.
  - rewrite report_phishing_run. simpl.
    apply (keys_ok_update (db w)
             (fun r => if mem (r_employee_id r)
                (map e_id
                   (filter (fun e => String.eqb (e_email e) email &&
                                     String.eqb (e_campaign_id e) cid)
                           (employees (db w))))
              then set_phishing_reported (C (ticks w)) r else r));
      [|assumption].
    apply (keeps_keys_when
             (fun r => mem (r_employee_id r)
                (map e_id
                   (filter (fun e => String.eqb (e_email e) email &&
                                     String.eqb (e_campaign_id e) cid)
                           (employees (db w)))))),
          keeps_keys_phishing_reported.
  - now rewrite get_stats_world.
Qed.

(** X16.  The uniqueness constraints of the schema are kept by every
    method: when the ids of the three tables, the employee emails and the
    result tokens are without duplicates, they still are after any sequence
    of calls. *)
Theorem keys_stay_unique (U C : nat -> string) (w : World)
    (cs : list Call) :
  keys_ok (db w) -> keys_ok (db (run_from U C w cs)).
Proof.
  intros Hok. induction cs as [|c cs IH] using rev_ind; [exact Hok|].
  rewrite run_from_snoc. now apply call_keys_ok.
Qed.

Lemma keys_stay_unique_witness :
  keys_ok (db initial_world) /\
  keys_ok (db (run_from sample_uuid sample_clock initial_world
                        scenario_session)).
Proof.
  assert (H0 : keys_ok (db initial_world)) by (repeat split; constructor).
  split; [exact H0|].
  exact (keys_stay_unique sample_uuid sample_clock initial_world
           scenario_session H0).
Defined.

(** ** Enrolling under a campaign that does not exist *)

(** X17.  [add_employees] does not look the campaign up.  Under an id
    that is not in the campaigns table it returns normally and the
    total_employees of that id grows by the number of lines of the file,
    while [generate_emails] for the same id still raises
    ValueError("Кампания не найдена"). *)
Theorem enrol_unknown_campaign (U C : nat -> string) (cs : list Call)
    (F : string -> option (list Row)) (fs : FileSystem)
    (campaign_id file out : string) (rows : list Row) :
  let w := run U C cs in
  F file = Some rows ->
  rows <> [] ->
  forallb has_required_fields rows = true ->
  fresh_uuids U (entropy w + 3 * List.length rows) = true ->
  mem campaign_id (map c_id (campaigns (db w))) = false ->
  let w1 := snd (add_employees U F campaign_id file w) in
  fst (add_employees U F campaign_id file w) = Returns tt /\
  total_employees (stats campaign_id (db w1))
  = (total_employees (stats campaign_id (db w))
     + Z.of_nat (List.length rows))%Z /\
  generate_emails fs campaign_id out w1
  = (Raises (ValueError "Кампания не найдена"), w1).
Proof.
  intros w HF Hne Hok Hfresh Hno w1.
  apply fresh_uuids_injective in Hfresh.
  assert (HI : Inv U (entropy w) (db w)).
  { apply session_Inv. eapply injective_upto_le; [|exact Hfresh].
    fold w. lia. }
  pose proof (read_employees_ok F file rows HF Hne Hok) as Hread.
  destruct (add_employees_run U F campaign_id file rows w Hread HI Hfresh)
    as [Hrun _].
  assert (Hw1 : db w1
    = mkDatabase (campaigns (db w))
        (enrolled_all U (entropy w) campaign_id rows (employees (db w)))
        (results (db w) ++ new_results U (entropy w) campaign_id rows)).
  { unfold w1. now rewrite Hrun. }
  split; [now rewrite Hrun|]. split.
  - rewrite !total_employees_stats, Hw1. cbn [results].
    rewrite filter_app, length_app.
    rewrite (filter_all _ (new_results U (entropy w) campaign_id rows)).
    + rewrite new_results_length. lia.
    + intros r Hr. apply String.eqb_eq.
      now apply (new_results_campaign U campaign_id rows (entropy w) r).
  - apply generate_emails_no_campaign. apply select_campaign_absent.
    rewrite Hw1. exact Hno.
Qed.

Lemma enrol_unknown_campaign_witness :
  let rows := [sample_row "alice@x.com" "Alice" "Eng";
               sample_row "bob@x.com" "Bob" "Eng";
               sample_row "carol@x.com" "Carol" "Sales"] in
  let w := run sample_uuid sample_clock [] in
  let w1 := snd (add_employees sample_uuid sample_files "ghost"
                               "employees.csv" w) in
  sample_files "employees.csv" = Some rows /\
  rows <> [] /\
  forallb has_required_fields rows = true /\
  fresh_uuids sample_uuid (entropy w + 3 * List.length rows) = true /\
  mem "ghost" (map c_id (campaigns (db w))) = false /\
  total_employees (stats "ghost" (db w1)) = 3%Z /\
  generate_emails sample_fs "ghost" "emails" w1
  = (Raises (ValueError "Кампания не найдена"), w1).
Proof.
  intros rows w w1.
  assert (Hf : fresh_uuids sample_uuid (entropy w + 3 * List.length rows)
               = true) by (vm_compute; reflexivity).
  split; [reflexivity|]. split; [discriminate|]. split; [reflexivity|].
  split; [exact Hf|]. split; [reflexivity|].
  destruct (enrol_unknown_campaign sample_uuid sample_clock [] sample_files
              sample_fs "ghost" "employees.csv" "emails" rows
              eq_refl ltac:(discriminate) eq_refl Hf eq_refl)
    as [_ [Ht Hg]].
  split; [exact Ht | exact Hg].
Defined.

(** ** The three flags do not interfere *)

(** X18.  The three events are recorded independently.  [simulate_click]
    leaves email_sent, phishing_reported and reported_at of every row as
    they were; [report_phishing] leaves email_sent, link_clicked and
    clicked_at; [generate_emails] leaves link_clicked, clicked_at,
    phishing_reported and reported_at. *)
Theorem flags_independent (C : nat -> string) (w : World) :
  (forall token,
     Forall2 (fun r r' =>
                r_email_sent r' = r_email_sent r /\
                r_phishing_reported r' = r_phishing_reported r /\
                r_reported_at r' = r_reported_at r)
             (results (db w))
             (results (db (snd (simulate_click C token w))))) /\
  (forall email campaign_id,
     Forall2 (fun r r' =>
                r_email_sent r' = r_email_sent r /\
                r_link_clicked r' = r_link_clicked r /\
                r_clicked_at r' = r_clicked_at r)
             (results (db w))
             (results (db (snd (report_phishing C email campaign_id w))))) /\
  (forall fs campaign_id out,
     Forall2 (fun r r' =>
                r_link_clicked r' = r_link_clicked r /\
                r_clicked_at r' = r_clicked_at r /\
                r_phishing_reported r' = r_phishing_reported r /\
                r_reported_at r' = r_reported_at r)
             (results (db w))
             (results (db (snd (generate_emails fs campaign_id out w))))).
Proof.
  assert (Hmap : forall (R : Result -> Result -> Prop) p g rs,
            (forall r, R r r) -> (forall r, R r (g r)) ->
            Forall2 R rs (map (fun r : Result => if p r : bool then g r else r) rs)).
  { intros R p g rs Hrefl Hg. induction rs as [|r rs IH]; simpl;
      constructor; [|exact IH]. destruct (p r); auto. }
  assert (Hrefl : forall (R : Result -> Result -> Prop) rs,
            (forall r, R r r) -> Forall2 R rs rs).
  { intros R rs H. induction rs; constructor; auto. }
  split; [|split].
  - intros token. rewrite simulate_click_run. cbn [snd db].
    unfold update_link_clicked, update_results. cbn [fst results].
    apply Hmap; intros r; now repeat split.
  - intros email cid. rewrite report_phishing_run. cbn [snd db].
    unfold update_phishing_reported, update_results. cbn [fst results].
    apply Hmap; intros r; now repeat split.
  - intros fs cid out.
    destruct (generate_emails_world fs cid out w)
      as [tokens [files [lines [_ ->]]]].
    cbn [snd db results]. unfold mark_sent.
    apply Hmap; intros r; now repeat split.
Qed.

(** ** Totals change by enrolment only *)

Lemma filter_campaign_update (campaign_id : string) (g : Result -> Result)
    (rs : list Result) :
  keeps_keys g ->
  List.length (filter (fun r => String.eqb (r_campaign_id r) campaign_id)
                      (map g rs))
  = List.length (filter (fun r => String.eqb (r_campaign_id r) campaign_id)
                        rs).
Proof.
  intros Hg. rewrite filter_map_swap, length_map. f_equal.
  apply filter_ext. intros r. destruct (Hg r) as [_ [_ [-> _]]]. reflexivity.
Qed.

(** X19.  The total_employees of a campaign is changed by [add_employees]
    only: every other call leaves it as it was. *)
Theorem total_changes_by_enrolment_only (U C : nat -> string) (c : Call)
    (w : World) (campaign_id : string) :
  (forall F cid file, c <> AddEmployees F cid file) ->
  total_employees (stats campaign_id (db (call U C c w)))
  = total_employees (stats campaign_id (db w)).
Proof.
  intros Hc. rewrite !total_employees_stats. f_equal.
  destruct c as [name template | F cid file | fs cid out | token
                | email cid | cid]; simpl.
  - unfold create_campaign.
    destruct (in_templates templates template); simpl; [|reflexivity].
    unfold bind, except_sqlite3, with_connection, uuid4, now_isoformat,
      execute, print, ret, raise, set_db, insert_campaign. simpl.
    destruct (mem _ (map c_id (campaigns (db w)))); reflexivity.
  - exfalso. now apply (Hc F cid file).
  - destruct (generate_emails_world fs cid out w)
      as [tokens [files [lines [_ ->]]]]. simpl.
    apply filter_campaign_update, mark_sent_keeps_keys.
  - rewrite simulate_click_run. simpl. apply filter_campaign_update.
    apply keeps_keys_when, keeps_keys_link_clicked.
  - rewrite report_phishing_run. simpl.
    apply (filter_campaign_update campaign_id
             (fun r => if mem (r_employee_id r)
                (map e_id
                   (filter (fun e => String.eqb (e_email e) email &&
                                     String.eqb (e_campaign_id e) cid)
                           (employees (db w))))
              then set_phishing_reported (C (ticks w)) r else r)).
    apply (keeps_keys_when
             (fun r => mem (r_employee_id r)
                (map e_id
                   (filter (fun e => String.eqb (e_email e) email &&
                                     String.eqb (e_campaign_id e) cid)
                           (employees (db w)))))),
          keeps_keys_phishing_reported.
  - now rewrite get_stats_world.
Qed.

Lemma total_changes_by_enrolment_only_witness :
  let w := run sample_uuid sample_clock enrolled_session in
  (forall F cid file, SimulateClick "uuid-2" <> AddEmployees F cid file) /\
  total_employees
    (stats "uuid-0"
       (db (call sample_uuid sample_clock (SimulateClick "uuid-2") w)))
  = total_employees (stats "uuid-0" (db w)).
Proof.
  intros w.
  assert (H : forall F cid file,
            SimulateClick "uuid-2" <> AddEmployees F cid file)
    by (intros; discriminate).
  split; [exact H|].
  exact (total_changes_by_enrolment_only sample_uuid sample_clock
           (SimulateClick "uuid-2") w "uuid-0" H).
Defined.

(** ** No overflow on tables the program filled *)







(** The groups of the breakdown come sorted, the department NULL first,
    whatever the order of enrolment; and a SUM that leaves the 64-bit range
    makes [get_stats] raise. *)
Example get_stats_samples :
  let w := run sample_uuid sample_clock depts_session in
  let big1 := mkResult "r1" "e1" "c1" 0 (2 ^ 62) 0 None None "t1" in
  let big2 := mkResult "r2" "e2" "c1" 0 (2 ^ 62) 0 None None "t2" in
  let v := mkWorld (mkDatabase [] [] [big1; big2]) 0 0 [] [] in
  map (fun e => e_department e) (employees (db w))
  = [Some "Sales"; Some "Eng"; None] /\
  department_stats (stats "uuid-0" (db w))
  = [mkDepartmentStats None 1 0 0;
     mkDepartmentStats (Some "Eng") 1 0 0;
     mkDepartmentStats (Some "Sales") 1 0 0] /\
  get_stats "c1" v
  = (Raises (RuntimeError "Ошибка БД: integer overflow"), v).
Proof. repeat split; vm_compute; reflexivity. Qed.

(** ** One result row per employee, on the scenario *)

Lemma employee_has_one_result_witness :
  let d := db (run sample_uuid sample_clock scenario_session) in
  fresh_uuids sample_uuid
    (entropy (run sample_uuid sample_clock scenario_session)) = true /\
  In sample_alice (employees d) /\
  exists r, results_of sample_alice d = [r] /\
            r_campaign_id r = e_campaign_id sample_alice.
Proof.
  intros d.
  assert (Hf : fresh_uuids sample_uuid
                 (entropy (run sample_uuid sample_clock scenario_session))
               = true) by (vm_compute; reflexivity).
  assert (Hin : In sample_alice (employees d))
    by (vm_compute; left; reflexivity).
  split; [exact Hf|]. split; [exact Hin|].
  exact (employee_has_one_result sample_uuid sample_clock scenario_session
           Hf sample_alice Hin).
Defined.
